(** * DCS Liberation: the declarative settings framework and the ground unit
    catalog, embedded in Rocq.

    The development follows three source files:
    - [game/settings/booleanoption.py]: the [boolean_option] declaration;
    - [qt_ui/windows/settings/QSettingsWindow.py]: [AutoSettingsLayout], the
      binder that turns option descriptions into Qt controls;
    - [game/dcs/groundunittype.py]: [GroundUnitType] and its pickle hook.

    Python objects are dynamically typed, so a single type [value] stands for
    the objects that end up in an instance [__dict__]; dictionaries keyed by
    strings are [gmap string _]; raising code returns a [result]. *)

From Stdlib Require Import ZArith Ascii String List Floats.SpecFloat.
From stdpp Require Import gmap strings list fin_maps.

Local Open Scope string_scope.
Local Open Scope Z_scope.
Local Open Scope list_scope.

(** * Python values and exceptions *)

Module Py.

(** A Python [float] is an IEEE 754 binary64 datum. *)
Definition float : Type := spec_float.

(** The objects stored in the dictionaries of this development.  [VObj]
    is any other object (a class, an enum member, a dataclass instance),
    known by identity only. *)
Inductive value : Type :=
| VNone
| VBool (b : bool)
| VInt (z : Z)
| VFloat (f : float)
| VStr (s : string)
| VObj (id : N).

Inductive exn : Type :=
| KeyError (key : value)
| AttributeError (name : string)
| TypeError (msg : string)
| ValueError (msg : string)
| OverflowError.

Inductive result (A : Type) : Type :=
| Ok (a : A)
| Raise (e : exn).
Arguments Ok {A} a.
Arguments Raise {A} e.

Definition bind {A B} (r : result A) (k : A -> result B) : result B :=
  match r with
  | Ok a => k a
  | Raise e => Raise e
  end.

(** [d[key]] on a dictionary with string keys. *)
Definition getitem {A} (d : gmap string A) (key : string) : result A :=
  match d !! key with
  | Some a => Ok a
  | None => Raise (KeyError (VStr key))
  end.

(** [d.update(other)]: the entries of [other] win. *)
Definition update {A} (d other : gmap string A) : gmap string A :=
  other ∪ d.

(** The truth value of an object, which [not x] negates. *)
Definition truth (v : value) : bool :=
  match v with
  | VNone => false
  | VBool b => b
  | VInt z => negb (z =? 0)
  | VFloat f => negb (SFeqb f (S754_zero false))
  | VStr s => negb (String.eqb s "")
  | VObj _ => true
  end.

End Py.

Export Py.

Notation "'let*' x ':=' r 'in' k" := (Py.bind r (fun x => k))
  (at level 10, x pattern, r at level 100, k at level 200).

Global Instance float_eq_dec : EqDecision Py.float.
Proof. unfold Py.float. solve_decision. Defined.

Global Instance value_eq_dec : EqDecision value.
Proof. solve_decision. Defined.

Global Instance exn_eq_dec : EqDecision exn.
Proof. solve_decision. Defined.

(** * [dataclasses.field] *)

Module Dataclasses.

(** The sentinel [dataclasses.MISSING]: the one object of a class of its
    own, known by its identity like any object here. *)
Definition MISSING : value := VObj 0.

(** A [dataclasses.Field] as [field()] builds it.  [M] is the type of the
    metadata values.  [default_factory] and [kw_only] are [None] when they
    hold [MISSING]. *)
Record Field (M : Type) : Type := mkField {
  default : value;
  default_factory : option value;
  init : value;
  repr : value;
  hash : value;
  compare : value;
  metadata : gmap string M;
  kw_only : option value
}.
Arguments mkField {M}.
Arguments default {M}.
Arguments default_factory {M}.
Arguments init {M}.
Arguments repr {M}.
Arguments hash {M}.
Arguments compare {M}.
Arguments metadata {M}.
Arguments kw_only {M}.

(** The extra keyword arguments of a call [field(metadata=m, default=d,
    **kwargs)], applied in order to the field built so far.  [default] and
    [metadata] are already bound by the caller, so a second binding is a
    [TypeError], as is a keyword [field] does not have. *)
Fixpoint apply_kwargs {M} (kwargs : list (string * value)) (f : Field M)
  : result (Field M) :=
  match kwargs with
  | [] => Ok f
  | (k, v) :: rest =>
    if String.eqb k "default_factory" then
      apply_kwargs rest
        (mkField (default f) (if decide (v = MISSING) then None else Some v)
                 (init f) (repr f) (hash f) (compare f) (metadata f)
                 (kw_only f))
    else if String.eqb k "init" then
      apply_kwargs rest
        (mkField (default f) (default_factory f) v (repr f) (hash f)
                 (compare f) (metadata f) (kw_only f))
    else if String.eqb k "repr" then
      apply_kwargs rest
        (mkField (default f) (default_factory f) (init f) v (hash f)
                 (compare f) (metadata f) (kw_only f))
    else if String.eqb k "hash" then
      apply_kwargs rest
        (mkField (default f) (default_factory f) (init f) (repr f) v
                 (compare f) (metadata f) (kw_only f))
    else if String.eqb k "compare" then
      apply_kwargs rest
        (mkField (default f) (default_factory f) (init f) (repr f) (hash f)
                 v (metadata f) (kw_only f))
    else if String.eqb k "kw_only" then
      apply_kwargs rest
        (mkField (default f) (default_factory f) (init f) (repr f) (hash f)
                 (compare f) (metadata f)
                 (if decide (v = MISSING) then None else Some v))
    else if String.eqb k "default" || String.eqb k "metadata" then
      Raise (TypeError "got multiple values for keyword argument")
    else
      Raise (TypeError "got an unexpected keyword argument")
  end.

(** [field(metadata=m, default=d, **kwargs)].  The defaults of the other
    parameters are [default_factory=MISSING, init=True, repr=True, hash=None,
    compare=True, kw_only=MISSING]; a default and a default factory that are
    both not [MISSING] are a [ValueError]. *)
Definition field {M} (m : gmap string M) (d : value)
    (kwargs : list (string * value)) : result (Field M) :=
  let* f := apply_kwargs kwargs
              (mkField d None (VBool true) (VBool true) VNone (VBool true)
                       m None) in
  match default_factory f with
  | Some _ =>
    if decide (d = MISSING) then Ok f
    else Raise (ValueError "cannot specify both default and default_factory")
  | None => Ok f
  end.

End Dataclasses.

(** * Option descriptions ([game/settings]) *)

Module Settings.

(** The descriptions of options, by their class.  Each of the first five
    constructors is an instance of that very class; it starts with the four
    fields of the base class [OptionDescription], in the order of its
    dataclass: [page], [section], [text], [detail].  [PlainOption] is an
    instance of a class that neither is nor derives from one of the four
    option classes, such as [OptionDescription] itself.  [Subclass name base]
    is an instance of a class [name] that derives from the class of [base]:
    it has the fields of [base] and passes every [isinstance] test that
    [base] passes, while its own class is none of the five. *)
Inductive OptionDescription : Type :=
| BooleanOption (page section text : string) (detail : option string)
    (invert : bool)
| ChoicesOption (page section text : string) (detail : option string)
    (choices : list (string * value))
| BoundedFloatOption (page section text : string) (detail : option string)
    (min max : Py.float) (divisor : Z)
| BoundedIntOption (page section text : string) (detail : option string)
    (min max : Z)
| PlainOption (page section text : string) (detail : option string)
| Subclass (class_name : string) (base : OptionDescription).

(** The instance as the class it derives from sees it: what [isinstance]
    and the reads of the inherited fields go by. *)
Fixpoint as_instance (d : OptionDescription) : OptionDescription :=
  match d with
  | Subclass _ base => as_instance base
  | _ => d
  end.

Fixpoint text (d : OptionDescription) : string :=
  match d with
  | BooleanOption _ _ t _ _ | ChoicesOption _ _ t _ _
  | BoundedFloatOption _ _ t _ _ _ _ | BoundedIntOption _ _ t _ _ _
  | PlainOption _ _ t _ => t
  | Subclass _ base => text base
  end.

Fixpoint detail (d : OptionDescription) : option string :=
  match d with
  | BooleanOption _ _ _ x _ | ChoicesOption _ _ _ x _
  | BoundedFloatOption _ _ _ x _ _ _ | BoundedIntOption _ _ _ x _ _
  | PlainOption _ _ _ x => x
  | Subclass _ base => detail base
  end.

(** The class of the object is one of the four option classes itself. *)
Definition of_the_closed_set (d : OptionDescription) : bool :=
  match d with
  | BooleanOption _ _ _ _ _ | ChoicesOption _ _ _ _ _
  | BoundedFloatOption _ _ _ _ _ _ _ | BoundedIntOption _ _ _ _ _ _ => true
  | PlainOption _ _ _ _ | Subclass _ _ => false
  end.

(** Modelled from the spec: [ChoicesOption.text_for_value] of
    [choicesoption.py], which is not part of the sources: the "reverse
    lookup" from a stored value to its display text, the first match in
    iteration order.  [None] when no text maps to the value. *)
Fixpoint text_for_value (choices : list (string * value)) (v : value)
  : option string :=
  match choices with
  | [] => None
  | (t, v') :: rest =>
    if decide (v = v') then Some t else text_for_value rest v
  end.

Section BooleanOptionDecl.

(** The metadata key, declared in [optiondescription.py]. *)
Variable SETTING_DESCRIPTION_KEY : string.

(** [boolean_option] of [booleanoption.py]. *)
Definition boolean_option (text page section : string) (default : bool)
    (invert : bool) (detail : option string) (kwargs : list (string * value))
  : result (Dataclasses.Field OptionDescription) :=
  Dataclasses.field
    {[ SETTING_DESCRIPTION_KEY :=
         BooleanOption page section text detail invert ]}
    (VBool default)
    kwargs.

(** Modelled from the spec: the [Settings] dataclass of [settings.py], which
    is not part of the sources.  Its body is the list of its fields in
    declaration order, each one a field specification such as
    [boolean_option] returns. *)
Definition class_body : Type :=
  list (string * Dataclasses.Field OptionDescription).

(** Modelled from the spec: the field of the class with a given name, the
    last one declared with it ("last registration wins"). *)
Fixpoint field_named (body : class_body) (name : string)
  : option (Dataclasses.Field OptionDescription) :=
  match body with
  | [] => None
  | (n, f) :: rest =>
    match field_named rest name with
    | Some f' => Some f'
    | None => if String.eqb n name then Some f else None
    end
  end.

(** Modelled from the spec: the description is "out-of-band metadata
    retrievable by field name", the entry of the field's metadata under the
    setting-description key. *)
Definition description_of (body : class_body) (name : string)
  : option OptionDescription :=
  match field_named body name with
  | Some f => Dataclasses.metadata f !! SETTING_DESCRIPTION_KEY
  | None => None
  end.

(** Modelled from the spec: a Settings Instance "created with default
    values" holds, under every field name, the default of its field
    specification. *)
Definition fresh_instance (body : class_body) : gmap string value :=
  foldl (fun d '(n, f) => <[n := Dataclasses.default f]> d) ∅ body.

End BooleanOptionDecl.

End Settings.

(** * [textwrap.wrap] with the default options

    [AutoSettingsLayout.add_label] wraps the detail text with the standard
    library's [textwrap.wrap(text, width=55)].  The wrapper first splits the
    text into chunks (words and runs of blanks) with a regular expression;
    that step is the parameter [split_chunks] below.  The line-filling loop
    [_wrap_chunks] and [_handle_long_word] are written out, for the default
    options ([break_long_words], [break_on_hyphens], [drop_whitespace], no
    indents, no [max_lines]).  Python pops chunks off the end of a reversed
    list; here the next chunk is the head of the list.

    A Python [str] is a sequence of characters (code points): [len], the
    slices, [rfind] and [strip] count and cut characters.  A [string] of this
    development holds the UTF-8 encoding of a text, as the string literals of
    the file do, so the wrapper works on the list of the characters of a
    chunk, each character being the bytes of its code point. *)

Module Textwrap.

(** A byte of the form [10xxxxxx] continues the character begun before
    it. *)
Definition is_continuation (c : ascii) : bool :=
  let n := Ascii.nat_of_ascii c in
  ((128 <=? n) && (n <? 192))%nat.

(** The characters of a text. *)
Fixpoint chars (s : string) : list string :=
  match s with
  | EmptyString => []
  | String c s' =>
    match chars s' with
    | (String c' _ as ch) :: rest =>
      if is_continuation c' then String c ch :: rest
      else String c EmptyString :: ch :: rest
    | rest => String c EmptyString :: rest
    end
  end.

(** The text of a list of characters: [''.join(cs)]. *)
Definition str_of (cs : list string) : string :=
  foldr String.append EmptyString cs.

(** The character with a code point below 65536. *)
Definition utf8 (cp : N) : string :=
  if (cp <? 128)%N then String (Ascii.ascii_of_N cp) EmptyString
  else if (cp <? 2048)%N then
    String (Ascii.ascii_of_N (192 + cp / 64))
      (String (Ascii.ascii_of_N (128 + cp mod 64)) EmptyString)
  else
    String (Ascii.ascii_of_N (224 + cp / 4096))
      (String (Ascii.ascii_of_N (128 + (cp / 64) mod 64))
         (String (Ascii.ascii_of_N (128 + cp mod 64)) EmptyString)).

(** The characters that [str.strip()] takes off, those for which
    [str.isspace()] holds: the control characters 9 to 13 and 28 to 31, the
    space, and the other blanks and separators of Unicode. *)
Definition whitespace : list string :=
  Eval vm_compute in
    utf8 <$> [ 9; 10; 11; 12; 13; 28; 29; 30; 31; 32; 133; 160; 5760;
               8192; 8193; 8194; 8195; 8196; 8197; 8198; 8199; 8200; 8201;
               8202; 8232; 8233; 8239; 8287; 12288 ]%N.

Definition is_space (ch : string) : bool := bool_decide (ch ∈ whitespace).

(** [chunk.strip() == ''] *)
Definition is_blank (chunk : list string) : bool := forallb is_space chunk.

Definition is_hyphen (ch : string) : bool := String.eqb ch "-".

(** [chunk.rfind('-', 0, stop)]: the last index below [stop] that holds a
    hyphen.  [i] is the index of the head of [chunk]. *)
Fixpoint rfind_hyphen_from (i stop : nat) (chunk : list string) : option nat :=
  match chunk with
  | [] => None
  | ch :: chunk' =>
    if (stop <=? i)%nat then None
    else match rfind_hyphen_from (S i) stop chunk' with
         | Some j => Some j
         | None => if is_hyphen ch then Some i else None
         end
  end.

(** [any(c != '-' for c in s)] *)
Definition any_not_hyphen (s : list string) : bool :=
  existsb (fun ch => negb (is_hyphen ch)) s.

Definition sum_len (l : list (list string)) : nat :=
  foldr (fun s n => (length s + n)%nat) 0%nat l.

(** [''.join(cur_line)] *)
Definition join_chunks (l : list (list string)) : list string := concat l.

(** [_handle_long_word]: the next chunk is longer than a whole line.  The
    part that fits on the current line is cut off and put there, after the
    last hyphen when there is one with letters before it. *)
Definition _handle_long_word (chunk : list string)
    (rest cur_line : list (list string)) (cur_len width : nat)
  : list (list string) * list (list string) :=
  let space_left := if (width <? 1)%nat then 1%nat else (width - cur_len)%nat in
  let stop :=
    if (space_left <? length chunk)%nat then
      match rfind_hyphen_from 0 space_left chunk with
      | Some hyphen =>
        if (0 <? hyphen)%nat && any_not_hyphen (take hyphen chunk)
        then S hyphen else space_left
      | None => space_left
      end
    else space_left in
  (drop stop chunk :: rest, cur_line ++ [take stop chunk]).

(** The inner loop: chunks go on the current line while they fit. *)
Fixpoint fill_line (width : nat) (chunks cur_line : list (list string))
    (cur_len : nat) : list (list string) * list (list string) * nat :=
  match chunks with
  | [] => ([], cur_line, cur_len)
  | c :: rest =>
    if (cur_len + length c <=? width)%nat
    then fill_line width rest (cur_line ++ [c]) (cur_len + length c)%nat
    else (chunks, cur_line, cur_len)
  end.

Definition drop_trailing_blank (cur_line : list (list string))
  : list (list string) :=
  match last cur_line with
  | Some c => if is_blank c then removelast cur_line else cur_line
  | None => cur_line
  end.

(** A blank chunk at the start of a line is dropped, except on the very
    first line. *)
Definition drop_leading_blank (chunks : list (list string))
    (lines : list (list string)) : list (list string) :=
  match chunks, lines with
  | c :: rest, _ :: _ => if is_blank c then rest else chunks
  | _, _ => chunks
  end.

(** The line is full; a next chunk too long for any line is cut. *)
Definition cut_long_word (width : nat) (chunks cur_line : list (list string))
    (cur_len : nat) : list (list string) * list (list string) :=
  match chunks with
  | c :: rest =>
    if (width <? length c)%nat
    then _handle_long_word c rest cur_line cur_len width
    else (chunks, cur_line)
  | [] => (chunks, cur_line)
  end.

(** One round of the outer loop of [_wrap_chunks], for a list of chunks
    that is not empty: the chunks left and the lines so far. *)
Definition wrap_line (width : nat) (chunks lines : list (list string))
  : list (list string) * list (list string) :=
  let chunks1 := drop_leading_blank chunks lines in
  let '(chunks2, cur_line, cur_len) := fill_line width chunks1 [] 0%nat in
  let '(chunks3, cur_line1) := cut_long_word width chunks2 cur_line cur_len in
  let cur_line2 := drop_trailing_blank cur_line1 in
  match cur_line2 with
  | [] => (chunks3, lines)
  | _ => (chunks3, lines ++ [join_chunks cur_line2])
  end.

(** The outer loop, [while chunks:].  [None] when the fuel runs out. *)
Fixpoint wrap_loop (fuel width : nat) (chunks lines : list (list string))
  : option (list (list string)) :=
  match chunks with
  | [] => Some lines
  | _ :: _ =>
    match fuel with
    | O => None
    | S fuel' =>
      let '(chunks', lines') := wrap_line width chunks lines in
      wrap_loop fuel' width chunks' lines'
    end
  end.

(** Every round takes a chunk or at least a character off the chunks, so
    this many rounds are enough. *)
Definition wrap_fuel (chunks : list (list string)) : nat :=
  (sum_len chunks + length chunks)%nat.

(** [_wrap_chunks].  The loop is run with [wrap_fuel]; that it then ends
    with a list of lines is [wrap_loop_enough_fuel] below. *)
Definition _wrap_chunks (width : nat) (chunks : list (list string))
  : result (list (list string)) :=
  if (width <=? 0)%nat then Raise (ValueError "invalid width (must be > 0)")
  else match wrap_loop (wrap_fuel chunks) width chunks [] with
       | Some lines => Ok lines
       | None => Ok []
       end.

(** The characters of a text that are not white space, in their order:
    what a text holds apart from its spacing. *)
Definition visible (cs : list string) : list string :=
  filter (fun ch => is_space ch = false) cs.

(** A text cut into pieces: the lines that the wrapper keeps and the
    stretches between them that it leaves out. *)
Inductive piece : Type :=
| Line (cs : list string)
| Gap (cs : list string).

Definition piece_chars (p : piece) : list string :=
  match p with
  | Line cs | Gap cs => cs
  end.

Definition lines_of (pieces : list piece) : list (list string) :=
  omap (fun p => match p with Line cs => Some cs | Gap _ => None end) pieces.

Definition gaps_blank (pieces : list piece) : Prop :=
  Forall (fun p => match p with
                   | Gap cs => is_blank cs = true
                   | Line _ => True
                   end) pieces.

Section Wrap.

(** [TextWrapper._split_chunks]: whitespace is normalised (each tab, line
    break and other blank of ASCII becomes one or more spaces) and the text
    is cut into words and runs of spaces; the chunks are not empty. *)
Variable split_chunks : string -> list string.

(** [textwrap.wrap(text, width)] *)
Definition wrap (text : string) (width : nat) : result (list string) :=
  let* lines := _wrap_chunks width (chars <$> split_chunks text) in
  Ok (str_of <$> lines).

End Wrap.

End Textwrap.

(** * The Qt controls the binder uses

    The controls are PySide2 objects.  Each one is a record of the state
    the binder reads and writes; a setter returns the new state together
    with the argument of the signal it emits, if it emits one.  A signal
    is emitted only when the state changes. *)

Module Qt.

(** Arguments cross into C++ through typed parameters.  An [int] parameter
    takes a Python [int] (or [bool]) that fits a C [int]; a [bool] parameter
    takes a [bool] or an [int].  Objects of other types are refused here;
    the properties below only rest on the first case of each. *)
Definition INT_MIN : Z := - 2 ^ 31.
Definition INT_MAX : Z := 2 ^ 31 - 1.

Definition to_int (v : value) : result Z :=
  match v with
  | VInt z =>
    if (INT_MIN <=? z) && (z <=? INT_MAX) then Ok z else Raise OverflowError
  | VBool b => Ok (if b then 1 else 0)
  | _ => Raise (TypeError "called with wrong argument types")
  end.

Definition to_bool (v : value) : result bool :=
  match v with
  | VBool b => Ok b
  | VInt z => Ok (negb (z =? 0))
  | _ => Raise (TypeError "called with wrong argument types")
  end.

(** ** QCheckBox *)

Record QCheckBox : Type := mkQCheckBox { isChecked : bool }.

Definition QCheckBox_new : QCheckBox := mkQCheckBox false.

(** [setChecked(b)]; emits [toggled(b)] when the state changes. *)
Definition setChecked (b : bool) (w : QCheckBox) : QCheckBox * option bool :=
  (mkQCheckBox b, if Bool.eqb b (isChecked w) then None else Some b).

(** A click of the user flips the box. *)
Definition click (w : QCheckBox) : QCheckBox * option bool :=
  setChecked (negb (isChecked w)) w.

(** ** QComboBox (not editable) *)

Record QComboBox : Type := mkQComboBox {
  items : list (string * value);
  currentIndex : Z
}.

Definition QComboBox_new : QComboBox := mkQComboBox [] (-1).

Definition count (w : QComboBox) : Z := Z.of_nat (length (items w)).

(** [setCurrentIndex(i)]: an index out of range leaves no current item;
    emits [currentIndexChanged] when the index changes. *)
Definition setCurrentIndex (i : Z) (w : QComboBox) : QComboBox * option Z :=
  let i' := if (0 <=? i) && (i <? count w) then i else -1 in
  (mkQComboBox (items w) i',
   if i' =? currentIndex w then None else Some i').

(** [addItem(text, userData)]: the first item of an empty box becomes the
    current one. *)
Definition addItem (text : string) (userData : value) (w : QComboBox)
  : QComboBox * option Z :=
  let w' := mkQComboBox (items w ++ [(text, userData)]) (currentIndex w) in
  if (count w =? 0) && (currentIndex w =? -1) then setCurrentIndex 0 w'
  else (w', None).

(** [findText(text)]: the index of the first item with this text, or -1. *)
Fixpoint find_text_from (i : Z) (l : list (string * value)) (text : string)
  : Z :=
  match l with
  | [] => -1
  | (t, _) :: rest =>
    if String.eqb t text then i else find_text_from (i + 1) rest text
  end.

Definition findText (text : string) (w : QComboBox) : Z :=
  find_text_from 0 (items w) text.

(** [setCurrentText(text)] selects the item [findText] gives, if any. *)
Definition setCurrentText (text : string) (w : QComboBox)
  : QComboBox * option Z :=
  let i := findText text w in
  if -1 <? i then setCurrentIndex i w else (w, None).

Definition item_at (w : QComboBox) (index : Z) : option (string * value) :=
  if index <? 0 then None else items w !! Z.to_nat index.

(** [itemData(index)]: the data of the item, [None] without one. *)
Definition itemData (index : Z) (w : QComboBox) : value :=
  match item_at w index with
  | Some (_, v) => v
  | None => VNone
  end.

Definition currentText (w : QComboBox) : string :=
  match item_at w (currentIndex w) with
  | Some (t, _) => t
  | None => ""
  end.

(** ** QSpinBox *)

Record QSpinBox : Type := mkQSpinBox {
  minimum : Z;
  maximum : Z;
  spin_value : Z
}.

Definition QSpinBox_new : QSpinBox := mkQSpinBox 0 99 0.

Definition bound (lo hi v : Z) : Z :=
  let v1 := if v <? lo then lo else v in
  if hi <? v1 then hi else v1.

(** [setRange(lo, hi)]: the maximum is raised to the minimum if need be,
    and the value is brought into the range. *)
Definition setRange (lo hi : Z) (w : QSpinBox) : QSpinBox * option Z :=
  let hi' := if hi <? lo then lo else hi in
  let v' := bound lo hi' (spin_value w) in
  (mkQSpinBox lo hi' v', if v' =? spin_value w then None else Some v').

Definition setMinimum (m : Z) (w : QSpinBox) : QSpinBox * option Z :=
  setRange m (if m <? maximum w then maximum w else m) w.

Definition setMaximum (m : Z) (w : QSpinBox) : QSpinBox * option Z :=
  setRange (if minimum w <? m then minimum w else m) m w.

(** [setValue(v)], also what typing or stepping in the box comes to; emits
    [valueChanged] with the bounded value when it differs from the old. *)
Definition setValue (v : Z) (w : QSpinBox) : QSpinBox * option Z :=
  let v' := bound (minimum w) (maximum w) v in
  (mkQSpinBox (minimum w) (maximum w) v',
   if v' =? spin_value w then None else Some v').

(** ** FloatSpinSlider *)

(** Modelled from the spec: [FloatSpinSlider] of
    [qt_ui/widgets/spinsliders.py], which is not part of the sources: "a
    combined numeric-entry-plus-slider control constrained to [min,max],
    displaying stored_value scaled by divisor; on change, write back the
    control's value (scale already applied by the control)".  The record
    keeps the constructor's arguments; [fvalue] is what the [value] property
    returns. *)
Record FloatSpinSlider : Type := mkFloatSpinSlider {
  fminimum : Py.float;
  fmaximum : Py.float;
  fdivisor : Z;
  fvalue : Py.value
}.

(** Modelled from the spec: the constructor of [FloatSpinSlider], called
    with the bounds, the stored value and the divisor. *)
Definition FloatSpinSlider_new (minimum maximum : Py.float)
    (initial : Py.value) (divisor : Z) : FloatSpinSlider :=
  mkFloatSpinSlider minimum maximum divisor initial.

(** Modelled from the spec: a change made by the user to a
    [FloatSpinSlider].  The control holds the new value, kept within its
    bounds, and its spinner emits [valueChanged] when that differs from the
    old one. *)
Definition slide (f : Py.float) (w : FloatSpinSlider)
  : FloatSpinSlider * bool :=
  let f1 := if SFltb f (fminimum w) then fminimum w else f in
  let f2 := if SFltb (fmaximum w) f1 then fmaximum w else f1 in
  (mkFloatSpinSlider (fminimum w) (fmaximum w) (fdivisor w) (VFloat f2),
   negb (bool_decide (VFloat f2 = fvalue w))).

End Qt.

(** * [AutoSettingsLayout] ([QSettingsWindow.py]) *)

Module QSettingsWindow.

Import Settings Qt.

(** The functions the binder connects to the signals of its controls.  Each
    is a closure over [self.settings], the field name and, for the check
    box, the description; the settings object is shared with the game, so
    a slot takes the instance dictionary as it is when the signal arrives
    and returns it updated. *)

(** [on_toggle] of [add_checkbox_for] *)
Definition on_toggle (name : string) (invert : bool) (value : bool)
    (settings : gmap string Py.value) : gmap string Py.value :=
  let value := if invert then negb value else value in
  <[name := VBool value]> settings.

(** [on_changed] of [add_combobox_for] *)
Definition on_changed_combobox (name : string) (combobox : QComboBox)
    (index : Z) (settings : gmap string Py.value) : gmap string Py.value :=
  <[name := itemData index combobox]> settings.

(** [on_changed] of [add_float_spin_slider_for] *)
Definition on_changed_float (name : string) (spinner : FloatSpinSlider)
    (settings : gmap string Py.value) : gmap string Py.value :=
  <[name := fvalue spinner]> settings.

(** [on_changed] of [add_spinner_for] *)
Definition on_changed_spinner (name : string) (value : Z)
    (settings : gmap string Py.value) : gmap string Py.value :=
  <[name := VInt value]> settings.

(** What a cell of the grid holds: a label, or a control with what its slot
    has captured. *)
Inductive item : Type :=
| Label (text : string)
| CheckBox (w : QCheckBox) (name : string) (invert : bool)
| ComboBox (w : QComboBox) (name : string)
| FloatSpin (w : FloatSpinSlider) (name : string)
| SpinBox (w : QSpinBox) (name : string).

Inductive AlignmentFlag : Type := AlignRight.

Record cell : Type := mkCell {
  row : nat;
  column : nat;
  widget : item;
  alignment : option AlignmentFlag
}.

(** The layout: its cells in the order they were added. *)
Definition layout : Type := list cell.

(** [addWidget(widget, row, column)] and [addWidget(widget, row, column,
    alignment)] *)
Definition addWidget (it : item) (row column : nat)
    (alignment : option AlignmentFlag) (l : layout) : layout :=
  l ++ [mkCell row column it alignment].

(** [addLayout(layout, row, column, alignment)], for a control that is a
    layout of its own. *)
Definition addLayout (it : item) (row column : nat)
    (alignment : option AlignmentFlag) (l : layout) : layout :=
  l ++ [mkCell row column it alignment].

Section Binder.

Variable split_chunks : string -> list string.

(** The text of the label, as [add_label] builds it. *)
Definition label_text (description : OptionDescription) : result string :=
  match detail description with
  | Some d =>
    let* lines := Textwrap.wrap split_chunks d 55 in
    let wrapped := String.concat "<br />" lines in
    Ok (text description +:+ "<br /><strong>" +:+ wrapped +:+ "</strong>")
  | None => Ok (text description)
  end.

Definition add_label (row : nat) (description : OptionDescription)
    (l : layout) : result layout :=
  let* text := label_text description in
  Ok (addWidget (Label text) row 0 None l).

Definition add_checkbox_for (settings : gmap string Py.value) (row : nat)
    (name : string) (invert : bool) (l : layout) : result layout :=
  let checkbox := QCheckBox_new in
  let* value := Py.getitem settings name in
  let* value := if invert then Ok (negb (Py.truth value)) else to_bool value in
  let checkbox := fst (setChecked value checkbox) in
  Ok (addWidget (CheckBox checkbox name invert) row 1 (Some AlignRight) l).

(** When [text_for_value] finds no text for the stored value the binding
    fails. *)
Definition add_combobox_for (settings : gmap string Py.value) (row : nat)
    (name : string) (choices : list (string * Py.value)) (l : layout)
  : result layout :=
  let combobox := QComboBox_new in
  let combobox :=
    foldl (fun w '(text, value) => fst (addItem text value w)) combobox
      choices in
  let* stored := Py.getitem settings name in
  let* text :=
    match text_for_value choices stored with
    | Some t => Ok t
    | None => Raise (ValueError "no choice has this value")
    end in
  let combobox := fst (setCurrentText text combobox) in
  Ok (addWidget (ComboBox combobox name) row 1 (Some AlignRight) l).

Definition add_float_spin_slider_for (settings : gmap string Py.value)
    (row : nat) (name : string) (min max : Py.float) (divisor : Z)
    (l : layout) : result layout :=
  let* initial := Py.getitem settings name in
  let spinner := FloatSpinSlider_new min max initial divisor in
  Ok (addLayout (FloatSpin spinner name) row 1 (Some AlignRight) l).

Definition add_spinner_for (settings : gmap string Py.value) (row : nat)
    (name : string) (min max : Z) (l : layout) : result layout :=
  let spinner := QSpinBox_new in
  let* min := to_int (VInt min) in
  let spinner := fst (setMinimum min spinner) in
  let* max := to_int (VInt max) in
  let spinner := fst (setMaximum max spinner) in
  let* stored := Py.getitem settings name in
  let* stored := to_int stored in
  let spinner := fst (setValue stored spinner) in
  Ok (addWidget (SpinBox spinner name) row 1 (Some AlignRight) l).

(** The body of the loop of [__init__] for one row.  The tests are
    [isinstance] tests, which an instance of a subclass passes as an instance
    of the class does. *)
Definition add_row (settings : gmap string Py.value) (row : nat)
    (name : string) (description : OptionDescription) (l : layout)
  : result layout :=
  let* l := add_label row description l in
  match as_instance description with
  | BooleanOption _ _ _ _ invert =>
    add_checkbox_for settings row name invert l
  | ChoicesOption _ _ _ _ choices =>
    add_combobox_for settings row name choices l
  | BoundedFloatOption _ _ _ _ min max divisor =>
    add_float_spin_slider_for settings row name min max divisor l
  | BoundedIntOption _ _ _ _ min max =>
    add_spinner_for settings row name min max l
  | PlainOption _ _ _ _ | Subclass _ _ =>
    Raise (TypeError "Unhandled option type")
  end.

(** [for row, (name, description) in enumerate(fields)] *)
Fixpoint add_rows (settings : gmap string Py.value) (row : nat)
    (fields : list (string * OptionDescription)) (l : layout)
  : result layout :=
  match fields with
  | [] => Ok l
  | (name, description) :: rest =>
    let* l := add_row settings row name description l in
    add_rows settings (S row) rest l
  end.

(** [Settings.fields(page, section)], of [settings.py]. *)
Variable Settings_fields :
  string -> string -> result (list (string * OptionDescription)).

(** [AutoSettingsLayout.__init__] *)
Definition AutoSettingsLayout (page section : string)
    (settings : gmap string Py.value) : result layout :=
  let* fields := Settings_fields page section in
  add_rows settings 0 fields [].

End Binder.

(** The signals the slots are connected to, with their arguments. *)
Inductive signal : Type :=
| toggled (checked : bool)
| currentIndexChanged (index : Z)
| spinner_valueChanged
| valueChanged (value : Z).

(** What the user does to a control. *)
Inductive interaction : Type :=
| Click
| Select (index : Z)
| SpinTo (v : Z)
| SlideTo (f : Py.float).

(** A control takes an interaction; when its signal is emitted the slot
    runs on the settings.  The result is the control, the settings and the
    signal that called the slot, if one did. *)
Definition interact (it : item) (ev : interaction)
    (settings : gmap string Py.value)
  : item * gmap string Py.value * option signal :=
  match it, ev with
  | CheckBox w name invert, Click =>
    match click w with
    | (w', Some b) =>
      (CheckBox w' name invert, on_toggle name invert b settings,
       Some (toggled b))
    | (w', None) => (CheckBox w' name invert, settings, None)
    end
  | ComboBox w name, Select index =>
    if (0 <=? index) && (index <? count w) then
      match setCurrentIndex index w with
      | (w', Some i) =>
        (ComboBox w' name, on_changed_combobox name w' i settings,
         Some (currentIndexChanged i))
      | (w', None) => (ComboBox w' name, settings, None)
      end
    else (it, settings, None)
  | FloatSpin w name, SlideTo f =>
    match slide f w with
    | (w', true) => (FloatSpin w' name, on_changed_float name w' settings,
                     Some spinner_valueChanged)
    | (w', false) => (FloatSpin w' name, settings, None)
    end
  | SpinBox w name, SpinTo v =>
    match setValue v w with
    | (w', Some v') => (SpinBox w' name, on_changed_spinner name v' settings,
                        Some (valueChanged v'))
    | (w', None) => (SpinBox w' name, settings, None)
    end
  | _, _ => (it, settings, None)
  end.

(** The user picks the item with a given text in a combo box. *)
Definition select_text (text : string) (it : item) : interaction :=
  match it with
  | ComboBox w _ => Select (findText text w)
  | _ => Select (-1)
  end.

(** A run of interactions with one control. *)
Fixpoint interact_all (it : item) (evs : list interaction)
    (settings : gmap string Py.value) : item * gmap string Py.value :=
  match evs with
  | [] => (it, settings)
  | ev :: rest =>
    let '(it', settings', _) := interact it ev settings in
    interact_all it' rest settings'
  end.

(** ** Vocabulary of the specification *)

(** The kinds of value-editing controls. *)
Inductive control_kind : Type :=
| checkbox
| combobox
| float_spin_slider
| integer_spinner.

Definition control_of_item (it : item) : option control_kind :=
  match it with
  | Label _ => None
  | CheckBox _ _ _ => Some checkbox
  | ComboBox _ _ => Some combobox
  | FloatSpin _ _ => Some float_spin_slider
  | SpinBox _ _ => Some integer_spinner
  end.

(** The field of the Settings Instance the slot of a control writes. *)
Definition field_of_item (it : item) : option string :=
  match it with
  | Label _ => None
  | CheckBox _ name _ | ComboBox _ name | FloatSpin _ name | SpinBox _ name =>
    Some name
  end.

(** The control the specification gives each class of the closed set; a
    description that is an instance of none of them has none. *)
Definition control_for_description (d : OptionDescription)
  : option control_kind :=
  match as_instance d with
  | BooleanOption _ _ _ _ _ => Some checkbox
  | ChoicesOption _ _ _ _ _ => Some combobox
  | BoundedFloatOption _ _ _ _ _ _ _ => Some float_spin_slider
  | BoundedIntOption _ _ _ _ _ _ => Some integer_spinner
  | PlainOption _ _ _ _ | Subclass _ _ => None
  end.

Definition fits_int (z : Z) : bool := (INT_MIN <=? z) && (z <=? INT_MAX).

(** The stored values of a description's own type: a [bool] for a boolean
    option (any object when the option is inverted, as [not] yields a
    [bool]); one of the values of the choices; an [int] for a bounded integer
    option, which like the bounds must fit a C [int]. *)
Definition accepts (d : OptionDescription) (v : Py.value) : bool :=
  match as_instance d with
  | BooleanOption _ _ _ _ invert =>
    invert || match v with VBool _ => true | _ => false end
  | ChoicesOption _ _ _ _ choices => bool_decide (v ∈ choices.*2)
  | BoundedFloatOption _ _ _ _ _ _ _ => true
  | BoundedIntOption _ _ _ _ min max =>
    fits_int min && fits_int max
    && match v with VInt z => fits_int z | _ => false end
  | PlainOption _ _ _ _ | Subclass _ _ => false
  end.

(** The combo box as [add_combobox_for] fills it, before the selection. *)
Definition combobox_of (choices : list (string * Py.value)) : QComboBox :=
  foldl (fun w '(text, value) => (addItem text value w).1) QComboBox_new
    choices.

(** A combo box over [choices] bound to [name] is in step with the instance:
    the field holds the data of the current item. *)
Definition in_step (choices : list (string * Py.value)) (name : string)
    (it : item) (s : gmap string Py.value) : Prop :=
  exists w i t v,
    it = ComboBox w name /\ items w = choices
    /\ currentIndex w = Z.of_nat i /\ choices !! i = Some (t, v)
    /\ s !! name = Some v.

(** The spinner as [add_spinner_for] sets it up. *)
Definition spinner_of (min max stored : Z) : QSpinBox :=
  (setValue stored (setMaximum max (setMinimum min QSpinBox_new).1).1).1.

(** A row can be bound on an instance that holds, under the field's name,
    a value of the type of the description. *)
Definition bindable (settings : gmap string Py.value)
    (nd : string * OptionDescription) : Prop :=
  exists v, settings !! nd.1 = Some v /\ accepts nd.2 v = true.

End QSettingsWindow.

(** * Loading a saved Settings Instance *)

Module SettingsLoad.

(** Modelled from the spec: the load of a persisted Settings Instance, of
    [settings.py], which is not part of the sources: "load = instantiate
    fresh defaults, then overlay persisted field values for fields that
    exist in both; fields present in the old save but removed from the schema
    are dropped silently; fields absent from the old save are filled by
    defaults".  The persisted state is "a flat mapping of field-name to
    value". *)
Definition overlay (fresh persisted : gmap string value) : gmap string value :=
  map_fold
    (fun name v instance =>
       if decide (is_Some (fresh !! name)) then <[name := v]> instance
       else instance)
    fresh persisted.

(** Modelled from the spec: the load of a persisted mapping for the
    [Settings] class with the given fields, from fresh defaults. *)
Definition load (body : Settings.class_body) (persisted : gmap string value)
  : gmap string value :=
  overlay (Settings.fresh_instance body) persisted.

End SettingsLoad.

(** * [GroundUnitType] ([groundunittype.py]) *)

Module GroundUnitType.

(** An instance, as its [__dict__]. *)
Definition instance : Type := gmap string value.

(** Attribute access on an instance. *)
Definition getattr (o : instance) (name : string) : result value :=
  match o !! name with
  | Some v => Ok v
  | None => Raise (AttributeError name)
  end.

(** The class variables: [_loaded] of the base class [UnitType], [_by_name]
    and the [defaultdict] [_by_unit_type], whose keys are the unit classes of
    the simulator. *)
Record class_state : Type := mkClass {
  _loaded : bool;
  _by_name : gmap string instance;
  _by_unit_type : list (value * list instance)
}.

(** [d[key].append(x)] on a [defaultdict(list)] *)
Fixpoint defaultdict_append (key : value) (x : instance)
    (d : list (value * list instance)) : list (value * list instance) :=
  match d with
  | [] => [(key, [x])]
  | (k, l) :: rest =>
    if decide (k = key) then (k, l ++ [x]) :: rest
    else (k, l) :: defaultdict_append key x rest
  end.

(** [register].  The keys of [_by_name] are the [str] objects that
    [variant_id] is declared to hold; an instance that holds another object
    there, against the declaration, is refused. *)
Definition register (cls : class_state) (unit_type : instance)
  : class_state * result unit :=
  match getattr unit_type "variant_id" with
  | Ok (VStr variant_id) =>
    let cls1 :=
      mkClass (_loaded cls) (<[variant_id := unit_type]> (_by_name cls))
              (_by_unit_type cls) in
    match getattr unit_type "dcs_unit_type" with
    | Ok dcs_unit_type =>
      (mkClass (_loaded cls1) (_by_name cls1)
               (defaultdict_append dcs_unit_type unit_type
                  (_by_unit_type cls1)),
       Ok tt)
    | Raise e => (cls1, Raise e)
    end
  | Ok _ => (cls, Raise (TypeError "variant_id is not a str"))
  | Raise e => (cls, Raise e)
  end.

Section Loading.

(** [UnitType._load_all], of [game/dcs/unittype.py]: it reads the unit data
    and registers the variants. *)
Variable _load_all : class_state -> class_state * result unit.

(** [named] *)
Definition named (cls : class_state) (name : value)
  : class_state * result instance :=
  let '(cls1, r) := if _loaded cls then (cls, Ok tt) else _load_all cls in
  match r with
  | Raise e => (cls1, Raise e)
  | Ok _ =>
    match name with
    | VStr s =>
      match _by_name cls1 !! s with
      | Some unit_type => (cls1, Ok unit_type)
      | None => (cls1, Raise (KeyError name))
      end
    | _ => (cls1, Raise (KeyError name))
    end
  end.

(** [__setstate__]: the class variables after the call and, when nothing is
    raised, the [__dict__] of [self] and the dictionary [state], which is
    updated in place. *)
Definition __setstate__ (cls : class_state) (self state : gmap string value)
  : class_state * result (gmap string value * gmap string value) :=
  match Py.getitem state "variant_id" with
  | Raise e => (cls, Raise e)
  | Ok name =>
    match named cls name with
    | (cls1, Raise e) => (cls1, Raise e)
    | (cls1, Ok updated) =>
      let state1 := Py.update state updated in
      (cls1, Ok (Py.update self state1, state1))
    end
  end.

End Loading.

End GroundUnitType.

(** * More of [groundunittype.py]: [SkynetProperties], the unit data and the
    lookup by simulator type *)

From Stdlib Require Import DecimalString.

Module Builtins.

(** [str.lower()], on the letters of ASCII. *)
Definition lower_char (c : ascii) : ascii :=
  let n := Ascii.nat_of_ascii c in
  if ((65 <=? n) && (n <=? 90))%nat then Ascii.ascii_of_nat (n + 32) else c.

Fixpoint lower (s : string) : string :=
  match s with
  | EmptyString => EmptyString
  | String c s' => String (lower_char c) (lower s')
  end.

(** [s.replace(old, new)] for single characters. *)
Fixpoint replace_char (old new : ascii) (s : string) : string :=
  match s with
  | EmptyString => EmptyString
  | String c s' =>
    String (if Ascii.eqb c old then new else c) (replace_char old new s')
  end.

Section Str.

(** How a [float] and an object of another class print. *)
Variable float_repr : Py.float -> string.
Variable object_str : N -> string.

(** [str(x)] *)
Definition str (v : value) : string :=
  match v with
  | VNone => "None"
  | VBool true => "True"
  | VBool false => "False"
  | VInt z => NilZero.string_of_int (Z.to_int z)
  | VFloat f => float_repr f
  | VStr s => s
  | VObj id => object_str id
  end.

End Str.

(** [x in s] for two [str]: the text [x] occurs in [s]. *)
Fixpoint contains (s x : string) : bool :=
  String.prefix x s
  || match s with
     | EmptyString => false
     | String _ s' => contains s' x
     end.

(** [d.get(key, default)] *)
Definition get {A} (d : gmap string A) (key : string) (default : A) : A :=
  match d !! key with
  | Some a => a
  | None => default
  end.

End Builtins.

Module Skynet.

Import Builtins.

(** The dataclass [SkynetProperties]. *)
Record SkynetProperties : Type := mkSkynetProperties {
  can_engage_harm : option string;
  can_engage_air_weapon : option string;
  go_live_range_in_percent : option string;
  engagement_zone : option string;
  autonomous_behaviour : option string;
  harm_detection_chance : option string
}.

(** [SkynetProperties()] *)
Definition SkynetProperties_new : SkynetProperties :=
  mkSkynetProperties None None None None None None.

Section FromData.

Variable float_repr : Py.float -> string.
Variable object_str : N -> string.

Local Abbreviation str := (Builtins.str float_repr object_str).

(** [from_data] *)
Definition from_data (data : gmap string value) : SkynetProperties :=
  let props := SkynetProperties_new in
  let props :=
    match data !! "can_engage_harm" with
    | Some v =>
      mkSkynetProperties (Some (lower (str v))) (can_engage_air_weapon props)
        (go_live_range_in_percent props) (engagement_zone props)
        (autonomous_behaviour props) (harm_detection_chance props)
    | None => props
    end in
  let props :=
    match data !! "can_engage_air_weapon" with
    | Some v =>
      mkSkynetProperties (can_engage_harm props) (Some (lower (str v)))
        (go_live_range_in_percent props) (engagement_zone props)
        (autonomous_behaviour props) (harm_detection_chance props)
    | None => props
    end in
  let props :=
    match data !! "go_live_range_in_percent" with
    | Some v =>
      mkSkynetProperties (can_engage_harm props) (can_engage_air_weapon props)
        (Some (str v)) (engagement_zone props)
        (autonomous_behaviour props) (harm_detection_chance props)
    | None => props
    end in
  let props :=
    match data !! "engagement_zone" with
    | Some v =>
      mkSkynetProperties (can_engage_harm props) (can_engage_air_weapon props)
        (go_live_range_in_percent props) (Some (str v))
        (autonomous_behaviour props) (harm_detection_chance props)
    | None => props
    end in
  let props :=
    match data !! "autonomous_behaviour" with
    | Some v =>
      mkSkynetProperties (can_engage_harm props) (can_engage_air_weapon props)
        (go_live_range_in_percent props) (engagement_zone props)
        (Some (str v)) (harm_detection_chance props)
    | None => props
    end in
  let props :=
    match data !! "harm_detection_chance" with
    | Some v =>
      mkSkynetProperties (can_engage_harm props) (can_engage_air_weapon props)
        (go_live_range_in_percent props) (engagement_zone props)
        (autonomous_behaviour props) (Some (str v))
    | None => props
    end in
  props.

(** What [from_data] does with an object of another class than those
    below, [x in data] and [data[x]] being its own methods. *)
Variable object_from_data : N -> result SkynetProperties.

(** [from_data(x)] for an [x] that is no dictionary, against the declared
    type.  The first test, [x in data], raises [TypeError] on [None] and on
    a number.  On a [str] the test looks for the name in the text; when one
    of the six names occurs in it the indexing [data[x]] that follows
    raises [TypeError], and otherwise all the tests fail and the new
    properties are returned as they are. *)
Definition from_data_other (x : value) : result SkynetProperties :=
  match x with
  | VStr s =>
    if existsb (contains s)
         [ "can_engage_harm"; "can_engage_air_weapon";
           "go_live_range_in_percent"; "engagement_zone";
           "autonomous_behaviour"; "harm_detection_chance" ]
    then Raise (TypeError "string indices must be integers")
    else Ok SkynetProperties_new
  | VObj id => object_from_data id
  | VNone | VBool _ | VInt _ | VFloat _ =>
    Raise (TypeError "argument of this type is not iterable")
  end.

End FromData.

(** [self.__dict__.items()]: the fields in the order of the dataclass. *)
Definition items (self : SkynetProperties) : list (string * option string) :=
  [ ("can_engage_harm", can_engage_harm self);
    ("can_engage_air_weapon", can_engage_air_weapon self);
    ("go_live_range_in_percent", go_live_range_in_percent self);
    ("engagement_zone", engagement_zone self);
    ("autonomous_behaviour", autonomous_behaviour self);
    ("harm_detection_chance", harm_detection_chance self) ].

(** [to_dict] *)
Definition to_dict (self : SkynetProperties) : gmap string string :=
  foldl
    (fun properties '(key, value) =>
       match value with
       | Some value => <[key := value]> properties
       | None => properties
       end)
    ∅ (items self).

End Skynet.

Module Catalog.

Import Builtins Skynet GroundUnitType.

(** [d[key]] on a [defaultdict(list)]: a missing key is entered with an
    empty list. *)
Fixpoint defaultdict_getitem (key : value) (d : list (value * list instance))
  : list instance * list (value * list instance) :=
  match d with
  | [] => ([], [(key, [])])
  | (k, l) :: rest =>
    if decide (k = key) then (l, d)
    else let '(found, rest') := defaultdict_getitem key rest in
         (found, (k, l) :: rest')
  end.

(** A run of [register] calls, as a loader makes them; it stops at the
    first call that raises. *)
Fixpoint register_all (cls : class_state) (unit_types : list instance)
  : class_state * result unit :=
  match unit_types with
  | [] => (cls, Ok tt)
  | unit_type :: rest =>
    match register cls unit_type with
    | (cls1, Ok _) => register_all cls1 rest
    | (cls1, Raise e) => (cls1, Raise e)
    end
  end.

(** Every unit type stands in [_by_name] under its own [variant_id]. *)
Definition by_name_consistent (cls : class_state) : Prop :=
  forall name unit_type,
    _by_name cls !! name = Some unit_type ->
    unit_type !! "variant_id" = Some (VStr name).

(** The unit types of a simulator type, in the order of their
    registration. *)
Definition of_type (dcs_unit_type : value) (unit_types : list instance)
  : list instance :=
  filter (fun u => u !! "dcs_unit_type" = Some dcs_unit_type) unit_types.

(** The class that the data of a unit type names, if it names one. *)
Definition class_of (data : gmap string value) : option value :=
  match data !! "class" with
  | Some VNone | None => None
  | Some v => Some v
  end.

(** The double quote character, as a string. *)
Definition dquote : string := String (Ascii.ascii_of_nat 34) EmptyString.

Section Loading.

Variable _load_all : class_state -> class_state * result unit.

(** [for_dcs_type]: the unit types the generator yields, when it is run to
    its end. *)
Definition for_dcs_type (cls : class_state) (dcs_unit_type : value)
  : class_state * result (list instance) :=
  let '(cls1, r) := if _loaded cls then (cls, Ok tt) else _load_all cls in
  match r with
  | Raise e => (cls1, Raise e)
  | Ok _ =>
    let '(found, d) := defaultdict_getitem dcs_unit_type (_by_unit_type cls1) in
    (mkClass (_loaded cls1) (_by_name cls1) d, Ok found)
  end.

End Loading.

Section VariantFromDict.

Variable float_repr : Py.float -> string.
Variable object_str : N -> string.
Variable object_from_data : N -> result SkynetProperties.

(** [UnitClass(class_name)] and [UnitClass.UNKNOWN], of [game/data/units.py];
    the call raises for a value that is no unit class. *)
Variable UnitClass : value -> result value.
Variable UnitClass_UNKNOWN : value.

(** The default of the description: a link to a search for the display
    name.  [replace] is a method of [str]; the objects of the other types of
    a data file do not have it. *)
Definition default_description (display_name : value) : result value :=
  match display_name with
  | VStr s =>
    Ok (VStr ("No data. <a href=" +:+ dquote
              +:+ "https://google.com/search?q=DCS+"
              +:+ replace_char " " "+" s +:+ dquote
              +:+ "><span style=" +:+ dquote +:+ "color:#FFFFFF" +:+ dquote
              +:+ ">Google " +:+ s +:+ "</span></a>"))
  | _ => Raise (AttributeError "replace")
  end.

(** [_variant_from_dict].  [vehicle_id] is [vehicle.id].  The entry of the
    data under ["skynet_properties"] is given apart as [skynet_data] when it
    is a dictionary, as it is declared to be; when the data file has an
    object of another type there ([None] for an entry left empty, a number,
    a text), that object stands in [data] like any other entry, and is what
    [from_data] is called with.  The arguments of the constructor are
    evaluated in their order, the properties after the description.  The
    result is the warnings logged and, when nothing is raised, the fields of
    the new unit type, which holds a reference [VObj skynet_ref] to the new
    [SkynetProperties] returned beside it. *)
Definition _variant_from_dict (vehicle : value) (vehicle_id : string)
    (variant_id : string) (data : gmap string value)
    (skynet_data : option (gmap string value)) (skynet_ref : N)
  : list string * result (instance * SkynetProperties) :=
  let introduction :=
    match data !! "introduced" with
    | Some VNone => VStr "N/A"
    | Some v => v
    | None => VStr "No data."
    end in
  let class_name := get data "class" VNone in
  let '(log, unit_class) :=
    match class_name with
    | VNone => ([vehicle_id +:+ " has no class"], Ok UnitClass_UNKNOWN)
    | _ => ([], UnitClass class_name)
    end in
  (log,
   let* unit_class := unit_class in
   let display_name := get data "display_name" (VStr variant_id) in
   let* description_default := default_description display_name in
   let* skynet_properties :=
     match data !! "skynet_properties" with
     | Some x => from_data_other object_from_data x
     | None => Ok (from_data float_repr object_str (default ∅ skynet_data))
     end in
   Ok ({[ "dcs_unit_type" := vehicle;
          "unit_class" := unit_class;
          "spawn_weight" := get data "spawn_weight" (VInt 0);
          "variant_id" := VStr variant_id;
          "display_name" := display_name;
          "description" := get data "description" description_default;
          "year_introduced" := introduction;
          "country_of_origin" := get data "origin" (VStr "No data.");
          "manufacturer" := get data "manufacturer" (VStr "No data.");
          "role" := get data "role" (VStr "No data.");
          "price" := get data "price" (VInt 1);
          "skynet_properties" := VObj skynet_ref;
          "reversed_heading" := get data "reversed_heading" (VBool false) ]},
       skynet_properties)).

End VariantFromDict.

End Catalog.

(** * The attributes of the Settings Instance

    The hand-written widgets of [QSettingsWindow.py] read and write the
    settings as attributes ([game.settings.supercarrier]), where the binder
    goes through the instance dictionary. *)

Module Instance.

Section ClassAttributes.

(** The attributes of the class [Settings], of [settings.py].  A dataclass
    keeps the default of a field as an attribute of its class, which is what
    reading the attribute gives when the instance dictionary has no entry of
    that name. *)
Variable Settings_class : string -> option value.

(** [settings.name] *)
Definition getattr (d : gmap string Py.value) (name : string) : result value :=
  match d !! name with
  | Some v => Ok v
  | None =>
    match Settings_class name with
    | Some v => Ok v
    | None => Raise (AttributeError name)
    end
  end.

End ClassAttributes.

(** [settings.name = v] *)
Definition setattr (name : string) (v : value) (d : gmap string Py.value)
  : gmap string Py.value :=
  <[name := v]> d.

End Instance.

(** * [StartTypeComboBox] ([QSettingsWindow.py]) *)

Module StartTypeComboBox.

Import Qt.

(** A parameter of type [QString] takes a [str]. *)
Definition to_str (v : value) : result string :=
  match v with
  | VStr s => Ok s
  | _ => Raise (TypeError "called with wrong argument types")
  end.

(** [addItems(texts)]: items without data. *)
Definition addItems (texts : list string) (w : QComboBox) : QComboBox :=
  foldl (fun w text => (addItem text VNone w).1) w texts.

(** [on_change] *)
Definition on_change (value : string) (d : gmap string Py.value)
  : gmap string Py.value :=
  Instance.setattr "default_start_type" (VStr value) d.

(** [__init__]: the slot is connected once the items are in the box, so it
    is not called for the first item becoming the current one. *)
Definition __init__ : QComboBox :=
  addItems ["Cold"; "Warm"; "Runway"; "In Flight"] QComboBox_new.

(** When the index of the connected box changes, [currentTextChanged] is
    emitted with the text of the new current item, and the slot runs. *)
Definition emit_currentTextChanged (r : QComboBox * option Z)
    (d : gmap string Py.value) : QComboBox * gmap string Py.value :=
  match r with
  | (w, Some _) => (w, on_change (currentText w) d)
  | (w, None) => (w, d)
  end.

(** [setCurrentText(text)] on the connected box. *)
Definition setCurrentText (text : string) (w : QComboBox)
    (d : gmap string Py.value) : QComboBox * gmap string Py.value :=
  emit_currentTextChanged (Qt.setCurrentText text w) d.

(** The user picks the item at [index]. *)
Definition select (index : Z) (w : QComboBox) (d : gmap string Py.value)
  : QComboBox * gmap string Py.value :=
  if (0 <=? index) && (index <? count w)
  then emit_currentTextChanged (setCurrentIndex index w) d
  else (w, d).

Fixpoint select_all (indices : list Z) (w : QComboBox)
    (d : gmap string Py.value) : QComboBox * gmap string Py.value :=
  match indices with
  | [] => (w, d)
  | index :: rest =>
    let '(w', d') := select index w d in select_all rest w' d'
  end.

Section Build.

Variable Settings_class : string -> option value.

(** The two lines of [initGeneratorLayout] that make the box and show the
    stored start type in it:
    [start_type = StartTypeComboBox(self.game.settings)] and
    [start_type.setCurrentText(self.game.settings.default_start_type)]. *)
Definition start_type (d : gmap string Py.value)
  : result (QComboBox * gmap string Py.value) :=
  let start_type := __init__ in
  let* v := Instance.getattr Settings_class d "default_start_type" in
  let* text := to_str v in
  Ok (setCurrentText text start_type d).

End Build.

End StartTypeComboBox.

(** * [PilotSettingsBox] ([QSettingsWindow.py])

    The box holds two check boxes and two spinners; the labels and tool tips
    beside them have no state and are left out.  A widget that is not enabled
    takes no input of the user. *)

Module PilotSettingsBox.

Import Qt.

Record PilotSettingsBox : Type := mkPilotSettingsBox {
  ai_pilot_levelling : QCheckBox;
  enable_squadron_pilot_limits : QCheckBox;
  pilot_limit : QSpinBox;
  pilot_limit_enabled : bool;
  squadron_replenishment_rate : QSpinBox;
  squadron_replenishment_rate_enabled : bool
}.

Section Init.

Variable Settings_class : string -> option value.

(** [__init__].  Every slot is connected after its widget is set up, so
    that none runs here. *)
Definition __init__ (d : gmap string Py.value) : result PilotSettingsBox :=
  let* v := Instance.getattr Settings_class d "ai_pilot_levelling" in
  let* checked := to_bool v in
  let ai_pilot_levelling := (setChecked checked QCheckBox_new).1 in
  let* v :=
    Instance.getattr Settings_class d "enable_squadron_pilot_limits" in
  let* checked := to_bool v in
  let enable_squadron_pilot_limits := (setChecked checked QCheckBox_new).1 in
  let pilot_limit := QSpinBox_new in
  let pilot_limit := (setMinimum 12 pilot_limit).1 in
  let pilot_limit := (setMaximum 72 pilot_limit).1 in
  let* v := Instance.getattr Settings_class d "squadron_pilot_limit" in
  let* value := to_int v in
  let pilot_limit := (setValue value pilot_limit).1 in
  let* v :=
    Instance.getattr Settings_class d "enable_squadron_pilot_limits" in
  let* pilot_limit_enabled := to_bool v in
  let squadron_replenishment_rate := QSpinBox_new in
  let squadron_replenishment_rate :=
    (setMinimum 1 squadron_replenishment_rate).1 in
  let squadron_replenishment_rate :=
    (setMaximum 20 squadron_replenishment_rate).1 in
  let* v :=
    Instance.getattr Settings_class d "squadron_replenishment_rate" in
  let* value := to_int v in
  let squadron_replenishment_rate :=
    (setValue value squadron_replenishment_rate).1 in
  let* v :=
    Instance.getattr Settings_class d "enable_squadron_pilot_limits" in
  let* squadron_replenishment_rate_enabled := to_bool v in
  Ok (mkPilotSettingsBox ai_pilot_levelling enable_squadron_pilot_limits
        pilot_limit pilot_limit_enabled squadron_replenishment_rate
        squadron_replenishment_rate_enabled).

End Init.

(** [set_enable_squadron_pilot_limits] *)
Definition set_enable_squadron_pilot_limits (checked : bool)
    (self : PilotSettingsBox) (d : gmap string Py.value)
  : PilotSettingsBox * gmap string Py.value :=
  let d := Instance.setattr "enable_squadron_pilot_limits" (VBool checked) d in
  (mkPilotSettingsBox (ai_pilot_levelling self)
     (enable_squadron_pilot_limits self) (pilot_limit self) checked
     (squadron_replenishment_rate self) checked,
   d).

(** [set_squadron_pilot_limit] *)
Definition set_squadron_pilot_limit (value : Z) (d : gmap string Py.value)
  : gmap string Py.value :=
  Instance.setattr "squadron_pilot_limit" (VInt value) d.

(** [set_squadron_replenishment_rate] *)
Definition set_squadron_replenishment_rate (value : Z)
    (d : gmap string Py.value) : gmap string Py.value :=
  Instance.setattr "squadron_replenishment_rate" (VInt value) d.

(** [set_ai_pilot_leveling] *)
Definition set_ai_pilot_leveling (checked : bool) (d : gmap string Py.value)
  : gmap string Py.value :=
  Instance.setattr "ai_pilot_levelling" (VBool checked) d.

(** What the user does to the box. *)
Inductive interaction : Type :=
| ClickLevelling
| ClickLimits
| SpinPilotLimit (v : Z)
| SpinReplenishmentRate (v : Z).

(** The widget takes the input and, when its signal is emitted, the slot
    connected to it runs. *)
Definition interact (ev : interaction) (self : PilotSettingsBox)
    (d : gmap string Py.value) : PilotSettingsBox * gmap string Py.value :=
  match ev with
  | ClickLevelling =>
    let '(w, sig) := click (ai_pilot_levelling self) in
    let self' :=
      mkPilotSettingsBox w (enable_squadron_pilot_limits self)
        (pilot_limit self) (pilot_limit_enabled self)
        (squadron_replenishment_rate self)
        (squadron_replenishment_rate_enabled self) in
    match sig with
    | Some checked => (self', set_ai_pilot_leveling checked d)
    | None => (self', d)
    end
  | ClickLimits =>
    let '(w, sig) := click (enable_squadron_pilot_limits self) in
    let self' :=
      mkPilotSettingsBox (ai_pilot_levelling self) w
        (pilot_limit self) (pilot_limit_enabled self)
        (squadron_replenishment_rate self)
        (squadron_replenishment_rate_enabled self) in
    match sig with
    | Some checked => set_enable_squadron_pilot_limits checked self' d
    | None => (self', d)
    end
  | SpinPilotLimit v =>
    if pilot_limit_enabled self then
      let '(w, sig) := setValue v (pilot_limit self) in
      let self' :=
        mkPilotSettingsBox (ai_pilot_levelling self)
          (enable_squadron_pilot_limits self) w (pilot_limit_enabled self)
          (squadron_replenishment_rate self)
          (squadron_replenishment_rate_enabled self) in
      match sig with
      | Some value => (self', set_squadron_pilot_limit value d)
      | None => (self', d)
      end
    else (self, d)
  | SpinReplenishmentRate v =>
    if squadron_replenishment_rate_enabled self then
      let '(w, sig) := setValue v (squadron_replenishment_rate self) in
      let self' :=
        mkPilotSettingsBox (ai_pilot_levelling self)
          (enable_squadron_pilot_limits self) (pilot_limit self)
          (pilot_limit_enabled self) w
          (squadron_replenishment_rate_enabled self) in
      match sig with
      | Some value => (self', set_squadron_replenishment_rate value d)
      | None => (self', d)
      end
    else (self, d)
  end.

Fixpoint interact_all (evs : list interaction) (self : PilotSettingsBox)
    (d : gmap string Py.value) : PilotSettingsBox * gmap string Py.value :=
  match evs with
  | [] => (self, d)
  | ev :: rest =>
    let '(self', d') := interact ev self d in interact_all rest self' d'
  end.

End PilotSettingsBox.

(** * The pages of the binder ([QSettingsWindow.py])

    [AutoSettingsGroup], [AutoSettingsPageLayout] and [AutoSettingsPage]: a
    page is a widget with a vertical layout that holds one group box for each
    section of the page; a group box has the section as its title and the
    [AutoSettingsLayout] of the section as its layout. *)

Module Pages.

Import Settings QSettingsWindow.

Record group : Type := mkGroup {
  title : string;
  group_layout : layout
}.

Section Pages.

Variable split_chunks : string -> list string.
Variable Settings_fields :
  string -> string -> result (list (string * OptionDescription)).

(** [Settings.sections(page)], of [settings.py]. *)
Variable Settings_sections : string -> result (list string).

(** [AutoSettingsGroup.__init__] *)
Definition AutoSettingsGroup (page section : string)
    (d : gmap string Py.value) : result group :=
  let* l := AutoSettingsLayout split_chunks Settings_fields page section d in
  Ok (mkGroup section l).

(** [for section in Settings.sections(page): self.addWidget(...)] *)
Fixpoint add_groups (page : string) (d : gmap string Py.value)
    (sections : list string) (widgets : list group) : result (list group) :=
  match sections with
  | [] => Ok widgets
  | section :: rest =>
    let* g := AutoSettingsGroup page section d in
    add_groups page d rest (widgets ++ [g])
  end.

(** [AutoSettingsPageLayout.__init__] *)
Definition AutoSettingsPageLayout (page : string) (d : gmap string Py.value)
  : result (list group) :=
  let* sections := Settings_sections page in
  add_groups page d sections [].

(** [AutoSettingsPage.__init__] *)
Definition AutoSettingsPage (page : string) (d : gmap string Py.value)
  : result (list group) :=
  AutoSettingsPageLayout page d.

End Pages.

End Pages.

(** * [CheatSettingsBox] ([QSettingsWindow.py]) *)

Module CheatSettingsBox.

Import Qt.

(** The three check boxes, and the three [QLabeledWidget] layouts that hold
    them, which are objects of a class that is not in the sources. *)
Record CheatSettingsBox : Type := mkCheatSettingsBox {
  red_ato_checkbox : QCheckBox;
  frontline_cheat_checkbox : QCheckBox;
  base_capture_cheat_checkbox : QCheckBox;
  red_ato : N;
  frontline_cheat : N;
  base_capture_cheat : N
}.

Section Init.

Variable Settings_class : string -> option value.

(** [QLabeledWidget(text, widget)], of [qt_ui/widgets/QLabeledWidget.py]. *)
Variable QLabeledWidget : string -> QCheckBox -> result N.

(** [__init__]; each check box is connected to [apply_settings] after it is
    set, so that [apply_settings] is not called here. *)
Definition __init__ (d : gmap string Py.value) : result CheatSettingsBox :=
  let* v := Instance.getattr Settings_class d "show_red_ato" in
  let* checked := to_bool v in
  let red_ato_checkbox := (setChecked checked QCheckBox_new).1 in
  let* v := Instance.getattr Settings_class d "enable_frontline_cheats" in
  let* checked := to_bool v in
  let frontline_cheat_checkbox := (setChecked checked QCheckBox_new).1 in
  let* v := Instance.getattr Settings_class d "enable_base_capture_cheat" in
  let* checked := to_bool v in
  let base_capture_cheat_checkbox := (setChecked checked QCheckBox_new).1 in
  let* red_ato := QLabeledWidget "Show Red ATO:" red_ato_checkbox in
  let* frontline_cheat :=
    QLabeledWidget "Enable Frontline Cheats:" frontline_cheat_checkbox in
  let* base_capture_cheat :=
    QLabeledWidget "Enable Base Capture Cheat:" base_capture_cheat_checkbox in
  Ok (mkCheatSettingsBox red_ato_checkbox frontline_cheat_checkbox
        base_capture_cheat_checkbox red_ato frontline_cheat
        base_capture_cheat).

End Init.

(** The properties [show_red_ato], [show_frontline_cheat] and
    [show_base_capture_cheat]. *)
Definition show_red_ato (self : CheatSettingsBox) : bool :=
  isChecked (red_ato_checkbox self).

Definition show_frontline_cheat (self : CheatSettingsBox) : bool :=
  isChecked (frontline_cheat_checkbox self).

Definition show_base_capture_cheat (self : CheatSettingsBox) : bool :=
  isChecked (base_capture_cheat_checkbox self).

End CheatSettingsBox.

(** * [QSettingsWindow] ([QSettingsWindow.py])

    The window is its instance dictionary: the attributes that the methods
    assign, by name.  The labels, tool tips and grid positions of the
    hand-written pages have no part in what the window does to the game and
    are left out, so that a layout or group box of those pages is an object
    without state here.  The methods run in a state that holds the window,
    the game and the log; a method that raises leaves the state as it was
    when the exception came up. *)

Module Window.

Import Settings Qt QSettingsWindow.

(** The game: the dictionary of its Settings Instance and the budget of the
    blue coalition. *)
Record Game : Type := mkGame {
  settings : gmap string Py.value;
  budget : Py.value
}.

(** An item of the category list. *)
Record QStandardItem : Type := mkQStandardItem {
  item_text : string;
  icon : N;
  editable : bool;
  selectable : bool
}.

(** The widgets of the stacked layout: a page of [self.pages], by its name,
    or the widget held by an attribute of the window. *)
Inductive page_ref : Type :=
| PageOf (name : string)
| Attribute (name : string).

(** [QStackedLayout]: the first widget added becomes the current one;
    [setCurrentIndex] ignores an index without a widget. *)
Record QStackedLayout : Type := mkQStackedLayout {
  widgets : list page_ref;
  stack_index : Z
}.

Definition QStackedLayout_new : QStackedLayout := mkQStackedLayout [] (-1).

Definition stack_addWidget (w : page_ref) (s : QStackedLayout)
  : QStackedLayout :=
  mkQStackedLayout (widgets s ++ [w])
    (if stack_index s <? 0 then Z.of_nat (length (widgets s))
     else stack_index s).

Definition stack_setCurrentIndex (index : Z) (s : QStackedLayout)
  : QStackedLayout :=
  if (0 <=? index) && (index <? Z.of_nat (length (widgets s)))
  then mkQStackedLayout (widgets s) index
  else s.

(** A button of the money cheat box, with the amount that the function
    connected to its [clicked] signal has captured. *)
Record QPushButton : Type := mkQPushButton {
  button_text : string;
  style : string;
  amount : Z;
  grid_row : Z;
  grid_column : Z
}.

(** The objects that the attributes of the window hold.  [OExternal] is an
    object of a class that is not in the sources, as its constructor returned
    it; [OWidget] is a widget or layout of the toolkit without state here,
    by its class. *)
Inductive object : Type :=
| ONone
| OPages (pages : list (string * list Pages.group))
| OCheckBox (w : QCheckBox)
| OSpinBox (w : QSpinBox)
| OCheatSettingsBox (box : CheatSettingsBox.CheatSettingsBox)
| OItemModel (rows : list QStandardItem)
| OListView (current_row : Z)
| OStackedLayout (s : QStackedLayout)
| OMoneyLayout (buttons : list QPushButton)
| OExternal (class : string) (ref : N)
| OWidget (class : string).

(** [d[key] = v] on a dictionary that keeps the order of insertion. *)
Fixpoint dict_set {V} (key : string) (v : V) (d : list (string * V))
  : list (string * V) :=
  match d with
  | [] => [(key, v)]
  | (k, x) :: rest =>
    if String.eqb k key then (k, v) :: rest else (k, x) :: dict_set key v rest
  end.

(** [str(z)] for an [int]. *)
Definition str_int (z : Z) : string := NilZero.string_of_int (Z.to_int z).

(** The state the methods run in.  [self.game] is the game of the state:
    [__init__] assigns it first and nothing assigns it again. *)
Record state : Type := mkState {
  self : gmap string object;
  game : Game;
  log : list string
}.

Definition M (A : Type) : Type := state -> state * result A.

Definition ret {A} (a : A) : M A := fun st => (st, Ok a).

Definition raise {A} (e : exn) : M A := fun st => (st, Raise e).

Definition lift {A} (r : result A) : M A := fun st => (st, r).

Definition and_then {A B} (m : M A) (k : A -> M B) : M B :=
  fun st =>
    match m st with
    | (st', Ok a) => k a st'
    | (st', Raise e) => (st', Raise e)
    end.

Notation "'let!' x ':=' m 'in' k" := (and_then m (fun x => k))
  (at level 10, x pattern, m at level 100, k at level 200).

Notation "'run' m 'in' k" := (and_then m (fun _ => k))
  (at level 10, m at level 100, k at level 200).

(** [self.name = o] *)
Definition setattr (name : string) (o : object) : M unit :=
  fun st => (mkState (<[name := o]> (self st)) (game st) (log st), Ok tt).

(** [self.game.blue.budget] and its assignment *)
Definition get_budget : M Py.value := fun st => (st, Ok (budget (game st))).

Definition set_budget (v : Py.value) : M unit :=
  fun st =>
    (mkState (self st) (mkGame (settings (game st)) v) (log st), Ok tt).

(** [self.game.settings.name = v] *)
Definition set_setting (name : string) (v : Py.value) : M unit :=
  fun st =>
    (mkState (self st)
       (mkGame (Instance.setattr name v (settings (game st)))
          (budget (game st)))
       (log st),
     Ok tt).

(** [logging.info(msg)] *)
Definition logging_info (msg : string) : M unit :=
  fun st => (mkState (self st) (game st) (log st ++ [msg]), Ok tt).

Section Window.

Variable split_chunks : string -> list string.

(** The class [Settings], of [settings.py]: its attributes and the
    enumeration of its pages, sections and fields. *)
Variable Settings_class : string -> option Py.value.
Variable Settings_pages : result (list string).
Variable Settings_sections : string -> result (list string).
Variable Settings_fields :
  string -> string -> result (list (string * OptionDescription)).

(** [qt_ui/uiconstants.py]: the icons by name and, for a name such as
    [SKILL_OPTIONS], the constant of that name with what indexing it gives;
    [None] when the module has no such constant. *)
Variable ICONS : gmap string N.
Variable CONST_options : string -> option (Py.value -> result Py.value).

(** The constructors of classes that are not in the sources. *)
Variable TimeInputs : string -> Py.value -> result N.
Variable QLabeledWidget : string -> QCheckBox -> result N.
Variable QHorizontalSeparationLine : result N.
Variable PluginsPage : result N.
Variable PluginOptionsPage : result N.

(** The toolkit and the language, where the window leaves them open: the
    attributes a [QDialog] has without the window assigning them; the row
    that [indexAt(QPoint(1, 1))] finds in the category list; the row that
    [addWidget] makes of the float [i / 2]; a method call or an attribute
    read on an object for which none is written out below; [int(x)] for an
    [x] that is no [int]; and [x + y] for the budget. *)
Variable QDialog_getattr : string -> option object.
Variable indexAt : list QStandardItem -> Z.
Variable row_of_half : Z -> result Z.
Variable other_call : object -> string -> result Py.value.
Variable other_getattr : object -> string -> result Py.value.
Variable int_other : Py.value -> result Py.value.
Variable add : Py.value -> Py.value -> result Py.value.

(** [game/game.py] and [GameUpdateSignal.py]:
    [game.compute_conflicts_position()] and
    [GameUpdateSignal.get_instance().updateGame(game)]. *)
Variable compute_conflicts_position : Game -> Game * result unit.
Variable updateGame : Game -> Game * result unit.

(** [self.name] *)
Definition getattr (name : string) : M object :=
  fun st =>
    (st,
     match self st !! name with
     | Some o => Ok o
     | None =>
       match QDialog_getattr name with
       | Some o => Ok o
       | None => Raise (AttributeError name)
       end
     end).

(** [self.game.settings.name] *)
Definition setting (name : string) : M Py.value :=
  fun st => (st, Instance.getattr Settings_class (settings (game st)) name).

(** A call on the game, which may change it. *)
Definition on_game (f : Game -> Game * result unit) : M unit :=
  fun st =>
    let '(g, r) := f (game st) in (mkState (self st) g (log st), r).

(** [CONST.ICONS[name]] *)
Definition ICON (name : string) : M N := lift (Py.getitem ICONS name).

(** [o.method()] *)
Definition call (o : object) (method : string) : result Py.value :=
  match o with
  | OCheckBox w =>
    if String.eqb method "isChecked" then Ok (VBool (isChecked w))
    else other_call o method
  | OSpinBox w =>
    if String.eqb method "value" then Ok (VInt (spin_value w))
    else other_call o method
  | _ => other_call o method
  end.

(** [o.name], where [name] is no method *)
Definition getattr_of (o : object) (name : string) : result Py.value :=
  match o with
  | OCheatSettingsBox box =>
    if String.eqb name "show_red_ato"
    then Ok (VBool (CheatSettingsBox.show_red_ato box))
    else if String.eqb name "show_frontline_cheat"
    then Ok (VBool (CheatSettingsBox.show_frontline_cheat box))
    else if String.eqb name "show_base_capture_cheat"
    then Ok (VBool (CheatSettingsBox.show_base_capture_cheat box))
    else other_getattr o name
  | _ => other_getattr o name
  end.

(** [int(x)] *)
Definition int (x : Py.value) : result Py.value :=
  match x with
  | VInt z => Ok (VInt z)
  | VBool b => Ok (VInt (if b then 1 else 0))
  | _ => int_other x
  end.

(** ** [__init__] and the layouts *)

(** [self.pages[page] = AutoSettingsPage(page, game.settings)], for the
    pages in turn. *)
Fixpoint add_pages (pages : list string)
    (built : list (string * list Pages.group)) : M unit :=
  match pages with
  | [] => ret tt
  | page :: rest =>
    let! widget :=
      fun st =>
        (st,
         Pages.AutoSettingsPage split_chunks Settings_fields
           Settings_sections page (settings (game st))) in
    let built := dict_set page widget built in
    run setattr "pages" (OPages built) in
    add_pages rest built
  end.

(** The three statements that make a check box of the generator page:
    [self.attr = QCheckBox()],
    [self.attr.setChecked(self.game.settings.name)] and
    [self.attr.toggled.connect(self.applySettings)]. *)
Definition add_checkbox (attr name : string) : M unit :=
  run setattr attr (OCheckBox QCheckBox_new) in
  let! v := setting name in
  let! checked := lift (to_bool v) in
  setattr attr (OCheckBox (setChecked checked QCheckBox_new).1).

(** The five statements that make a spinner of the generator page:
    [self.attr = QSpinBox()], [setMinimum], [setMaximum],
    [setValue(self.game.settings.name)] and
    [self.attr.valueChanged.connect(self.applySettings)]. *)
Definition add_spinbox (attr : string) (min max : Z) (name : string)
  : M unit :=
  let w := QSpinBox_new in
  run setattr attr (OSpinBox w) in
  let w := (setMinimum min w).1 in
  run setattr attr (OSpinBox w) in
  let w := (setMaximum max w).1 in
  run setattr attr (OSpinBox w) in
  let! v := setting name in
  let! value := lift (to_int v) in
  setattr attr (OSpinBox (setValue value w).1).

(** [initGeneratorLayout] *)
Definition initGeneratorLayout : M unit :=
  run setattr "generatorPage" (OWidget "QWidget") in
  run setattr "generatorLayout" (OWidget "QVBoxLayout") in
  run setattr "gameplay" (OWidget "QGroupBox") in
  run setattr "gameplayLayout" (OWidget "QGridLayout") in
  run add_checkbox "supercarrier" "supercarrier" in
  run add_checkbox "generate_marks" "generate_marks" in
  run add_checkbox "generate_dark_kneeboard" "generate_dark_kneeboard" in
  run add_checkbox "never_delay_players" "never_delay_player_flights" in
  let! v := setting "desired_player_mission_duration" in
  let! ref := lift (TimeInputs "Desired mission duration" v) in
  run setattr "desired_player_mission_duration"
        (OExternal "TimeInputs" ref) in
  let! start_type :=
    fun st =>
      match StartTypeComboBox.start_type Settings_class
              (settings (game st)) with
      | Ok (w, d) =>
        (mkState (self st) (mkGame d (budget (game st))) (log st), Ok w)
      | Raise e => (st, Raise e)
      end in
  run setattr "performance" (OWidget "QGroupBox") in
  run setattr "performanceLayout" (OWidget "QGridLayout") in
  run add_checkbox "smoke" "perf_smoke_gen" in
  run add_spinbox "smoke_spacing" 800 24000 "perf_smoke_spacing" in
  run add_checkbox "red_alert" "perf_red_alert_state" in
  run add_checkbox "arti" "perf_artillery" in
  run add_checkbox "moving_units" "perf_moving_units" in
  run add_checkbox "infantry" "perf_infantry" in
  run add_checkbox "destroyed_units" "perf_destroyed_units" in
  run add_checkbox "culling" "perf_culling" in
  run add_spinbox "culling_distance" 10 10000 "perf_culling_distance" in
  run add_checkbox "culling_do_not_cull_carrier"
        "perf_do_not_cull_carrier" in
  let! _ := lift QHorizontalSeparationLine in
  ret tt.

(** The body of the loop of [initCheatLayout]: the button for [amount], the
    [i]-th of the amounts. *)
Definition cheat_button (i amount : Z) : result QPushButton :=
  let '(text, style) :=
    if 0 <? amount
    then ("Cheat +" +:+ str_int amount +:+ "M", "btn-success")
    else ("Cheat " +:+ str_int amount +:+ "M", "btn-danger") in
  let* row := row_of_half i in
  Ok (mkQPushButton text style amount row (i mod 2)).

(** [for i, amount in enumerate(cheats_amounts)] *)
Fixpoint add_cheat_buttons (i : Z) (amounts : list Z)
    (buttons : list QPushButton) : M unit :=
  match amounts with
  | [] => ret tt
  | amount :: rest =>
    let! btn := lift (cheat_button i amount) in
    let buttons := buttons ++ [btn] in
    run setattr "moneyCheatBoxLayout" (OMoneyLayout buttons) in
    add_cheat_buttons (i + 1) rest buttons
  end.

Definition cheats_amounts : list Z :=
  [25; 50; 100; 200; 500; 1000; -25; -50; -100; -200].

(** [initCheatLayout] *)
Definition initCheatLayout : M unit :=
  run setattr "cheatPage" (OWidget "QWidget") in
  run setattr "cheatLayout" (OWidget "QVBoxLayout") in
  let! box :=
    fun st =>
      (st,
       CheatSettingsBox.__init__ Settings_class QLabeledWidget
         (settings (game st))) in
  run setattr "cheat_options" (OCheatSettingsBox box) in
  run setattr "moneyCheatBox" (OWidget "QGroupBox") in
  run setattr "moneyCheatBoxLayout" (OMoneyLayout []) in
  add_cheat_buttons 0 cheats_amounts [].

(** The item of a page of [self.pages] in the category list. *)
Definition page_item (name : string) : M QStandardItem :=
  let! icon :=
    match ICONS !! name with
    | Some icon => ret icon
    | None => ICON "Generator"
    end in
  ret (mkQStandardItem name icon false true).

(** [for name, page in self.pages.items()] *)
Fixpoint add_page_items (pages : list (string * list Pages.group))
    (rows : list QStandardItem) (stack : QStackedLayout)
  : M (list QStandardItem * QStackedLayout) :=
  match pages with
  | [] => ret (rows, stack)
  | (name, _) :: rest =>
    let! page_item := page_item name in
    let rows := rows ++ [page_item] in
    run setattr "categoryModel" (OItemModel rows) in
    let stack := stack_addWidget (PageOf name) stack in
    run setattr "right_layout" (OStackedLayout stack) in
    add_page_items rest rows stack
  end.

(** The five statements that add one of the four hand-written pages: the
    item with its icon, [appendRow] and [addWidget]. *)
Definition add_category (text icon_name attr : string)
    (rows : list QStandardItem) (stack : QStackedLayout)
  : M (list QStandardItem * QStackedLayout) :=
  let! icon := ICON icon_name in
  let rows := rows ++ [mkQStandardItem text icon false true] in
  run setattr "categoryModel" (OItemModel rows) in
  let stack := stack_addWidget (Attribute attr) stack in
  run setattr "right_layout" (OStackedLayout stack) in
  ret (rows, stack).

(** [initUi] *)
Definition initUi : M unit :=
  run setattr "layout" (OWidget "QGridLayout") in
  run setattr "categoryList" (OListView (-1)) in
  let stack := QStackedLayout_new in
  run setattr "right_layout" (OStackedLayout stack) in
  let rows := [] in
  run setattr "categoryModel" (OItemModel rows) in
  let! pages := getattr "pages" in
  let! (rows, stack) :=
    match pages with
    | OPages pages => add_page_items pages rows stack
    | _ => raise (AttributeError "items")
    end in
  run initGeneratorLayout in
  let! (rows, stack) :=
    add_category "Mission Generator" "Generator" "generatorPage" rows stack in
  run initCheatLayout in
  let! (rows, stack) :=
    add_category "Cheat Menu" "Cheat" "cheatPage" rows stack in
  let! ref := lift PluginsPage in
  run setattr "pluginsPage" (OExternal "PluginsPage" ref) in
  let! (rows, stack) :=
    add_category "LUA Plugins" "Plugins" "pluginsPage" rows stack in
  let! ref := lift PluginOptionsPage in
  run setattr "pluginsOptionsPage" (OExternal "PluginOptionsPage" ref) in
  let! (rows, stack) :=
    add_category "LUA Plugins Options" "PluginsOptions" "pluginsOptionsPage"
      rows stack in
  setattr "categoryList" (OListView (indexAt rows)).

(** [__init__], on the window without attributes. *)
Definition __init__ : M unit :=
  run setattr "pluginsPage" ONone in
  run setattr "pluginsOptionsPage" ONone in
  run setattr "pages" (OPages []) in
  let! pages := lift Settings_pages in
  run add_pages pages [] in
  let! _ := ICON "Settings" in
  initUi.

(** [QSettingsWindow(game)] *)
Definition QSettingsWindow (g : Game) : state * result unit :=
  __init__ (mkState ∅ g []).

(** ** The slots *)

(** [cheatMoney] *)
Definition cheatMoney (amount : Z) : M unit :=
  run logging_info ("CHEATING FOR AMOUNT : " +:+ str_int amount +:+ "M") in
  let! b := get_budget in
  let! b := lift (add b (VInt amount)) in
  run set_budget b in
  on_game updateGame.

(** [cheatLambda]: the function that a button is connected to. *)
Definition cheatLambda (amount : Z) : M unit := cheatMoney amount.

(** [self.game.settings.name = CONST.constant[self.attr.currentIndex()]] *)
Definition apply_option (name constant attr : string) : M unit :=
  let! options :=
    match CONST_options constant with
    | Some options => ret options
    | None => raise (AttributeError constant)
    end in
  let! o := getattr attr in
  let! index := lift (call o "currentIndex") in
  let! v := lift (options index) in
  set_setting name v.

(** [self.game.settings.name = self.attr.method()] *)
Definition apply_call (name attr method : string) : M unit :=
  let! o := getattr attr in
  let! v := lift (call o method) in
  set_setting name v.

(** [self.game.settings.name = self.attr.property] *)
Definition apply_attr (name attr property : string) : M unit :=
  let! o := getattr attr in
  let! v := lift (getattr_of o property) in
  set_setting name v.

(** [applySettings] *)
Definition applySettings : M unit :=
  run apply_option "player_skill" "SKILL_OPTIONS" "playerCoalitionSkill" in
  run apply_option "enemy_skill" "SKILL_OPTIONS" "enemyCoalitionSkill" in
  run apply_option "enemy_vehicle_skill" "SKILL_OPTIONS" "enemyAASkill" in
  run apply_attr "player_income_multiplier" "player_income" "value" in
  run apply_attr "enemy_income_multiplier" "enemy_income" "value" in
  run apply_call "manpads" "manpads" "isChecked" in
  run apply_option "labels" "LABELS_OPTIONS" "difficultyLabel" in
  run apply_call "night_disabled" "noNightMission" "isChecked" in
  run apply_call "map_coalition_visibility" "mapVisibiitySelection"
        "currentData" in
  run apply_call "external_views_allowed" "ext_views" "isChecked" in
  run apply_call "battle_damage_assessment" "battleDamageAssessment"
        "currentData" in
  run apply_call "generate_marks" "generate_marks" "isChecked" in
  run apply_call "never_delay_player_flights" "never_delay_players"
        "isChecked" in
  run apply_call "supercarrier" "supercarrier" "isChecked" in
  run apply_call "generate_dark_kneeboard" "generate_dark_kneeboard"
        "isChecked" in
  run apply_attr "desired_player_mission_duration"
        "desired_player_mission_duration" "value" in
  run apply_call "perf_red_alert_state" "red_alert" "isChecked" in
  run apply_call "perf_smoke_gen" "smoke" "isChecked" in
  run apply_call "perf_smoke_spacing" "smoke_spacing" "value" in
  run apply_call "perf_artillery" "arti" "isChecked" in
  run apply_call "perf_moving_units" "moving_units" "isChecked" in
  run apply_call "perf_infantry" "infantry" "isChecked" in
  run apply_call "perf_destroyed_units" "destroyed_units" "isChecked" in
  run apply_call "perf_culling" "culling" "isChecked" in
  let! o := getattr "culling_distance" in
  let! v := lift (call o "value") in
  let! v := lift (int v) in
  run set_setting "perf_culling_distance" v in
  run apply_call "perf_do_not_cull_carrier" "culling_do_not_cull_carrier"
        "isChecked" in
  run apply_attr "show_red_ato" "cheat_options" "show_red_ato" in
  run apply_attr "enable_frontline_cheats" "cheat_options"
        "show_frontline_cheat" in
  run apply_attr "enable_base_capture_cheat" "cheat_options"
        "show_base_capture_cheat" in
  run on_game compute_conflicts_position in
  on_game updateGame.

(** [onSelectionChanged] *)
Definition onSelectionChanged : M unit :=
  let! o := getattr "categoryList" in
  let! index :=
    match o with
    | OListView current_row => ret current_row
    | _ =>
      let! v :=
        lift (other_call o "selectionModel().currentIndex().row") in
      lift (to_int v)
    end in
  let! o := getattr "right_layout" in
  match o with
  | OStackedLayout s =>
    setattr "right_layout" (OStackedLayout (stack_setCurrentIndex index s))
  | _ =>
    let! _ := lift (other_call o "setCurrentIndex") in
    ret tt
  end.

(** ** What the user does *)

(** The user clicks the check box held by the attribute [attr]; the check
    boxes of the generator page are connected to [applySettings]. *)
Definition click_checkbox (attr : string) : M unit :=
  let! o := getattr attr in
  match o with
  | OCheckBox w =>
    let '(w', sig) := click w in
    run setattr attr (OCheckBox w') in
    match sig with
    | Some _ => applySettings
    | None => ret tt
    end
  | _ => ret tt
  end.

(** The user picks a row of the category list, which makes it the current
    one and calls [onSelectionChanged]. *)
Definition select_row (row : Z) : M unit :=
  let! o := getattr "categoryModel" in
  match o with
  | OItemModel rows =>
    if (0 <=? row) && (row <? Z.of_nat (length rows)) then
      run setattr "categoryList" (OListView row) in
      onSelectionChanged
    else ret tt
  | _ => ret tt
  end.

(** The user clicks the [i]-th button of the money cheat box. *)
Definition click_cheat (i : nat) : M unit :=
  let! o := getattr "moneyCheatBoxLayout" in
  match o with
  | OMoneyLayout buttons =>
    match buttons !! i with
    | Some btn => cheatLambda (amount btn)
    | None => ret tt
    end
  | _ => ret tt
  end.

(** ** Vocabulary of the properties *)

(** The attributes that [initGeneratorLayout], [initCheatLayout] and
    [initUi] assign, and all those that [__init__] assigns, [self.game]
    apart. *)
Definition generator_attributes : list string :=
  [ "generatorPage"; "generatorLayout"; "gameplay"; "gameplayLayout";
    "supercarrier"; "generate_marks"; "generate_dark_kneeboard";
    "never_delay_players"; "desired_player_mission_duration"; "performance";
    "performanceLayout"; "smoke"; "smoke_spacing"; "red_alert"; "arti";
    "moving_units"; "infantry"; "destroyed_units"; "culling";
    "culling_distance"; "culling_do_not_cull_carrier" ].

Definition cheat_attributes : list string :=
  [ "cheatPage"; "cheatLayout"; "cheat_options"; "moneyCheatBox";
    "moneyCheatBoxLayout" ].

Definition ui_attributes : list string :=
  [ "layout"; "categoryList"; "right_layout"; "categoryModel"; "pluginsPage";
    "pluginsOptionsPage" ]
  ++ generator_attributes ++ cheat_attributes.

Definition attributes : list string := "pages" :: ui_attributes.

(** A method assigns no attribute of the window outside [names]. *)
Definition assigns {A} (names : list string) (m : M A) : Prop :=
  forall st st' r,
    m st = (st', r) ->
    forall k, k ∉ names -> self st' !! k = self st !! k.

(** Two games that no reader of the settings can tell apart: every
    attribute of the Settings Instance reads the same, and the instance
    dictionaries differ at most in an entry for the start type, which the
    second has and the first leaves to the class. *)
Definition same_game (g g' : Game) : Prop :=
  budget g' = budget g
  /\ (forall name,
        Instance.getattr Settings_class (settings g') name
        = Instance.getattr Settings_class (settings g) name)
  /\ (forall k,
        k <> "default_start_type" -> settings g' !! k = settings g !! k)
  /\ (is_Some (settings g !! "default_start_type") -> g' = g).

(** A method leaves the game and the log as they are. *)
Definition reads_only {A} (m : M A) : Prop :=
  forall st st' r,
    m st = (st', r) -> same_game (game st) (game st') /\ log st' = log st.

End Window.

End Window.

(** * A settings page to run the binder on

    A page with an inverted boolean option, a choice and a bounded integer.
    [split_words] cuts a text into its words and the runs of blanks between
    them, which is what the splitter of [textwrap] does on a text without
    tabs and hyphens: the blanks it knows are the space and the control
    characters 9 to 13, and it makes a space of each. *)

Import Settings Qt QSettingsWindow.

Definition is_wrap_blank (c : ascii) : bool :=
  let n := Ascii.nat_of_ascii c in
  ((9 <=? n) && (n <=? 13) || (n =? 32))%nat.

Definition blank_to_space (c : ascii) : ascii :=
  if is_wrap_blank c then " "%char else c.

Fixpoint split_words (s : string) : list string :=
  match s with
  | EmptyString => []
  | String c s' =>
    let c := blank_to_space c in
    match split_words s' with
    | (String c' _ as chunk) :: rest =>
      if Bool.eqb (is_wrap_blank c) (is_wrap_blank c')
      then String c chunk :: rest
      else String c EmptyString :: chunk :: rest
    | rest => String c EmptyString :: rest
    end
  end.

Definition demo_split : string -> list string := split_words.

Definition demo_fields : list (string * OptionDescription) :=
  [ ("hide_x", BooleanOption "General" "Display" "Show X" None true);
    ("start_type",
     ChoicesOption "General" "Display" "Start type" (Some "Start of AI flights")
       [("Cold", VStr "cold"); ("Warm", VStr "warm")]);
    ("pilot_limit", BoundedIntOption "General" "Display" "Pilots" None 12 72) ].

Definition demo_Settings_fields (page section : string)
  : result (list (string * OptionDescription)) :=
  if String.eqb page "General" && String.eqb section "Display"
  then Ok demo_fields else Raise (KeyError (VStr page)).

Definition demo_settings : gmap string value :=
  {[ "hide_x" := VBool false; "start_type" := VStr "warm";
     "pilot_limit" := VInt 30 ]}.

(** * A game to open the settings window on

    The class [Settings] gives the defaults of the hand-written pages; the
    instance holds the fields of the page [General] above and a start type.
    The constructors of the classes that are not in the sources return
    objects numbered 6 to 10. *)

Definition demo_Settings_class (name : string) : option value :=
  (list_to_map
     [ ("supercarrier", VBool false); ("generate_marks", VBool true);
       ("generate_dark_kneeboard", VBool false);
       ("never_delay_player_flights", VBool false);
       ("desired_player_mission_duration", VInt 60);
       ("default_start_type", VStr "Cold");
       ("perf_smoke_gen", VBool true); ("perf_smoke_spacing", VInt 1600);
       ("perf_red_alert_state", VBool true); ("perf_artillery", VBool true);
       ("perf_moving_units", VBool true); ("perf_infantry", VBool true);
       ("perf_destroyed_units", VBool true); ("perf_culling", VBool false);
       ("perf_culling_distance", VInt 100);
       ("perf_do_not_cull_carrier", VBool true);
       ("show_red_ato", VBool false);
       ("enable_frontline_cheats", VBool false);
       ("enable_base_capture_cheat", VBool false) ] : gmap string value)
  !! name.

Definition demo_Settings_sections (page : string) : result (list string) :=
  if String.eqb page "General" then Ok ["Display"]
  else Raise (KeyError (VStr page)).

Definition demo_ICONS : gmap string N :=
  {[ "Settings" := 1%N; "Generator" := 2%N; "Cheat" := 3%N;
     "Plugins" := 4%N; "PluginsOptions" := 5%N ]}.

Definition demo_game : Window.Game :=
  Window.mkGame (<["default_start_type" := VStr "Warm"]> demo_settings)
    (VInt 2000).

Abbreviation demo_QSettingsWindow :=
  (Window.QSettingsWindow demo_split demo_Settings_class (Ok ["General"])
     demo_Settings_sections demo_Settings_fields demo_ICONS
     (fun _ _ => Ok 6%N) (fun _ _ => Ok 7%N) (Ok 8%N) (Ok 9%N) (Ok 10%N)
     (fun _ => None) (fun _ => 0) (fun i => Ok (i / 2))).

Definition demo_window : Window.state :=
  Eval vm_compute in (demo_QSettingsWindow demo_game).1.

Definition demo_applySettings : Window.M unit :=
  Window.applySettings (fun _ => Some (fun _ => Ok VNone)) (fun _ => None)
    (fun _ method => Raise (AttributeError method))
    (fun _ name => Raise (AttributeError name))
    (fun _ => Raise (TypeError "int"))
    (fun g => (g, Ok tt)) (fun g => (g, Ok tt)).

(** * Properties *)

(** ** Declaring a boolean option *)

Section BooleanOptionSpec.

Variable SETTING_DESCRIPTION_KEY : string.

Lemma field_named_last (body : class_body) name f :
  field_named (body ++ [(name, f)]) name = Some f.
Proof.
  induction body as [|[n g] body IH]; simpl.
  - by rewrite String.eqb_refl.
  - by rewrite IH.
Qed.

Lemma fresh_instance_last (body : class_body) name f :
  fresh_instance (body ++ [(name, f)]) !! name = Some (Dataclasses.default f).
Proof.
  unfold fresh_instance. rewrite foldl_app. simpl. apply lookup_insert_eq.
Qed.

(** The extra keyword arguments leave the default and the metadata as they
    are. *)
Lemma apply_kwargs_keeps {M} (kwargs : list (string * value))
    (f f' : Dataclasses.Field M) :
  Dataclasses.apply_kwargs kwargs f = Ok f' ->
  Dataclasses.default f' = Dataclasses.default f
  /\ Dataclasses.metadata f' = Dataclasses.metadata f.
Proof.
  revert f. induction kwargs as [|[k v] rest IH]; intros f; simpl.
  - by intros [= <-].
  - repeat match goal with
           | |- context [if ?b then _ else _] => destruct b
           end;
      try done; intros H; apply IH in H as [-> ->]; done.
Qed.

(** C8: [boolean_option(text, page, section, default, invert, detail)]
    returns a field specification whose default is [default] and whose
    metadata holds [BooleanOption(page, section, text, detail, invert)] under
    the setting-description key; in a class that declares a field with this
    specification, the description is found by the field's name.  Extra
    keyword arguments, when the call returns with them, change neither. *)
Theorem boolean_option_field_spec
    (text page section : string) (default invert : bool)
    (detail : option string) :
  (exists f,
     boolean_option SETTING_DESCRIPTION_KEY text page section default invert
       detail [] = Ok f
     /\ Dataclasses.default f = VBool default
     /\ Dataclasses.metadata f !! SETTING_DESCRIPTION_KEY
        = Some (BooleanOption page section text detail invert)
     /\ forall (body : class_body) (name : string),
          description_of SETTING_DESCRIPTION_KEY (body ++ [(name, f)]) name
          = Some (BooleanOption page section text detail invert))
  /\ forall kwargs f,
       boolean_option SETTING_DESCRIPTION_KEY text page section default
         invert detail kwargs = Ok f ->
       Dataclasses.default f = VBool default
       /\ Dataclasses.metadata f !! SETTING_DESCRIPTION_KEY
          = Some (BooleanOption page section text detail invert).
Proof.
  split.
  - eexists. split; [reflexivity|]. simpl.
    split; [reflexivity|].
    split; [apply lookup_singleton_eq|].
    intros body name. unfold description_of. rewrite field_named_last. simpl.
    apply lookup_singleton_eq.
  - intros kwargs f. unfold boolean_option, Dataclasses.field.
    destruct (Dataclasses.apply_kwargs kwargs _) as [f'|] eqn:E; [|done].
    cbn [Py.bind]. destruct (Dataclasses.default_factory f'); [by cbn|].
    intros [= <-]. apply apply_kwargs_keeps in E as [-> ->]. simpl.
    split; [done|]. apply lookup_singleton_eq.
Qed.

End BooleanOptionSpec.

(** ** Loading a saved Settings Instance *)

Section SettingsLoadSpec.

Import SettingsLoad.

Lemma overlay_lookup (fresh persisted : gmap string value) (k : string) :
  overlay fresh persisted !! k
  = match fresh !! k with
    | Some d => Some (default d (persisted !! k))
    | None => None
    end.
Proof.
  unfold overlay.
  apply (map_fold_weak_ind
    (fun (r : gmap string value) (m : gmap string value) =>
       r !! k = match fresh !! k with
                | Some d => Some (default d (m !! k))
                | None => None
                end)).
  - rewrite lookup_empty. simpl. by destruct (fresh !! k).
  - intros i x m r Hi IH.
    destruct (decide (i = k)) as [->|Hne].
    + rewrite lookup_insert_eq. case_decide as Hs.
      * destruct Hs as [d Hd]. rewrite Hd. apply lookup_insert_eq.
      * rewrite IH. destruct (fresh !! k) eqn:E; [|done].
        exfalso. apply Hs. eauto.
    + rewrite (lookup_insert_ne m i k) by done.
      case_decide; [rewrite lookup_insert_ne by done|]; exact IH.
Qed.

(** C6: loading is a forward-compatible merge.  The loaded instance is the
    fresh defaults overlaid with the persisted values of the fields that are
    in both the save and the schema; a field only in the save is dropped; a
    field missing from the save holds its declared default; a field in both
    holds its saved value. *)
Theorem load_forward_compatible_merge
    (body : class_body) (persisted : gmap string value) :
  let fresh := fresh_instance body in
  let loaded := load body persisted in
  loaded = filter (fun kv => is_Some (fresh !! kv.1)) persisted ∪ fresh
  /\ dom loaded = dom fresh
  /\ (forall k, fresh !! k = None -> loaded !! k = None)
  /\ (forall k, persisted !! k = None -> loaded !! k = fresh !! k)
  /\ (forall k v, is_Some (fresh !! k) -> persisted !! k = Some v ->
        loaded !! k = Some v).
Proof.
  intros fresh loaded. subst loaded. unfold load. fold fresh.
  split; [|split; [|split; [|split]]].
  - apply map_eq. intros k. rewrite overlay_lookup, lookup_union.
    destruct (fresh !! k) as [d|] eqn:Hf.
    + destruct (persisted !! k) as [v|] eqn:Hp; simpl.
      * rewrite (map_lookup_filter_Some_2 _ _ k v); [done|done|].
        simpl. rewrite Hf. eauto.
      * rewrite map_lookup_filter, Hp. done.
    + rewrite (proj2 (map_lookup_filter_None _ _ k)); [done|].
      right. intros v _. simpl. rewrite Hf. by intros [? ?].
  - apply set_eq. intros k. rewrite !elem_of_dom, overlay_lookup.
    destruct (fresh !! k); split; intros [? ?]; eauto; done.
  - intros k Hk. by rewrite overlay_lookup, Hk.
  - intros k Hk. rewrite overlay_lookup, Hk. by destruct (fresh !! k).
  - intros k v [d Hd] Hp. by rewrite overlay_lookup, Hd, Hp.
Qed.

End SettingsLoadSpec.

(** ** Unpickling a ground unit type *)

Section GroundUnitTypeSpec.

Import GroundUnitType.

Variable _load_all : class_state -> class_state * result unit.

(** After [register], [_by_name] holds the unit type under its
    [variant_id]. *)
Lemma register_by_name cls unit_type variant_id dcs_unit_type :
  unit_type !! "variant_id" = Some (VStr variant_id) ->
  unit_type !! "dcs_unit_type" = Some dcs_unit_type ->
  exists cls',
    register cls unit_type = (cls', Ok tt)
    /\ _loaded cls' = _loaded cls
    /\ _by_name cls' !! variant_id = Some unit_type.
Proof.
  intros Hv Hd. unfold register, getattr. rewrite Hv, Hd. simpl.
  eexists. split; [reflexivity|]. simpl. split; [done|].
  apply lookup_insert_eq.
Qed.

Lemma named_registered cls cls' variant_id updated :
  (if _loaded cls then (cls, Ok tt) else _load_all cls) = (cls', Ok tt) ->
  _by_name cls' !! variant_id = Some updated ->
  named _load_all cls (VStr variant_id) = (cls', Ok updated).
Proof. intros Hl Hn. unfold named. by rewrite Hl, Hn. Qed.

(** C10: when the unit types are loaded (already, or by [_load_all] on this
    call) and one is registered under the [variant_id] of the saved state,
    [__setstate__] returns; every field of the registered unit type replaces
    the saved value, and a saved key the registered unit type does not have
    keeps its saved value. *)
Theorem setstate_takes_registered_data
    (cls cls' : class_state) (self state updated : gmap string value)
    (variant_id : string) :
  state !! "variant_id" = Some (VStr variant_id) ->
  (if _loaded cls then (cls, Ok tt) else _load_all cls) = (cls', Ok tt) ->
  _by_name cls' !! variant_id = Some updated ->
  exists self' state',
    __setstate__ _load_all cls self state = (cls', Ok (self', state'))
    /\ (forall k v, updated !! k = Some v ->
          self' !! k = Some v /\ state' !! k = Some v)
    /\ (forall k v, updated !! k = None -> state !! k = Some v ->
          self' !! k = Some v).
Proof.
  intros Hs Hl Hn. unfold __setstate__, Py.getitem.
  rewrite Hs, (named_registered cls cls' variant_id updated Hl Hn).
  eexists _, _. split; [reflexivity|]. unfold Py.update. split.
  - intros k v Hk. split.
    + apply lookup_union_Some_l, lookup_union_Some_l, Hk.
    + apply lookup_union_Some_l, Hk.
  - intros k v Hk Hv. rewrite lookup_union_l'.
    + by rewrite lookup_union_r.
    + rewrite lookup_union_r by done. eauto.
Qed.

End GroundUnitTypeSpec.

(** The registered variant is the one the last [register] call left: a unit
    type saved with price 10 is loaded with the price 12 of the variant
    registered since, and keeps a key the variant lacks. *)
Lemma setstate_takes_registered_data_witness :
  let load_all := fun cls => (cls, Ok tt) in
  let unit_type : gmap string value :=
    {[ "variant_id" := VStr "M1A2"; "dcs_unit_type" := VObj 7;
       "price" := VInt 12 ]} in
  let cls := (GroundUnitType.register
                (GroundUnitType.mkClass true ∅ []) unit_type).1 in
  let state : gmap string value :=
    {[ "variant_id" := VStr "M1A2"; "price" := VInt 10;
       "legacy" := VBool true ]} in
  exists self' state',
    GroundUnitType.__setstate__ load_all cls ∅ state
    = (cls, Ok (self', state'))
    /\ self' !! "price" = Some (VInt 12)
    /\ self' !! "legacy" = Some (VBool true).
Proof.
  intros load_all unit_type cls state.
  destruct (setstate_takes_registered_data load_all cls cls ∅ state unit_type
              "M1A2") as (self' & state' & Hset & Hnew & Hold).
  - reflexivity.
  - reflexivity.
  - reflexivity.
  - exists self', state'. split; [exact Hset|]. split.
    + apply (Hnew "price" (VInt 12)). reflexivity.
    + apply (Hold "legacy" (VBool true)); reflexivity.
Defined.

(** ** Wrapping the detail text *)

Section TextwrapSpec.

Import Textwrap.

Lemma length_join_chunks l : length (join_chunks l) = sum_len l.
Proof.
  unfold join_chunks. induction l as [|s l IH]; simpl; [done|].
  by rewrite length_app, IH.
Qed.

Lemma sum_len_app l1 l2 : sum_len (l1 ++ l2) = (sum_len l1 + sum_len l2)%nat.
Proof. induction l1 as [|s l1 IH]; simpl; [done|]. rewrite IH. lia. Qed.

Lemma sum_len_removelast l : (sum_len (removelast l) <= sum_len l)%nat.
Proof.
  induction l as [|s l IH]; [done|].
  destruct l as [|s' l]; [simpl; lia|].
  change (length s + sum_len (removelast (s' :: l))
          <= length s + sum_len (s' :: l))%nat.
  lia.
Qed.

Lemma sum_len_drop_trailing_blank l :
  (sum_len (drop_trailing_blank l) <= sum_len l)%nat.
Proof.
  unfold drop_trailing_blank. destruct (last l); [|done].
  destruct (is_blank _); [apply sum_len_removelast|done].
Qed.

Lemma rfind_hyphen_from_lt i stop s j :
  rfind_hyphen_from i stop s = Some j -> (j < stop)%nat.
Proof.
  revert i. induction s as [|c s IH]; intros i; simpl; [done|].
  destruct (stop <=? i)%nat eqn:E; [done|].
  apply Nat.leb_gt in E.
  destruct (rfind_hyphen_from (S i) stop s) eqn:R.
  - intros [= <-]. eauto.
  - destruct (is_hyphen c); [|done]. by intros [= <-].
Qed.

(** The inner loop keeps the line within the width and only takes chunks
    off the front. *)
Lemma fill_line_spec width chunks cur_line cur_len chunks' cur_line' cur_len' :
  fill_line width chunks cur_line cur_len = (chunks', cur_line', cur_len') ->
  sum_len cur_line = cur_len ->
  (cur_len <= width)%nat ->
  sum_len cur_line' = cur_len'
  /\ (cur_len' <= width)%nat
  /\ (wrap_fuel chunks' <= wrap_fuel chunks)%nat.
Proof.
  revert cur_line cur_len.
  induction chunks as [|c rest IH]; intros cur_line cur_len; simpl.
  - intros [= <- <- <-] Hs Hw. repeat split; auto.
  - destruct (cur_len + length c <=? width)%nat eqn:E.
    + intros H Hs Hw. apply Nat.leb_le in E.
      apply IH in H as (H1 & H2 & H3);
        [|rewrite sum_len_app; simpl; lia|lia].
      unfold wrap_fuel in *. simpl in *. repeat split; lia.
    + intros [= <- <- <-] Hs Hw. repeat split; auto.
Qed.

(** What the cut of a long word leaves: the current line stays within the
    width, and the chunks do not grow. *)
Lemma handle_long_word_spec chunk rest cur_line cur_len width chunks' line' :
  _handle_long_word chunk rest cur_line cur_len width = (chunks', line') ->
  (1 <= width)%nat ->
  sum_len cur_line = cur_len ->
  (cur_len <= width)%nat ->
  (sum_len line' <= width)%nat
  /\ (wrap_fuel chunks' <= wrap_fuel (chunk :: rest))%nat
  /\ (cur_len = 0 -> 0 < length chunk ->
      wrap_fuel chunks' < wrap_fuel (chunk :: rest))%nat.
Proof.
  unfold _handle_long_word. intros H Hw Hs Hc.
  destruct (width <? 1)%nat eqn:E1; [apply Nat.ltb_lt in E1; lia|].
  set (space_left := (width - cur_len)%nat) in *.
  set (stop := if (space_left <? length chunk)%nat then _ else _) in *.
  assert (Hstop : (stop <= space_left)%nat
                  /\ (0 < space_left -> 0 < stop)%nat).
  { subst stop. destruct (space_left <? length chunk)%nat; [|lia].
    destruct (rfind_hyphen_from 0 space_left chunk) as [j|] eqn:R; [|lia].
    apply rfind_hyphen_from_lt in R.
    destruct ((0 <? j)%nat && any_not_hyphen (take j chunk)); lia. }
  injection H as <- <-.
  rewrite sum_len_app. unfold wrap_fuel. simpl.
  rewrite length_take, length_drop.
  subst space_left. repeat split; lia.
Qed.

Lemma fill_line_first width c rest chunks2 cur_line cur_len :
  fill_line width (c :: rest) [] 0 = (chunks2, cur_line, cur_len) ->
  sum_len cur_line = cur_len
  /\ (cur_len <= width)%nat
  /\ ((wrap_fuel chunks2 < wrap_fuel (c :: rest))%nat
      \/ ((width < length c)%nat
          /\ chunks2 = c :: rest /\ cur_len = 0%nat)).
Proof.
  simpl. destruct (length c <=? width)%nat eqn:E.
  - intros H. apply Nat.leb_le in E.
    apply fill_line_spec in H as (H1 & H2 & H3); [|simpl; lia|lia].
    split; [done|]. split; [done|]. left.
    unfold wrap_fuel in *. simpl. lia.
  - intros [= <- <- <-]. apply Nat.leb_gt in E.
    split; [done|]. split; [lia|]. right. done.
Qed.

(** The cut of a long word, if there is one to cut. *)
Lemma cut_long_word_spec width chunks2 cur_line cur_len chunks3 cur_line1 :
  cut_long_word width chunks2 cur_line cur_len = (chunks3, cur_line1) ->
  (1 <= width)%nat ->
  sum_len cur_line = cur_len ->
  (cur_len <= width)%nat ->
  (sum_len cur_line1 <= width)%nat
  /\ (wrap_fuel chunks3 <= wrap_fuel chunks2)%nat
  /\ (forall c rest, chunks2 = c :: rest ->
        (width < length c)%nat -> cur_len = 0%nat ->
        (wrap_fuel chunks3 < wrap_fuel chunks2)%nat).
Proof.
  unfold cut_long_word. intros E Hw Hs Hc.
  destruct chunks2 as [|c rest].
  - injection E as <- <-. split; [lia|]. split; [lia|]. done.
  - destruct (width <? length c)%nat eqn:L.
    + apply handle_long_word_spec in E as (E1 & E2 & E3); try done.
      split; [done|]. split; [done|].
      intros c' rest' [= <- <-] Hlen Hz. apply E3; lia.
    + injection E as <- <-. apply Nat.ltb_ge in L.
      split; [lia|]. split; [lia|].
      intros c' rest' [= <- <-] Hlen Hz. lia.
Qed.

Lemma drop_leading_blank_cases c rest lines :
  drop_leading_blank (c :: rest) lines = c :: rest
  \/ drop_leading_blank (c :: rest) lines = rest.
Proof.
  unfold drop_leading_blank. destruct lines; [by left|].
  destruct (is_blank c); [by right|by left].
Qed.

(** One round of the outer loop: a line that is added is within the width,
    and the chunks get smaller. *)
Lemma wrap_line_spec width chunks lines chunks' lines' :
  wrap_line width chunks lines = (chunks', lines') ->
  (1 <= width)%nat ->
  chunks <> [] ->
  (wrap_fuel chunks' < wrap_fuel chunks)%nat
  /\ (lines' = lines
      \/ exists ln, lines' = lines ++ [ln] /\ (length ln <= width)%nat).
Proof.
  unfold wrap_line. intros H Hw Hne.
  destruct chunks as [|c rest]; [done|].
  destruct (fill_line width (drop_leading_blank (c :: rest) lines) [] 0)
    as [[chunks2 cur_line] cur_len] eqn:F.
  destruct (cut_long_word width chunks2 cur_line cur_len)
    as [chunks3 cur_line1] eqn:C.
  assert (Hfill : sum_len cur_line = cur_len /\ (cur_len <= width)%nat
            /\ ((wrap_fuel chunks2 < wrap_fuel (c :: rest))%nat
                \/ ((width < length c)%nat
                    /\ chunks2 = c :: rest /\ cur_len = 0%nat))).
  { destruct (drop_leading_blank_cases c rest lines) as [Heq|Heq];
      rewrite Heq in F.
    - by apply fill_line_first.
    - apply fill_line_spec in F as (F1 & F2 & F3); [|done|lia].
      split; [done|]. split; [done|]. left.
      unfold wrap_fuel in *. simpl. lia. }
  destruct Hfill as (Hs & Hc & Hfuel).
  apply cut_long_word_spec in C as (C1 & C2 & C3); try done.
  pose proof (sum_len_drop_trailing_blank cur_line1) as Hd.
  split.
  - assert (wrap_fuel chunks3 < wrap_fuel (c :: rest))%nat.
    { destruct Hfuel as [Hlt|(Hlen & -> & ->)]; [lia|]. by eapply C3. }
    by destruct (drop_trailing_blank cur_line1); injection H as <- <-.
  - destruct (drop_trailing_blank cur_line1) as [|s l] eqn:D;
      injection H as <- <-; [by left|].
    right. exists (join_chunks (s :: l)). split; [done|].
    rewrite length_join_chunks. lia.
Qed.

(** With [wrap_fuel] rounds the loop ends, and every line it adds is
    within the width. *)
Lemma wrap_loop_spec fuel width chunks lines :
  (1 <= width)%nat ->
  (wrap_fuel chunks <= fuel)%nat ->
  Forall (fun ln => length ln <= width)%nat lines ->
  exists lines',
    wrap_loop fuel width chunks lines = Some lines'
    /\ Forall (fun ln => length ln <= width)%nat lines'.
Proof.
  intros Hw. revert chunks lines.
  induction fuel as [|fuel IH]; intros chunks lines Hf Hl.
  - destruct chunks as [|c rest]; [simpl; eauto|].
    unfold wrap_fuel in Hf. simpl in Hf. lia.
  - destruct chunks as [|c rest]; [simpl; eauto|].
    simpl.
    destruct (wrap_line width (c :: rest) lines) as [chunks' lines'] eqn:E.
    apply wrap_line_spec in E as (E1 & E2); [|done|done].
    apply IH; [lia|].
    destruct E2 as [->|(ln & -> & Hln)]; [done|].
    apply Forall_app. split; [done|]. by constructor.
Qed.

Lemma wrap_loop_enough_fuel width chunks :
  (1 <= width)%nat ->
  exists lines,
    wrap_loop (wrap_fuel chunks) width chunks [] = Some lines
    /\ Forall (fun ln => length ln <= width)%nat lines.
Proof. intros Hw. by apply wrap_loop_spec. Qed.

(** *** The lines hold what the chunks hold *)

Lemma visible_app a b : visible (a ++ b) = visible a ++ visible b.
Proof. apply filter_app. Qed.

Lemma visible_blank c : is_blank c = true -> visible c = [].
Proof.
  unfold is_blank, visible. induction c as [|ch c IH]; [done|].
  cbn [forallb]. intros [Hch Hc]%andb_true_iff.
  rewrite filter_cons_False by (rewrite Hch; done). auto.
Qed.

Lemma fill_line_concat width chunks cur_line cur_len chunks' cur_line' cur_len' :
  fill_line width chunks cur_line cur_len = (chunks', cur_line', cur_len') ->
  concat cur_line' ++ concat chunks' = concat cur_line ++ concat chunks.
Proof.
  revert cur_line cur_len.
  induction chunks as [|c rest IH]; intros cur_line cur_len; cbn [fill_line].
  - by intros [= <- <- <-].
  - destruct (cur_len + length c <=? width)%nat.
    + intros H. apply IH in H as ->.
      rewrite concat_app. cbn [concat]. by rewrite app_nil_r, <- app_assoc.
    + by intros [= <- <- <-].
Qed.

Lemma cut_long_word_concat width chunks2 cur_line cur_len chunks3 cur_line1 :
  cut_long_word width chunks2 cur_line cur_len = (chunks3, cur_line1) ->
  concat cur_line1 ++ concat chunks3 = concat cur_line ++ concat chunks2.
Proof.
  unfold cut_long_word, _handle_long_word.
  destruct chunks2 as [|c rest]; [by intros [= <- <-]|].
  destruct (width <? length c)%nat; [|by intros [= <- <-]].
  intros [= <- <-]. rewrite concat_app. cbn [concat].
  rewrite app_nil_r, <- app_assoc. f_equal.
  by rewrite app_assoc, take_drop.
Qed.

Lemma drop_trailing_blank_visible l :
  visible (concat (drop_trailing_blank l)) = visible (concat l).
Proof.
  unfold drop_trailing_blank. destruct (last l) as [c|] eqn:E; [|done].
  destruct (is_blank c) eqn:B; [|done].
  apply last_Some in E as [l' ->]. rewrite removelast_last.
  rewrite concat_app, visible_app. cbn [concat].
  by rewrite app_nil_r, (visible_blank c B), app_nil_r.
Qed.

Lemma drop_leading_blank_visible chunks lines :
  visible (concat (drop_leading_blank chunks lines)) = visible (concat chunks).
Proof.
  unfold drop_leading_blank. destruct chunks as [|c rest]; [done|].
  destruct lines; [done|]. destruct (is_blank c) eqn:B; [|done].
  cbn [concat]. by rewrite visible_app, (visible_blank c B).
Qed.

(** A round of the loop moves characters from the chunks to the lines, and
    leaves out white space only. *)
Lemma wrap_line_visible width chunks lines chunks' lines' :
  wrap_line width chunks lines = (chunks', lines') ->
  visible (concat lines') ++ visible (concat chunks')
  = visible (concat lines) ++ visible (concat chunks).
Proof.
  unfold wrap_line.
  destruct (fill_line width (drop_leading_blank chunks lines) [] 0)
    as [[chunks2 cur_line] cur_len] eqn:F.
  destruct (cut_long_word width chunks2 cur_line cur_len)
    as [chunks3 cur_line1] eqn:C.
  apply fill_line_concat in F. apply cut_long_word_concat in C.
  cbn [concat app] in F.
  assert (H1 : visible (concat (drop_trailing_blank cur_line1))
               ++ visible (concat chunks3)
               = visible (concat chunks)).
  { rewrite drop_trailing_blank_visible, <- visible_app, C, F.
    apply drop_leading_blank_visible. }
  destruct (drop_trailing_blank cur_line1) as [|s l] eqn:D;
    intros [= <- <-].
  - by rewrite <- H1.
  - unfold join_chunks. rewrite concat_app, visible_app. cbn [concat].
    rewrite app_nil_r, <- app_assoc. by rewrite <- H1.
Qed.

Lemma wrap_loop_visible fuel width chunks lines lines' :
  wrap_loop fuel width chunks lines = Some lines' ->
  visible (concat lines') = visible (concat lines) ++ visible (concat chunks).
Proof.
  revert chunks lines.
  induction fuel as [|fuel IH]; intros chunks lines;
    (destruct chunks as [|c rest];
     [cbn [wrap_loop concat]; intros [= <-]; by rewrite app_nil_r|]);
    [done|].
  cbn [wrap_loop].
  destruct (wrap_line width (c :: rest) lines) as [chunks1 lines1] eqn:E.
  intros H. apply IH in H as ->. exact (wrap_line_visible _ _ _ _ _ E).
Qed.

(** *** The lines are the text, cut *)

Lemma drop_trailing_blank_split l :
  exists b,
    is_blank b = true /\ concat l = concat (drop_trailing_blank l) ++ b.
Proof.
  unfold drop_trailing_blank. destruct (last l) as [c|] eqn:E;
    [|exists []; by rewrite app_nil_r].
  destruct (is_blank c) eqn:B; [|exists []; by rewrite app_nil_r].
  apply last_Some in E as [l' ->]. rewrite removelast_last.
  exists c. split; [done|]. rewrite concat_app. cbn [concat].
  by rewrite app_nil_r.
Qed.

Lemma drop_leading_blank_split chunks lines :
  exists lead,
    is_blank lead = true
    /\ concat chunks = lead ++ concat (drop_leading_blank chunks lines).
Proof.
  unfold drop_leading_blank. destruct chunks as [|c rest]; [by exists []|].
  destruct lines; [by exists []|].
  destruct (is_blank c) eqn:B; [by exists c|by exists []].
Qed.

(** A round of the loop cuts a stretch off the front of the chunks: blanks,
    then a line if there is one, then blanks. *)
Lemma wrap_line_pieces width chunks lines chunks' lines' :
  wrap_line width chunks lines = (chunks', lines') ->
  exists pieces,
    concat (piece_chars <$> pieces) ++ concat chunks' = concat chunks
    /\ lines' = lines ++ lines_of pieces
    /\ gaps_blank pieces.
Proof.
  unfold wrap_line.
  destruct (drop_leading_blank_split chunks lines) as (lead & Hlead & Hchunks).
  destruct (fill_line width (drop_leading_blank chunks lines) [] 0)
    as [[chunks2 cur_line] cur_len] eqn:F.
  destruct (cut_long_word width chunks2 cur_line cur_len)
    as [chunks3 cur_line1] eqn:C.
  apply fill_line_concat in F. apply cut_long_word_concat in C.
  cbn [concat app] in F.
  destruct (drop_trailing_blank_split cur_line1) as (b & Hb & Hline).
  assert (Hall : lead ++ (concat (drop_trailing_blank cur_line1) ++ b)
                 ++ concat chunks3 = concat chunks)
    by (rewrite <- Hline, C, F; done).
  destruct (drop_trailing_blank cur_line1) as [|s l] eqn:D;
    intros [= <- <-].
  - exists [Gap lead; Gap b]. split_and!.
    + cbn. by rewrite app_nil_r, <- app_assoc.
    + cbn. by rewrite app_nil_r.
    + by repeat constructor.
  - exists [Gap lead; Line (join_chunks (s :: l)); Gap b]. split_and!.
    + cbn [fmap list_fmap piece_chars concat]. unfold join_chunks.
      rewrite app_nil_r, <- Hall. by rewrite <- !app_assoc.
    + done.
    + by repeat constructor.
Qed.

Lemma wrap_loop_pieces fuel width chunks lines lines' :
  wrap_loop fuel width chunks lines = Some lines' ->
  exists pieces,
    concat (piece_chars <$> pieces) = concat chunks
    /\ lines' = lines ++ lines_of pieces
    /\ gaps_blank pieces.
Proof.
  revert chunks lines.
  induction fuel as [|fuel IH]; intros chunks lines;
    (destruct chunks as [|c rest];
     [cbn [wrap_loop]; intros [= <-]; exists [];
      by rewrite app_nil_r; split_and!; [done|done|constructor]|]);
    [done|].
  cbn [wrap_loop].
  destruct (wrap_line width (c :: rest) lines) as [chunks1 lines1] eqn:E.
  intros H. apply IH in H as (ps2 & H2 & -> & G2).
  apply wrap_line_pieces in E as (ps1 & H1 & -> & G1).
  exists (ps1 ++ ps2). split_and!.
  - by rewrite fmap_app, concat_app, H2, H1.
  - unfold lines_of. by rewrite omap_app, app_assoc.
  - by apply Forall_app.
Qed.

(** *** A text that fits on one line *)

Lemma fill_line_all width chunks cur_line cur_len :
  (cur_len + sum_len chunks <= width)%nat ->
  fill_line width chunks cur_line cur_len
  = ([], cur_line ++ chunks, (cur_len + sum_len chunks)%nat).
Proof.
  revert cur_line cur_len.
  induction chunks as [|c rest IH]; intros cur_line cur_len;
    cbn [fill_line sum_len foldr].
  - intros _. by rewrite app_nil_r, Nat.add_0_r.
  - intros H. fold (sum_len rest) in *.
    replace (cur_len + length c <=? width)%nat with true
      by (symmetry; apply Nat.leb_le; lia).
    rewrite IH by lia. by rewrite <- app_assoc, Nat.add_assoc.
Qed.

Lemma wrap_loop_one_line width chunks :
  (sum_len chunks <= width)%nat ->
  wrap_loop (wrap_fuel chunks) width chunks []
  = Some match drop_trailing_blank chunks with
         | [] => []
         | cur_line => [join_chunks cur_line]
         end.
Proof.
  intros H. destruct chunks as [|c rest]; [done|].
  unfold wrap_fuel. cbn [length Nat.add]. rewrite Nat.add_succ_r.
  cbn [wrap_loop]. unfold wrap_line. cbn [drop_leading_blank].
  rewrite fill_line_all by exact H. cbn [app cut_long_word].
  destruct (drop_trailing_blank (c :: rest));
    by destruct (sum_len (c :: rest) + length rest)%nat.
Qed.

End TextwrapSpec.

(** ** The label of a row *)

Section LabelSpec.

Variable split_chunks : string -> list string.

Lemma label_text_cases (d : OptionDescription) :
  match detail d with
  | None => label_text split_chunks d = Ok (text d)
  | Some dt =>
    let chunks := Textwrap.chars <$> split_chunks dt in
    exists lines,
      Textwrap.wrap_loop (Textwrap.wrap_fuel chunks) 55 chunks [] = Some lines
      /\ Textwrap.wrap split_chunks dt 55 = Ok (Textwrap.str_of <$> lines)
      /\ Forall (fun ln => length ln <= 55)%nat lines
      /\ (exists pieces,
            concat (Textwrap.piece_chars <$> pieces) = concat chunks
            /\ Textwrap.lines_of pieces = lines
            /\ Textwrap.gaps_blank pieces)
      /\ Textwrap.visible (concat lines) = Textwrap.visible (concat chunks)
      /\ ((Textwrap.sum_len chunks <= 55)%nat ->
          lines = match Textwrap.drop_trailing_blank chunks with
                  | [] => []
                  | cur_line => [concat cur_line]
                  end)
      /\ label_text split_chunks d
         = Ok (text d +:+ "<br /><strong>"
               +:+ String.concat "<br />" (Textwrap.str_of <$> lines)
               +:+ "</strong>")
  end.
Proof.
  unfold label_text. destruct (detail d) as [dt|]; [|done].
  cbv zeta. set (chunks := Textwrap.chars <$> split_chunks dt).
  destruct (wrap_loop_enough_fuel 55 chunks) as (lines & Hl & Hb); [lia|].
  exists lines.
  assert (Hwrap : Textwrap.wrap split_chunks dt 55
                  = Ok (Textwrap.str_of <$> lines)).
  { unfold Textwrap.wrap, Textwrap._wrap_chunks. fold chunks.
    change (55 <=? 0)%nat with false. cbv iota. by rewrite Hl. }
  split_and!; [done|done|done| | | |by rewrite Hwrap].
  - destruct (wrap_loop_pieces _ _ _ _ _ Hl) as (pieces & H1 & H2 & H3).
    exists pieces. by split_and!.
  - by rewrite (wrap_loop_visible _ _ _ _ _ Hl).
  - intros Hshort. rewrite wrap_loop_one_line in Hl by done.
    by injection Hl as <-.
Qed.

Lemma label_text_ok (d : OptionDescription) :
  exists txt, label_text split_chunks d = Ok txt.
Proof.
  pose proof (label_text_cases d) as H.
  destruct (detail d);
    [destruct H as (? & _ & _ & _ & _ & _ & _ & ->)|rewrite H]; eauto.
Qed.


End LabelSpec.

(** ** The binder: which control, wired to which field *)

Section BinderSpec.

Variable split_chunks : string -> list string.

(** A slot writes the field of its control and nothing else. *)
Lemma interact_spec (it : item) (name : string) (ev : interaction)
    (s : gmap string value) :
  field_of_item it = Some name ->
  exists it' s' sig,
    interact it ev s = (it', s', sig)
    /\ field_of_item it' = Some name
    /\ control_of_item it' = control_of_item it
    /\ match sig with
       | None => s' = s
       | Some (toggled b) =>
         exists invert : bool,
           s' = <[name := VBool (if invert then negb b else b)]> s
       | Some (currentIndexChanged i) =>
         exists w, it' = ComboBox w name /\ s' = <[name := itemData i w]> s
       | Some spinner_valueChanged =>
         exists w, it' = FloatSpin w name /\ s' = <[name := fvalue w]> s
       | Some (valueChanged v) => s' = <[name := VInt v]> s
       end.
Proof.
  intros Hf.
  destruct it as [txt|w n invert|w n|w n|w n]; simpl in Hf; try done;
    injection Hf as ->; destruct ev; simpl;
    try (eexists _, _, (@None signal); repeat split; done).
  - unfold click, setChecked.
    destruct (Bool.eqb _ _);
      eexists _, _, _; repeat split; eauto.
  - destruct ((0 <=? index) && (index <? count w));
      [|eexists _, _, (@None signal); repeat split; done].
    unfold setCurrentIndex. destruct (_ =? currentIndex w);
      eexists _, _, _; repeat split; eauto.
  - unfold slide. destruct (negb _);
      eexists _, _, _; repeat split; eauto.
  - unfold setValue. destruct (_ =? spin_value w);
      eexists _, _, _; repeat split; eauto.
Qed.

Lemma interact_emitted_writes (it : item) (name : string) (ev : interaction)
    (s s' : gmap string value) (it' : item) (sig : signal) :
  field_of_item it = Some name ->
  interact it ev s = (it', s', Some sig) ->
  exists v, s' = <[name := v]> s.
Proof.
  intros Hf Hi.
  destruct (interact_spec it name ev s Hf) as (it1 & s1 & sig1 & E & _ & _ & H).
  rewrite E in Hi. injection Hi as -> -> ->.
  destruct sig; [destruct H as [? ->]|destruct H as (? & _ & ->)
                |destruct H as (? & _ & ->)|rewrite H]; eauto.
Qed.

Lemma text_for_value_Some (choices : list (string * value)) (v : value) :
  v ∈ choices.*2 ->
  exists t, text_for_value choices v = Some t.
Proof.
  induction choices as [|[t v'] rest IH]; simpl.
  - intros H. by apply elem_of_nil in H.
  - intros H. destruct (decide (v = v')); [eauto|].
    apply elem_of_cons in H as [H|H]; [done|auto].
Qed.

Lemma text_for_value_elem (choices : list (string * value)) (v : value) t :
  text_for_value choices v = Some t ->
  exists i, choices !! i = Some (t, v)
            /\ forall j t' v', (j < i)%nat -> choices !! j = Some (t', v') ->
                 v' <> v.
Proof.
  induction choices as [|[t0 v0] rest IH]; simpl; [done|].
  destruct (decide (v = v0)) as [->|Hne].
  - intros [= ->]. exists 0%nat. split; [done|]. intros; lia.
  - intros H. destruct (IH H) as (i & Hi & Hfirst).
    exists (S i). split; [done|].
    intros [|j] t' v' Hj; simpl.
    + intros [= _ <-]. done.
    + apply Hfirst. lia.
Qed.

Lemma to_int_fits (z : Z) : fits_int z = true -> to_int (VInt z) = Ok z.
Proof. unfold to_int, fits_int. by intros ->. Qed.

Lemma to_int_overflow (z : Z) :
  fits_int z = false -> to_int (VInt z) = Raise OverflowError.
Proof. unfold to_int, fits_int. by intros ->. Qed.

(** A row that is bound holds a label and the control of its class, wired
    to the field of the row. *)
Lemma add_row_inv settings row name d l l' :
  add_row split_chunks settings row name d l = Ok l' ->
  exists txt it,
    label_text split_chunks d = Ok txt
    /\ l' = l ++ [mkCell row 0 (Label txt) None;
                  mkCell row 1 it (Some AlignRight)]
    /\ control_of_item it = control_for_description d
    /\ is_Some (control_for_description d)
    /\ field_of_item it = Some name.
Proof.
  unfold add_row, add_label. intros H.
  destruct (label_text split_chunks d) as [txt|e] eqn:Hl; [|done].
  cbn [Py.bind] in H. exists txt.
  assert (Happ : forall (it : item),
            addWidget it row 1 (Some AlignRight)
              (addWidget (Label txt) row 0 None l)
            = l ++ [mkCell row 0 (Label txt) None;
                    mkCell row 1 it (Some AlignRight)]).
  { intros it. unfold addWidget. by rewrite <- app_assoc. }
  assert (Happ' : forall (it : item),
            addLayout it row 1 (Some AlignRight)
              (addWidget (Label txt) row 0 None l)
            = l ++ [mkCell row 0 (Label txt) None;
                    mkCell row 1 it (Some AlignRight)]).
  { intros it. unfold addLayout, addWidget. by rewrite <- app_assoc. }
  unfold control_for_description.
  destruct (as_instance d) as [p sc t dt invert|p sc t dt choices
                              |p sc t dt mn mx dv|p sc t dt mn mx|p sc t dt
                              |cn base]; [| | | |done|done].
  - unfold add_checkbox_for in H.
    destruct (getitem settings name) as [v|]; [|done]. cbn [Py.bind] in H.
    destruct (if invert then _ else _) as [b|]; [|done]. cbn [Py.bind] in H.
    injection H as <-. rewrite Happ. eexists. repeat split; eauto.
  - unfold add_combobox_for in H.
    destruct (getitem settings name) as [v|]; [|done]. cbn [Py.bind] in H.
    destruct (text_for_value choices v); [|done]. cbn [Py.bind] in H.
    injection H as <-. rewrite Happ. eexists. repeat split; eauto.
  - unfold add_float_spin_slider_for in H.
    destruct (getitem settings name) as [v|]; [|done]. cbn [Py.bind] in H.
    injection H as <-. rewrite Happ'. eexists. repeat split; eauto.
  - unfold add_spinner_for in H.
    destruct (to_int (VInt mn)); [|done]. cbn [Py.bind] in H.
    destruct (to_int (VInt mx)); [|done]. cbn [Py.bind] in H.
    destruct (getitem settings name) as [v|]; [|done]. cbn [Py.bind] in H.
    destruct (to_int v); [|done]. cbn [Py.bind] in H.
    injection H as <-. rewrite Happ. eexists. repeat split; eauto.
Qed.

(** A row is bound when the instance holds, under the field's name, a
    value of the type of its description. *)
Lemma add_row_ok settings row name d l :
  bindable settings (name, d) ->
  exists l', add_row split_chunks settings row name d l = Ok l'.
Proof.
  intros (v & Hv & Hacc). cbn [fst snd] in Hv, Hacc.
  unfold add_row, add_label.
  destruct (label_text_ok split_chunks d) as [txt ->]. cbn [Py.bind].
  unfold accepts in Hacc.
  destruct (as_instance d) as [p sc t dt invert|p sc t dt choices
                              |p sc t dt mn mx dv|p sc t dt mn mx|p sc t dt
                              |cn base]; [| | | |done|done].
  - unfold add_checkbox_for, getitem. rewrite Hv. cbn [Py.bind].
    destruct invert; [cbn [Py.bind]; eauto|].
    destruct v; try done. cbn [to_bool Py.bind]. eauto.
  - unfold add_combobox_for, getitem. rewrite Hv. cbn [Py.bind].
    apply bool_decide_eq_true in Hacc.
    destruct (text_for_value_Some choices v Hacc) as [t0 ->].
    cbn [Py.bind]. eauto.
  - unfold add_float_spin_slider_for, getitem. rewrite Hv. cbn [Py.bind].
    eauto.
  - apply andb_true_iff in Hacc as [Hacc Hz].
    apply andb_true_iff in Hacc as [Hmn Hmx].
    destruct v as [|b|z|f|s0|n]; try done.
    unfold add_spinner_for, getitem.
    rewrite (to_int_fits mn Hmn), (to_int_fits mx Hmx), Hv. cbn [Py.bind].
    rewrite (to_int_fits z Hz). cbn [Py.bind]. eauto.
Qed.

(** The error for an unhandled class is raised for the classes outside the
    closed set and for no other. *)
Lemma add_row_unhandled_iff settings row name d l :
  add_row split_chunks settings row name d l
  = Raise (TypeError "Unhandled option type")
  <-> control_for_description d = None.
Proof.
  unfold add_row, add_label.
  destruct (label_text_ok split_chunks d) as [txt ->]. cbn [Py.bind].
  unfold control_for_description.
  destruct (as_instance d) as [p sc t dt invert|p sc t dt choices
                              |p sc t dt mn mx dv|p sc t dt mn mx|p sc t dt
                              |cn base]; simpl; [| | | |done|done].
  - unfold add_checkbox_for, getitem.
    destruct (settings !! name) as [v|]; simpl; [|done].
    destruct invert; simpl; [done|]. by destruct v.
  - unfold add_combobox_for, getitem.
    destruct (settings !! name) as [v|]; simpl; [|done].
    by destruct (text_for_value choices v).
  - unfold add_float_spin_slider_for, getitem.
    by destruct (settings !! name) as [v|].
  - unfold add_spinner_for, getitem, to_int.
    destruct (_ && _); simpl; [|done].
    destruct (_ && _); simpl; [|done].
    destruct (settings !! name) as [v|]; simpl; [|done].
    destruct v as [|b|z|f|s0|n]; simpl; try done.
    by destruct (_ && _).
Qed.

Lemma add_rows_ok settings fs row l :
  Forall (bindable settings) fs ->
  exists l', add_rows split_chunks settings row fs l = Ok l'.
Proof.
  revert row l. induction fs as [|[name d] fs IH]; intros row l Hall;
    cbn [add_rows].
  - eauto.
  - apply Forall_cons in Hall as [Hb Hall].
    destruct (add_row_ok settings row name d l Hb) as [l1 ->]. cbn [Py.bind].
    by apply IH.
Qed.

Lemma add_rows_inv settings fs row l l' :
  add_rows split_chunks settings row fs l = Ok l' ->
  exists cells,
    l' = l ++ cells
    /\ length cells = (2 * length fs)%nat
    /\ forall i name d, fs !! i = Some (name, d) ->
         exists txt it,
           cells !! (2 * i)%nat = Some (mkCell (row + i) 0 (Label txt) None)
           /\ cells !! (2 * i + 1)%nat
              = Some (mkCell (row + i) 1 it (Some AlignRight))
           /\ label_text split_chunks d = Ok txt
           /\ control_of_item it = control_for_description d
           /\ is_Some (control_for_description d)
           /\ field_of_item it = Some name.
Proof.
  revert row l l'. induction fs as [|[name d] fs IH]; intros row l l';
    cbn [add_rows Py.bind].
  - intros [= <-]. exists []. rewrite app_nil_r. split_and!; done.
  - destruct (add_row split_chunks settings row name d l) as [l1|] eqn:E;
      [|done].
    cbn [Py.bind]. intros H.
    apply add_row_inv in E as (txt & it & Ht & -> & Hk & Hs & Hf).
    apply IH in H as (cells & -> & Hlen & Hrows).
    exists (mkCell row 0 (Label txt) None
            :: mkCell row 1 it (Some AlignRight) :: cells).
    split; [by rewrite <- app_assoc|].
    split; [simpl; lia|].
    intros [|i] n' d' Hi.
    + injection Hi as <- <-. exists txt, it.
      replace (row + 0)%nat with row by lia. split_and!; done.
    + simpl in Hi. destruct (Hrows i n' d' Hi)
        as (txt' & it' & H0 & H1 & H2 & H3 & H4 & H5).
      exists txt', it'.
      replace (2 * S i + 1)%nat with (S (S (2 * i + 1))) by lia.
      replace (2 * S i)%nat with (S (S (2 * i))) by lia.
      replace (row + S i)%nat with (S row + i)%nat by lia.
      split_and!; [exact H0|exact H1|done..].
Qed.

Lemma add_rows_unhandled settings pre name d post row l :
  control_for_description d = None ->
  (exists e, add_rows split_chunks settings row (pre ++ (name, d) :: post) l
             = Raise e)
  /\ (Forall (bindable settings) pre ->
      add_rows split_chunks settings row (pre ++ (name, d) :: post) l
      = Raise (TypeError "Unhandled option type")).
Proof.
  intros Hd. revert row l.
  induction pre as [|[n0 d0] pre IH]; intros row l; simpl.
  - apply (add_row_unhandled_iff settings row name d l) in Hd as ->.
    simpl. eauto.
  - destruct (add_row split_chunks settings row n0 d0 l) as [l1|e] eqn:E;
      simpl.
    + destruct (IH (S row) l1) as [H1 H2]. split; [done|].
      intros Hall. apply Forall_cons in Hall as [_ Hall]. auto.
    + split; [eauto|]. intros Hall. apply Forall_cons in Hall as [Hb _].
      destruct (add_row_ok settings row n0 d0 l Hb) as [l1 Hl1].
      congruence.
Qed.

Lemma add_rows_handled settings fs row l :
  Forall (fun nd : string * OptionDescription =>
            is_Some (control_for_description nd.2)) fs ->
  add_rows split_chunks settings row fs l
  <> Raise (TypeError "Unhandled option type").
Proof.
  revert row l. induction fs as [|[name d] fs IH]; intros row l Hall; simpl;
    [done|].
  apply Forall_cons in Hall as [[k Hk] Hall]. simpl in Hk.
  destruct (add_row split_chunks settings row name d l) as [l1|e] eqn:E;
    simpl; [by apply IH|].
  intros [= ->]. apply add_row_unhandled_iff in E. congruence.
Qed.

Variable Settings_fields :
  string -> string -> result (list (string * OptionDescription)).

(** C1: for the pairs that [fields(page, section)] returns, the layout is
    built on every instance that holds a value of the right type under each
    field name, and whenever it is built it holds for the i-th pair, in
    declaration order, a label in column 0 and in column 1 the control of the
    description's class: a check box for a BooleanOption, a combo box for a
    ChoicesOption, a float spin slider for a BoundedFloatOption and a spinner
    for a BoundedIntOption, an instance of a subclass going with its class.
    The control is wired to the field of the pair: when it emits its signal,
    the slot writes that field. *)
Theorem binder_selects_control_by_class
    (page section : string) (settings : gmap string value)
    (fields : list (string * OptionDescription)) :
  Settings_fields page section = Ok fields ->
  (Forall (bindable settings) fields ->
   exists lay,
     AutoSettingsLayout split_chunks Settings_fields page section settings
     = Ok lay)
  /\ forall lay,
       AutoSettingsLayout split_chunks Settings_fields page section settings
       = Ok lay ->
       length lay = (2 * length fields)%nat
       /\ forall (i : nat) (name : string) (d : OptionDescription),
            fields !! i = Some (name, d) ->
            exists txt it,
              lay !! (2 * i)%nat = Some (mkCell i 0 (Label txt) None)
              /\ lay !! (2 * i + 1)%nat
                 = Some (mkCell i 1 it (Some AlignRight))
              /\ control_of_item it = control_for_description d
              /\ match as_instance d with
                 | BooleanOption _ _ _ _ _ =>
                   control_of_item it = Some checkbox
                 | ChoicesOption _ _ _ _ _ =>
                   control_of_item it = Some combobox
                 | BoundedFloatOption _ _ _ _ _ _ _ =>
                   control_of_item it = Some float_spin_slider
                 | BoundedIntOption _ _ _ _ _ _ =>
                   control_of_item it = Some integer_spinner
                 | PlainOption _ _ _ _ | Subclass _ _ => False
                 end
              /\ field_of_item it = Some name
              /\ forall ev s it' s' sig,
                   interact it ev s = (it', s', Some sig) ->
                   exists v, s' = <[name := v]> s.
Proof.
  intros Hfields. unfold AutoSettingsLayout. rewrite Hfields.
  cbn [Py.bind]. split; [apply add_rows_ok|].
  intros lay Hlay.
  apply add_rows_inv in Hlay as (cells & -> & Hlen & Hrows).
  split; [done|].
  intros i name d Hi.
  destruct (Hrows i name d Hi) as (txt & it & H0 & H1 & _ & Hk & Hs & Hf).
  exists txt, it. split_and!; try done.
  - rewrite Hk. unfold control_for_description in *.
    destruct (as_instance d); try done; by destruct Hs.
  - intros ev s it' s' sig. by apply interact_emitted_writes.
Qed.

(** C5, amended: a description that is an instance of none of the four
    classes makes the binding fail, with the TypeError for an unhandled
    option type when the rows before it can be bound.  When all the
    descriptions are instances of the four classes that error is never
    raised, and the binding succeeds on an instance that holds, for every
    row, a value of the description's type under the field's name.  The test
    is [isinstance]: a description whose own class is none of the four but
    derives from one of them counts as an instance of that class, and a
    layout that is built holds the control of that class in its row. *)
Theorem unhandled_class_is_fatal
    (page section : string) (settings : gmap string value)
    (fields : list (string * OptionDescription)) :
  Settings_fields page section = Ok fields ->
  (forall pre name d post,
     fields = pre ++ (name, d) :: post ->
     control_for_description d = None ->
     (exists e,
        AutoSettingsLayout split_chunks Settings_fields page section settings
        = Raise e)
     /\ (Forall (bindable settings) pre ->
         AutoSettingsLayout split_chunks Settings_fields page section settings
         = Raise (TypeError "Unhandled option type")))
  /\ (Forall (fun nd : string * OptionDescription =>
                is_Some (control_for_description nd.2)) fields ->
      AutoSettingsLayout split_chunks Settings_fields page section settings
      <> Raise (TypeError "Unhandled option type")
      /\ (Forall (bindable settings) fields ->
          exists lay,
            AutoSettingsLayout split_chunks Settings_fields page section
              settings = Ok lay))
  /\ forall (i : nat) (name class_name : string) (base : OptionDescription),
       fields !! i = Some (name, Subclass class_name base) ->
       of_the_closed_set (Subclass class_name base) = false
       /\ control_for_description (Subclass class_name base)
          = control_for_description base
       /\ accepts (Subclass class_name base) = accepts base
       /\ forall lay,
            AutoSettingsLayout split_chunks Settings_fields page section
              settings = Ok lay ->
            exists k it,
              control_for_description base = Some k
              /\ lay !! (2 * i + 1)%nat
                 = Some (mkCell i 1 it (Some AlignRight))
              /\ control_of_item it = Some k
              /\ field_of_item it = Some name.
Proof.
  intros Hfields. unfold AutoSettingsLayout. rewrite Hfields. cbn [Py.bind].
  split_and!.
  - intros pre name d post -> Hd. by apply add_rows_unhandled.
  - intros Hall. split; [by apply add_rows_handled|apply add_rows_ok].
  - intros i name class_name base Hi. split_and!; [done|done|done|].
    intros lay Hlay.
    apply add_rows_inv in Hlay as (cells & -> & Hlen & Hrows).
    destruct (Hrows i name _ Hi) as (txt & it & _ & H1 & _ & Hk & [k Hs] & Hf).
    exists k, it. split_and!; [done|done|congruence|done].
Qed.

(** C7: the control the binder installs for a row is wired to the field of
    the row and stays so.  Whatever the user does to a control wired to a
    field, the slot, when called, stores under that field's name the value
    it is given (the check box: after the inversion) with no further check,
    and every other field of the instance keeps its value. *)
Theorem write_back_touches_only_its_field
    (settings : gmap string value) (row : nat) (name : string)
    (d : OptionDescription) (l l' : layout) :
  add_row split_chunks settings row name d l = Ok l' ->
  exists txt it,
    l' = l ++ [mkCell row 0 (Label txt) None;
               mkCell row 1 it (Some AlignRight)]
    /\ field_of_item it = Some name
    /\ forall (it0 : item) (ev : interaction) (s : gmap string value),
         field_of_item it0 = Some name ->
         exists it1 s1 sig,
           interact it0 ev s = (it1, s1, sig)
           /\ field_of_item it1 = Some name
           /\ (forall k, k <> name -> s1 !! k = s !! k)
           /\ match sig with
              | None => s1 = s
              | Some (toggled b) =>
                exists invert : bool,
                  s1 = <[name := VBool (if invert then negb b else b)]> s
              | Some (currentIndexChanged i) =>
                exists w, it1 = ComboBox w name
                          /\ s1 = <[name := itemData i w]> s
              | Some spinner_valueChanged =>
                exists w, it1 = FloatSpin w name
                          /\ s1 = <[name := fvalue w]> s
              | Some (valueChanged v) => s1 = <[name := VInt v]> s
              end.
Proof.
  intros H. apply add_row_inv in H as (txt & it & _ & -> & _ & _ & Hf).
  exists txt, it. split; [done|]. split; [done|].
  intros it0 ev s Hf0.
  destruct (interact_spec it0 name ev s Hf0)
    as (it1 & s1 & sig & E & Hf1 & _ & Hw).
  exists it1, s1, sig. split_and!; try done.
  intros k Hk.
  destruct sig as [[b|i| |v]|].
  - destruct Hw as [invert ->]. by rewrite lookup_insert_ne.
  - destruct Hw as (w & _ & ->). by rewrite lookup_insert_ne.
  - destruct Hw as (w & _ & ->). by rewrite lookup_insert_ne.
  - rewrite Hw. by rewrite lookup_insert_ne.
  - by rewrite Hw.
Qed.

End BinderSpec.

(** ** The check box of a boolean option *)

Section CheckBoxSpec.

Variable SETTING_DESCRIPTION_KEY : string.

(** C2: for a boolean field that holds [stored], the check box starts
    checked iff [invert ? not stored : stored]; the slot stores the state it
    is given after the same inversion; a click stores the negation of
    [stored] and a second click stores [stored] again, leaving the control as
    it was.  For a field declared with [default=False] and [invert=True], a
    fresh instance holds [False], the check box starts checked, and
    unchecking it stores [True]. *)
Theorem checkbox_inversion_round_trip
    (settings : gmap string value) (row : nat) (name : string)
    (invert stored : bool) (l : layout)
    (text page section : string) (detail : option string) :
  settings !! name = Some (VBool stored) ->
  (exists w,
     add_checkbox_for settings row name invert l
     = Ok (l ++ [mkCell row 1 (CheckBox w name invert) (Some AlignRight)])
     /\ isChecked w = (if invert then negb stored else stored)
     /\ (forall b s,
           on_toggle name invert b s
           = <[name := VBool (if invert then negb b else b)]> s)
     /\ forall s,
          exists it1 s1 s2,
            interact (CheckBox w name invert) Click s
            = (it1, s1, Some (toggled (negb (isChecked w))))
            /\ s1 !! name = Some (VBool (negb stored))
            /\ interact it1 Click s1
               = (CheckBox w name invert, s2, Some (toggled (isChecked w)))
            /\ s2 !! name = Some (VBool stored)
            /\ interact_all (CheckBox w name invert) [Click; Click] s
               = (CheckBox w name invert, s2))
  /\ exists f,
       boolean_option SETTING_DESCRIPTION_KEY text page section false true
         detail [] = Ok f
       /\ description_of SETTING_DESCRIPTION_KEY [(name, f)] name
          = Some (BooleanOption page section text detail true)
       /\ fresh_instance [(name, f)] !! name = Some (VBool false)
       /\ exists w,
            add_checkbox_for (fresh_instance [(name, f)]) row name true l
            = Ok (l ++ [mkCell row 1 (CheckBox w name true) (Some AlignRight)])
            /\ isChecked w = true
            /\ exists it1 s1,
                 interact (CheckBox w name true) Click
                   (fresh_instance [(name, f)])
                 = (it1, s1, Some (toggled false))
                 /\ s1 !! name = Some (VBool true).
Proof.
  intros Hs. split.
  - unfold add_checkbox_for, getitem. rewrite Hs. cbn [Py.bind].
    exists (mkQCheckBox (if invert then negb stored else stored)).
    split; [by destruct invert|].
    split; [done|]. split; [done|].
    intros s. cbn [isChecked].
    destruct invert, stored; simpl; unfold on_toggle;
      eexists _, _, _; split_and!; try reflexivity;
      apply lookup_insert_eq.
  - eexists. split; [reflexivity|].
    split.
    { unfold description_of. simpl. rewrite String.eqb_refl. simpl.
      apply lookup_singleton_eq. }
    assert (Hfresh : forall f : Dataclasses.Field OptionDescription,
              fresh_instance [(name, f)] !! name
              = Some (Dataclasses.default f)).
    { intros f. apply (fresh_instance_last [] name f). }
    split; [apply Hfresh|].
    unfold add_checkbox_for, getitem. rewrite Hfresh. simpl.
    eexists. split; [reflexivity|]. split; [reflexivity|].
    eexists _, _. split; [reflexivity|].
    unfold on_toggle. simpl. apply lookup_insert_eq.
Qed.

End CheckBoxSpec.

(** ** The spinner of a bounded integer option *)

Section SpinnerSpec.

Lemma bound_in_range lo hi v : lo <= hi -> lo <= bound lo hi v <= hi.
Proof.
  intros H. unfold bound.
  destruct (v <? lo) eqn:E1.
  - destruct (hi <? lo) eqn:E2; lia.
  - destruct (hi <? v) eqn:E2; lia.
Qed.

Lemma spinner_of_range min max stored :
  let w := spinner_of min max stored in
  minimum w = Z.min min max
  /\ maximum w = max
  /\ minimum w <= spin_value w <= maximum w.
Proof.
  unfold spinner_of, setValue, setMaximum, setMinimum, setRange, QSpinBox_new.
  cbn [fst minimum maximum spin_value].
  repeat match goal with
         | |- context [?a <? ?b] => destruct (Z.ltb_spec a b)
         end;
    cbn [fst minimum maximum spin_value]; split_and!; try lia;
    apply bound_in_range; lia.
Qed.

Lemma spinner_interact_inv name w ev s it1 s1 sig :
  interact (SpinBox w name) ev s = (it1, s1, sig) ->
  minimum w <= spin_value w <= maximum w ->
  exists w1,
    it1 = SpinBox w1 name
    /\ minimum w1 = minimum w /\ maximum w1 = maximum w
    /\ minimum w <= spin_value w1 <= maximum w
    /\ match sig with
       | Some g => g = valueChanged (spin_value w1)
                   /\ spin_value w1 <> spin_value w
                   /\ s1 = <[name := VInt (spin_value w1)]> s
       | None => s1 = s
       end.
Proof.
  intros H Hr. destruct ev; simpl in H; try (injection H as <- <- <-; eauto 10).
  pose proof (bound_in_range (minimum w) (maximum w) v ltac:(lia)) as Hb.
  destruct (Z.eqb_spec (bound (minimum w) (maximum w) v) (spin_value w));
    injection H as <- <- <-; eexists; split_and!; try done; simpl; lia.
Qed.

Lemma spinner_interact_all_inv name evs w s it1 s1 :
  interact_all (SpinBox w name) evs s = (it1, s1) ->
  minimum w <= spin_value w <= maximum w ->
  exists w1,
    it1 = SpinBox w1 name
    /\ minimum w1 = minimum w /\ maximum w1 = maximum w
    /\ minimum w <= spin_value w1 <= maximum w.
Proof.
  revert w s. induction evs as [|ev evs IH]; intros w s; cbn [interact_all].
  - intros [= <- <-] Hr. eauto.
  - destruct (interact (SpinBox w name) ev s) as [[it' s'] sig] eqn:E.
    intros H Hr.
    apply spinner_interact_inv in E as (w' & -> & Hmin & Hmax & Hv & _);
      [|done].
    apply IH in H as (w1 & -> & Hmin1 & Hmax1 & Hv1); [|lia].
    exists w1. split_and!; try done; lia.
Qed.

(** C4: the spinner of a bounded integer field is set up with the range
    [min, max] (when [min <= max]).  After any run of interactions with it,
    its value is within the range of the control, and whenever it calls the
    slot, the value delivered lies within [min, max] and is the value the
    field holds afterwards. *)
Theorem spinner_writes_stay_in_range
    (settings : gmap string value) (row : nat) (name : string)
    (min max stored : Z) (l : layout) :
  settings !! name = Some (VInt stored) ->
  fits_int min = true -> fits_int max = true -> fits_int stored = true ->
  exists w,
    add_spinner_for settings row name min max l
    = Ok (l ++ [mkCell row 1 (SpinBox w name) (Some AlignRight)])
    /\ (min <= max ->
        minimum w = min /\ maximum w = max /\ min <= spin_value w <= max)
    /\ forall evs s it1 s1,
         interact_all (SpinBox w name) evs s = (it1, s1) ->
         (exists w1,
            it1 = SpinBox w1 name
            /\ (min <= max -> min <= spin_value w1 <= max))
         /\ forall ev it2 s2 sig,
              interact it1 ev s1 = (it2, s2, Some sig) ->
              exists v,
                sig = valueChanged v
                /\ min <= v <= max
                /\ s2 = on_changed_spinner name v s1
                /\ s2 !! name = Some (VInt v).
Proof.
  intros Hs Hmin Hmax Hst.
  exists (spinner_of min max stored).
  pose proof (spinner_of_range min max stored) as (Hlo & Hhi & Hv).
  cbv zeta in Hlo, Hhi, Hv.
  split.
  { unfold add_spinner_for, getitem.
    rewrite (to_int_fits min Hmin), (to_int_fits max Hmax), Hs.
    cbn [Py.bind]. rewrite (to_int_fits stored Hst). done. }
  split; [intros Hle; lia|].
  intros evs s it1 s1 Hrun.
  apply spinner_interact_all_inv in Hrun as (w1 & -> & Hmin1 & Hmax1 & Hv1);
    [|done].
  split; [exists w1; split; [done|]; lia|].
  intros ev it2 s2 sig Hi.
  apply spinner_interact_inv in Hi as (w2 & -> & Hmin2 & Hmax2 & Hv2 & Hsig);
    [|lia].
  destruct Hsig as (-> & Hne & ->).
  exists (spin_value w2). split_and!; try done; try lia.
  apply lookup_insert_eq.
Qed.

End SpinnerSpec.

(** ** The combo box of a choices option *)

Section ComboBoxSpec.

Lemma foldl_addItem_items (choices : list (string * value)) (w : QComboBox) :
  items (foldl (fun w '(text, value) => (addItem text value w).1) w choices)
  = items w ++ choices.
Proof.
  revert w. induction choices as [|[t v] rest IH]; intros w; simpl.
  - by rewrite app_nil_r.
  - rewrite IH. unfold addItem.
    destruct ((count w =? 0) && (currentIndex w =? -1)); simpl;
      by rewrite <- app_assoc.
Qed.

Lemma combobox_of_items choices : items (combobox_of choices) = choices.
Proof. unfold combobox_of. by rewrite foldl_addItem_items. Qed.

Lemma find_text_from_lookup (l : list (string * value)) k i t v :
  NoDup l.*1 -> l !! i = Some (t, v) ->
  find_text_from k l t = k + Z.of_nat i.
Proof.
  revert k i. induction l as [|[t0 v0] rest IH]; intros k i Hnd Hi; [done|].
  apply NoDup_cons in Hnd as [Hnotin Hnd]. simpl.
  destruct i as [|i]; simpl in Hi.
  - injection Hi as -> ->. rewrite String.eqb_refl. lia.
  - destruct (String.eqb_spec t0 t) as [->|Hne].
    + exfalso. apply Hnotin. apply list_elem_of_fmap. exists (t, v).
      split; [done|]. by eapply list_elem_of_lookup_2.
    + rewrite (IH (k + 1) i Hnd Hi). lia.
Qed.

Lemma item_at_nat (w : QComboBox) (i : nat) :
  item_at w (Z.of_nat i) = items w !! i.
Proof.
  unfold item_at. destruct (Z.ltb_spec (Z.of_nat i) 0); [lia|].
  by rewrite Nat2Z.id.
Qed.

Lemma valid_index (w : QComboBox) (i : nat) x :
  items w !! i = Some x ->
  (0 <=? Z.of_nat i) && (Z.of_nat i <? count w) = true.
Proof.
  intros H. apply lookup_lt_Some in H. unfold count.
  apply andb_true_iff. split; [apply Z.leb_le|apply Z.ltb_lt]; lia.
Qed.

(** Picking the item [i] stores its data, whether or not the index
    changes, and the box stays in step. *)
Lemma select_in_step choices name it s i t v :
  NoDup choices.*1 ->
  in_step choices name it s ->
  choices !! i = Some (t, v) ->
  exists it1 s1 sig,
    interact it (select_text t it) s = (it1, s1, sig)
    /\ s1 !! name = Some v
    /\ in_step choices name it1 s1.
Proof.
  intros Hnd (w & i0 & t0 & v0 & -> & <- & Hcur & Hi0 & Hs) Hi.
  unfold select_text, findText.
  rewrite (find_text_from_lookup (items w) 0 i t v Hnd Hi), Z.add_0_l.
  cbn [interact]. rewrite (valid_index w i (t, v) Hi).
  unfold setCurrentIndex. rewrite (valid_index w i (t, v) Hi).
  destruct (Z.eqb_spec (Z.of_nat i) (currentIndex w)) as [Heq|Hne].
  - assert (i = i0) as -> by lia.
    assert (v = v0) as -> by congruence.
    eexists _, _, _. split; [done|]. split; [done|].
    exists (mkQComboBox (items w) (Z.of_nat i0)), i0, t0, v0. done.
  - eexists _, _, _. split; [done|].
    unfold on_changed_combobox, itemData. rewrite item_at_nat.
    cbn [items]. rewrite Hi. split; [apply lookup_insert_eq|].
    exists (mkQComboBox (items w) (Z.of_nat i)), i, t, v.
    split_and!; try done. apply lookup_insert_eq.
Qed.

Lemma interact_in_step choices name it ev s it1 s1 sig :
  in_step choices name it s ->
  interact it ev s = (it1, s1, sig) ->
  in_step choices name it1 s1.
Proof.
  intros (w & i0 & t0 & v0 & -> & <- & Hcur & Hi0 & Hs) H.
  destruct ev; cbn [interact] in H;
    try (injection H as <- <- <-; by exists w, i0, t0, v0).
  destruct ((0 <=? index) && (index <? count w)) eqn:Hv;
    [|injection H as <- <- <-; by exists w, i0, t0, v0].
  unfold setCurrentIndex in H. rewrite Hv in H.
  apply andb_true_iff in Hv as [H0 H1].
  apply Z.leb_le in H0. apply Z.ltb_lt in H1. unfold count in H1.
  destruct (lookup_lt_is_Some_2 (items w) (Z.to_nat index)) as [[t v] Hx];
    [lia|].
  destruct (Z.eqb_spec index (currentIndex w)) as [Heq|Hne];
    injection H as <- <- <-.
  - exists (mkQComboBox (items w) index), i0, t0, v0.
    split_and!; try done. cbn [currentIndex]. lia.
  - exists (mkQComboBox (items w) index), (Z.to_nat index), t, v.
    split_and!; try done.
    + cbn [currentIndex]. lia.
    + unfold on_changed_combobox, itemData, item_at. cbn [items].
      destruct (Z.ltb_spec index 0); [lia|]. rewrite Hx.
      apply lookup_insert_eq.
Qed.

Lemma interact_all_in_step choices name evs it s it1 s1 :
  in_step choices name it s ->
  interact_all it evs s = (it1, s1) ->
  in_step choices name it1 s1.
Proof.
  revert it s. induction evs as [|ev evs IH]; intros it s Hin;
    cbn [interact_all].
  - by intros [= <- <-].
  - destruct (interact it ev s) as [[it' s'] sig] eqn:E.
    apply IH. by eapply interact_in_step.
Qed.

(** The combo box [add_combobox_for] builds. *)
Lemma add_combobox_for_spec settings row name choices l stored :
  NoDup choices.*1 ->
  settings !! name = Some stored ->
  stored ∈ choices.*2 ->
  exists w t0 i0,
    add_combobox_for settings row name choices l
    = Ok (l ++ [mkCell row 1 (ComboBox w name) (Some AlignRight)])
    /\ items w = choices
    /\ text_for_value choices stored = Some t0
    /\ choices !! i0 = Some (t0, stored)
    /\ currentIndex w = Z.of_nat i0.
Proof.
  intros Hnd Hs Hin.
  destruct (text_for_value_Some choices stored Hin) as [t0 Ht0].
  destruct (text_for_value_elem choices stored t0 Ht0) as (i0 & Hi0 & _).
  exists (setCurrentText t0 (combobox_of choices)).1, t0, i0.
  unfold add_combobox_for, getitem. rewrite Hs. cbn [Py.bind].
  rewrite Ht0. cbn [Py.bind]. split; [done|].
  unfold setCurrentText, findText. rewrite combobox_of_items.
  rewrite (find_text_from_lookup choices 0 i0 t0 stored Hnd Hi0), Z.add_0_l.
  destruct (Z.ltb_spec (-1) (Z.of_nat i0)); [|lia].
  unfold setCurrentIndex.
  rewrite (valid_index (combobox_of choices) i0 (t0, stored))
    by by rewrite combobox_of_items.
  cbn [fst items currentIndex]. by rewrite combobox_of_items.
Qed.

(** C3: for a field that holds one of the values of the choices, the combo
    box has one item per entry of the choices, in their order, each with the
    value as its data; the current text is [text_for_value] of the stored
    value.  After any run of interactions with the box, picking the text of
    an entry stores the value of the entry, and picking afterwards the text
    that [text_for_value] gives for this value stores the same value. *)
Theorem combobox_choices_round_trip
    (settings : gmap string value) (row : nat) (name : string)
    (choices : list (string * value)) (l : layout) (stored : value) :
  NoDup choices.*1 ->
  settings !! name = Some stored ->
  stored ∈ choices.*2 ->
  exists w t0,
    add_combobox_for settings row name choices l
    = Ok (l ++ [mkCell row 1 (ComboBox w name) (Some AlignRight)])
    /\ items w = choices
    /\ (forall i text v, choices !! i = Some (text, v) ->
          itemData (Z.of_nat i) w = v)
    /\ text_for_value choices stored = Some t0
    /\ currentText w = t0
    /\ forall evs it s,
         interact_all (ComboBox w name) evs settings = (it, s) ->
         forall i text v,
           choices !! i = Some (text, v) ->
           exists it1 s1 sig1,
             interact it (select_text text it) s = (it1, s1, sig1)
             /\ s1 !! name = Some v
             /\ exists t',
                  text_for_value choices v = Some t'
                  /\ forall evs' it2 s2,
                       interact_all it1 evs' s1 = (it2, s2) ->
                       exists it3 s3 sig3,
                         interact it2 (select_text t' it2) s2 = (it3, s3, sig3)
                         /\ s3 !! name = Some v.
Proof.
  intros Hnd Hs Hin.
  destruct (add_combobox_for_spec settings row name choices l stored
              Hnd Hs Hin) as (w & t0 & i0 & Hadd & Hit & Ht0 & Hi0 & Hcur).
  exists w, t0. split; [done|]. split; [done|].
  split.
  { intros i text v Hi. unfold itemData. by rewrite item_at_nat, Hit, Hi. }
  split; [done|].
  split.
  { unfold currentText. by rewrite Hcur, item_at_nat, Hit, Hi0. }
  assert (Hstep : in_step choices name (ComboBox w name) settings).
  { exists w, i0, t0, stored. done. }
  intros evs it s Hrun i text v Hi.
  pose proof (interact_all_in_step choices name evs _ _ _ _ Hstep Hrun)
    as Hstep1.
  destruct (select_in_step choices name it s i text v Hnd Hstep1 Hi)
    as (it1 & s1 & sig1 & Hsel & Hs1 & Hstep2).
  exists it1, s1, sig1. split; [done|]. split; [done|].
  assert (Hv : v ∈ choices.*2).
  { apply list_elem_of_fmap. exists (text, v). split; [done|].
    by eapply list_elem_of_lookup_2. }
  destruct (text_for_value_Some choices v Hv) as [t' Ht'].
  destruct (text_for_value_elem choices v t' Ht') as (j & Hj & _).
  exists t'. split; [done|].
  intros evs' it2 s2 Hrun2.
  pose proof (interact_all_in_step choices name evs' _ _ _ _ Hstep2 Hrun2)
    as Hstep3.
  destruct (select_in_step choices name it2 s2 j t' v Hnd Hstep3 Hj)
    as (it3 & s3 & sig3 & Hsel3 & Hs3 & _).
  eauto.
Qed.

End ComboBoxSpec.

(** ** The properties at concrete inputs *)

Lemma binder_selects_control_by_class_witness :
  exists lay,
    AutoSettingsLayout demo_split demo_Settings_fields "General" "Display"
      demo_settings = Ok lay
    /\ length lay = 6%nat.
Proof.
  destruct (binder_selects_control_by_class demo_split demo_Settings_fields
              "General" "Display" demo_settings demo_fields)
    as [Hbuilt Hshape].
  - reflexivity.
  - destruct Hbuilt as [lay Hlay].
    + repeat constructor; eexists; split; reflexivity.
    + exists lay. split; [exact Hlay|]. exact (proj1 (Hshape lay Hlay)).
Defined.

Lemma checkbox_inversion_round_trip_witness :
  exists w,
    add_checkbox_for demo_settings 0 "hide_x" true []
    = Ok [mkCell 0 1 (CheckBox w "hide_x" true) (Some AlignRight)]
    /\ isChecked w = true.
Proof.
  destruct (checkbox_inversion_round_trip "KEY" demo_settings 0 "hide_x" true
              false [] "Show X" "General" "Display" None)
    as [(w & Hadd & Hchecked & _) _].
  - reflexivity.
  - exists w. split; [exact Hadd|exact Hchecked].
Defined.

Lemma combobox_choices_round_trip_witness :
  exists w,
    add_combobox_for demo_settings 1 "start_type"
      [("Cold", VStr "cold"); ("Warm", VStr "warm")] []
    = Ok [mkCell 1 1 (ComboBox w "start_type") (Some AlignRight)]
    /\ currentText w = "Warm".
Proof.
  destruct (combobox_choices_round_trip demo_settings 1 "start_type"
              [("Cold", VStr "cold"); ("Warm", VStr "warm")] []
              (VStr "warm"))
    as (w & t0 & Hadd & _ & _ & Ht0 & Hcur & _).
  - apply (bool_decide_unpack (NoDup _)). vm_compute. exact I.
  - reflexivity.
  - apply (bool_decide_unpack (_ ∈ _)). vm_compute. exact I.
  - exists w. split; [exact Hadd|].
    rewrite Hcur. injection Ht0 as <-. reflexivity.
Defined.

Lemma spinner_writes_stay_in_range_witness :
  exists w,
    add_spinner_for demo_settings 2 "pilot_limit" 12 72 []
    = Ok [mkCell 2 1 (SpinBox w "pilot_limit") (Some AlignRight)]
    /\ minimum w = 12 /\ maximum w = 72.
Proof.
  destruct (spinner_writes_stay_in_range demo_settings 2 "pilot_limit"
              12 72 30 [])
    as (w & Hadd & Hrange & _).
  - reflexivity.
  - reflexivity.
  - reflexivity.
  - reflexivity.
  - exists w. split; [exact Hadd|].
    destruct Hrange as (Hmin & Hmax & _); [lia|]. split; assumption.
Defined.

(** C5 as stated fails: a description of the closed set does not bind on an
    instance without its field; the lookup raises [KeyError]. *)
Lemma closed_set_binding_can_raise :
  let d := BooleanOption "General" "Display" "Show X" None false in
  let fields := fun _ _ : string => Ok [("hide_x", d)] in
  control_for_description d = Some checkbox
  /\ AutoSettingsLayout demo_split fields "General" "Display" ∅
     = Raise (KeyError (VStr "hide_x"))
  /\ ~ exists lay,
         AutoSettingsLayout demo_split fields "General" "Display" ∅ = Ok lay.
Proof.
  split; [reflexivity|]. split; [reflexivity|]. intros [lay H]. discriminate H.
Qed.

Lemma unhandled_class_is_fatal_witness :
  let fields :=
    demo_fields ++ [("other", PlainOption "General" "Display" "Other" None)] in
  AutoSettingsLayout demo_split (fun _ _ => Ok fields) "General" "Display"
    demo_settings
  = Raise (TypeError "Unhandled option type").
Proof.
  intros fields.
  destruct (unhandled_class_is_fatal demo_split (fun _ _ => Ok fields)
              "General" "Display" demo_settings fields) as [Hbad _].
  - reflexivity.
  - destruct (Hbad demo_fields "other"
                (PlainOption "General" "Display" "Other" None) [])
      as [_ Hraise].
    + reflexivity.
    + reflexivity.
    + apply Hraise. repeat constructor; eexists; split; reflexivity.
Defined.

(** A description of a class derived from [BooleanOption] is of none of the
    four classes itself, and is bound with a check box all the same. *)
Example subclass_is_bound_like_its_class :
  let d :=
    Subclass "DebugOption"
      (BooleanOption "General" "Display" "Show X" None false) in
  of_the_closed_set d = false
  /\ AutoSettingsLayout demo_split (fun _ _ => Ok [("hide_x", d)]) "General"
       "Display" demo_settings
     = Ok [ mkCell 0 0 (Label "Show X") None;
            mkCell 0 1 (CheckBox (mkQCheckBox false) "hide_x" false)
              (Some AlignRight) ].
Proof. split; reflexivity. Qed.

Lemma write_back_touches_only_its_field_witness :
  exists txt it,
    add_row demo_split demo_settings 2 "pilot_limit"
      (BoundedIntOption "General" "Display" "Pilots" None 12 72) []
    = Ok [mkCell 2 0 (Label txt) None; mkCell 2 1 it (Some AlignRight)]
    /\ field_of_item it = Some "pilot_limit".
Proof.
  destruct (write_back_touches_only_its_field demo_split demo_settings 2
              "pilot_limit"
              (BoundedIntOption "General" "Display" "Pilots" None 12 72) []
              [mkCell 2 0 (Label "Pilots") None;
               mkCell 2 1 (SpinBox (mkQSpinBox 12 72 30) "pilot_limit")
                 (Some AlignRight)])
    as (txt & it & Hl & Hf & _).
  - reflexivity.
  - injection Hl as <- <-. eexists _, _. split; reflexivity.
Defined.


(** The wrapping loop on chunks as the splitter of [textwrap] cuts them. *)
Example wrap_words :
  Textwrap._wrap_chunks 10
    (Textwrap.chars <$> ["The"; " "; "quick"; " "; "brown"; " "; "fox"])
  = Ok (Textwrap.chars <$> ["The quick"; "brown fox"]).
Proof. reflexivity. Qed.

Example wrap_long_words :
  Textwrap._wrap_chunks 6
    (Textwrap.chars <$> ["ab-cdefghijk"; " "; "--x-yzabcdefg"])
  = Ok (Textwrap.chars <$> ["ab-"; "cdefgh"; "ijk --"; "x-"; "yzabcd"; "efg"]).
Proof. reflexivity. Qed.

(** Characters outside ASCII count as one each, whatever the number of
    their bytes. *)
Example wrap_counts_characters :
  String.length "Flugplätze" = 11%nat
  /\ length (Textwrap.chars "Flugplätze") = 10%nat
  /\ Textwrap.wrap split_words "Flugplätze über Köln" 10
     = Ok ["Flugplätze"; "über Köln"].
Proof. repeat split; reflexivity. Qed.

(** A label with a detail that takes four lines. *)
Example label_with_detail :
  label_text split_words
    (BooleanOption "Campaign management" "Pilots and Squadrons"
       "Allow AI pilot levelling"
       (Some ("Set whether or not AI pilots will level up after completing "
              +:+ "a number of sorties. Since pilot level affects the AI "
              +:+ "skill, you may wish to disable this, lest you face an "
              +:+ "Ace!"))
       false)
  = Ok ("Allow AI pilot levelling<br /><strong>"
        +:+ "Set whether or not AI pilots will level up after<br />"
        +:+ "completing a number of sorties. Since pilot level<br />"
        +:+ "affects the AI skill, you may wish to disable this,<br />"
        +:+ "lest you face an Ace!</strong>").
Proof. reflexivity. Qed.

(** The layout of the page. *)
Example demo_layout :
  AutoSettingsLayout demo_split demo_Settings_fields "General" "Display"
    demo_settings
  = Ok [ mkCell 0 0 (Label "Show X") None;
         mkCell 0 1 (CheckBox (mkQCheckBox true) "hide_x" true)
           (Some AlignRight);
         mkCell 1 0
           (Label "Start type<br /><strong>Start of AI flights</strong>") None;
         mkCell 1 1
           (ComboBox
              (mkQComboBox [("Cold", VStr "cold"); ("Warm", VStr "warm")] 1)
              "start_type")
           (Some AlignRight);
         mkCell 2 0 (Label "Pilots") None;
         mkCell 2 1 (SpinBox (mkQSpinBox 12 72 30) "pilot_limit")
           (Some AlignRight) ].
Proof. reflexivity. Qed.

(** Unchecking the box of the inverted option stores [True]; typing 100 into
    the spinner stores 72; picking "Cold" stores its value. *)
Example demo_interactions :
  (interact_all (CheckBox (mkQCheckBox true) "hide_x" true) [Click]
     demo_settings).2 !! "hide_x" = Some (VBool true)
  /\ (interact_all (SpinBox (mkQSpinBox 12 72 30) "pilot_limit") [SpinTo 100]
        demo_settings).2 !! "pilot_limit" = Some (VInt 72)
  /\ (interact_all
        (ComboBox
           (mkQComboBox [("Cold", VStr "cold"); ("Warm", VStr "warm")] 1)
           "start_type")
        [Select 0] demo_settings).2 !! "start_type" = Some (VStr "cold").
Proof. repeat split; reflexivity. Qed.

(** An old save lacks [new_feature_flag] and still has a field that was
    removed since. *)
Example load_old_save :
  let flag (d : bool) :=
    Dataclasses.mkField (M := OptionDescription) (VBool d) None (VBool true)
      (VBool true) VNone (VBool true) ∅ None in
  SettingsLoad.load
    [("hide_x", flag false); ("new_feature_flag", flag true)]
    {[ "hide_x" := VBool true; "removed" := VInt 3 ]}
  = {[ "hide_x" := VBool true; "new_feature_flag" := VBool true ]}.
Proof. reflexivity. Qed.

(** * Further properties of the ground unit catalog *)

Section CatalogSpec.

Import GroundUnitType Catalog Skynet Builtins.

Variable _load_all : class_state -> class_state * result unit.

Lemma register_ok cls unit_type variant_id dcs_unit_type :
  unit_type !! "variant_id" = Some (VStr variant_id) ->
  unit_type !! "dcs_unit_type" = Some dcs_unit_type ->
  register cls unit_type
  = (mkClass (_loaded cls) (<[variant_id := unit_type]> (_by_name cls))
       (defaultdict_append dcs_unit_type unit_type (_by_unit_type cls)),
     Ok tt).
Proof. intros Hv Hd. unfold register, getattr. by rewrite Hv, Hd. Qed.

(** X1: on loaded unit types, a unit type that has just been registered is
    what [named] returns for its [variant_id], replacing an earlier one of
    that name; [named] leaves the class variables as they are, and what it
    gives for every other name is the same as before the registration. *)
Theorem register_then_named
    (cls : class_state) (unit_type : instance) (variant_id : string)
    (dcs_unit_type : value) :
  _loaded cls = true ->
  unit_type !! "variant_id" = Some (VStr variant_id) ->
  unit_type !! "dcs_unit_type" = Some dcs_unit_type ->
  exists cls',
    register cls unit_type = (cls', Ok tt)
    /\ named _load_all cls' (VStr variant_id) = (cls', Ok unit_type)
    /\ forall other : string,
         other <> variant_id ->
         (named _load_all cls' (VStr other)).2
         = (named _load_all cls (VStr other)).2.
Proof.
  intros Hl Hv Hd.
  exists (mkClass (_loaded cls) (<[variant_id := unit_type]> (_by_name cls))
            (defaultdict_append dcs_unit_type unit_type (_by_unit_type cls))).
  split; [by apply register_ok|]. unfold named. cbn [_loaded _by_name].
  rewrite Hl. cbn [_by_name]. split.
  - by rewrite lookup_insert_eq.
  - intros other Hne. rewrite lookup_insert_ne by done.
    by destruct (_by_name cls !! other).
Qed.

Lemma register_consistent cls unit_type cls' :
  by_name_consistent cls ->
  (register cls unit_type).1 = cls' ->
  by_name_consistent cls'.
Proof.
  intros Hc <-. unfold register, getattr.
  destruct (unit_type !! "variant_id") as [[| | | |id|]|] eqn:Hv; try done.
  assert (Hins : by_name_consistent
            (mkClass (_loaded cls) (<[id := unit_type]> (_by_name cls))
               (_by_unit_type cls))).
  { intros name u. cbn [_by_name]. rewrite lookup_insert.
    case_decide as Heq; [intros [= <-]; by subst|apply Hc]. }
  destruct (unit_type !! "dcs_unit_type"); exact Hins.
Qed.

(** X2: [register] keeps the registry in order: when every unit type stands
    in [_by_name] under its own [variant_id], it still does after any run of
    [register] calls, whether or not one of them raises. *)
Theorem register_all_keeps_names_consistent
    (cls cls' : class_state) (unit_types : list instance) (r : result unit) :
  by_name_consistent cls ->
  register_all cls unit_types = (cls', r) ->
  by_name_consistent cls'.
Proof.
  revert cls. induction unit_types as [|u rest IH]; intros cls Hc; simpl.
  - by intros [= <- _].
  - destruct (register cls u) as [cls1 [[]|e]] eqn:E.
    + apply IH. by apply (register_consistent cls u); [|rewrite E].
    + intros [= <- _]. by apply (register_consistent cls u); [|rewrite E].
Qed.

Lemma defaultdict_getitem_cons key k l rest :
  (defaultdict_getitem key ((k, l) :: rest)).1
  = if decide (k = key) then l else (defaultdict_getitem key rest).1.
Proof.
  simpl. destruct (decide (k = key)); [done|].
  by destruct (defaultdict_getitem key rest).
Qed.

Lemma defaultdict_getitem_append key key' x d :
  (defaultdict_getitem key' (defaultdict_append key x d)).1
  = (defaultdict_getitem key' d).1 ++ (if decide (key = key') then [x] else []).
Proof.
  induction d as [|[k l] rest IH].
  - cbn [defaultdict_append]. rewrite defaultdict_getitem_cons.
    destruct (decide (key = key')); done.
  - cbn [defaultdict_append].
    destruct (decide (k = key)) as [->|Hk];
      rewrite !defaultdict_getitem_cons.
    + destruct (decide (key = key')); [done|by rewrite app_nil_r].
    + destruct (decide (k = key')) as [->|Hk']; [|exact IH].
      rewrite decide_False by done. by rewrite app_nil_r.
Qed.

Lemma register_all_by_unit_type cls cls' unit_types dcs_unit_type :
  register_all cls unit_types = (cls', Ok tt) ->
  (defaultdict_getitem dcs_unit_type (_by_unit_type cls')).1
  = (defaultdict_getitem dcs_unit_type (_by_unit_type cls)).1
    ++ of_type dcs_unit_type unit_types
  /\ _loaded cls' = _loaded cls.
Proof.
  revert cls. induction unit_types as [|u rest IH]; intros cls;
    cbn [register_all].
  - intros [= <-]. by rewrite app_nil_r.
  - unfold register at 1, getattr.
    destruct (u !! "variant_id") as [[| | | |id|]|] eqn:Hv; try done.
    destruct (u !! "dcs_unit_type") as [t|] eqn:Ht; [|done].
    intros H. apply IH in H as [H Hl]. cbn [_by_unit_type _loaded] in H, Hl.
    split; [|done].
    rewrite H, defaultdict_getitem_append, <- app_assoc. f_equal.
    unfold of_type. rewrite filter_cons.
    destruct (decide (t = dcs_unit_type)) as [->|Hne].
    + by rewrite decide_True.
    + rewrite decide_False; [done|]. rewrite Ht. by intros [= ?].
Qed.

(** X3: after a run of [register] calls, [for_dcs_type] yields for a
    simulator type what it yielded before, followed by the newly registered
    unit types of that type in the order of their registration; the others
    are left out, and a unit type registered twice is yielded twice. *)
Theorem for_dcs_type_after_registering
    (cls cls' : class_state) (unit_types : list instance)
    (dcs_unit_type : value) :
  _loaded cls = true ->
  register_all cls unit_types = (cls', Ok tt) ->
  exists before,
    (for_dcs_type _load_all cls dcs_unit_type).2 = Ok before
    /\ (for_dcs_type _load_all cls' dcs_unit_type).2
       = Ok (before ++ of_type dcs_unit_type unit_types).
Proof.
  intros Hl Hreg.
  apply (register_all_by_unit_type _ _ _ dcs_unit_type) in Hreg as [Hreg Hl'].
  unfold for_dcs_type. rewrite Hl', Hl.
  destruct (defaultdict_getitem dcs_unit_type (_by_unit_type cls))
    as [before d] eqn:E.
  destruct (defaultdict_getitem dcs_unit_type (_by_unit_type cls'))
    as [after d'] eqn:E'.
  exists before. split; [done|]. simpl in *. by rewrite Hreg.
Qed.

(** X4: saving and loading again changes nothing.  On loaded unit types whose
    registry is in order, the instance that [__setstate__] builds from a saved
    state is, taken as a saved state itself, loaded as the same instance. *)
Theorem setstate_is_stable
    (cls cls' : class_state) (state self' state' : gmap string value) :
  _loaded cls = true ->
  by_name_consistent cls ->
  __setstate__ _load_all cls ∅ state = (cls', Ok (self', state')) ->
  cls' = cls
  /\ self' = state'
  /\ __setstate__ _load_all cls ∅ self' = (cls, Ok (self', self')).
Proof.
  intros Hl Hc. unfold __setstate__, Py.getitem, named. rewrite Hl.
  destruct (state !! "variant_id") as [[| | | |name|]|] eqn:Hs; try done.
  destruct (_by_name cls !! name) as [updated|] eqn:Hn; [|done].
  intros [= <- <- <-]. split; [done|].
  unfold Py.update. rewrite (right_id_L ∅ (∪)). split; [done|].
  rewrite (lookup_union_Some_l _ _ _ (VStr name)) by by apply Hc.
  rewrite Hn. do 3 f_equal; apply map_eq; intros k;
    rewrite ?lookup_union, ?lookup_empty;
    by destruct (_ !! k), (_ !! k).
Qed.

End CatalogSpec.

(** ** [SkynetProperties] *)

Section SkynetSpec.

Import Skynet Builtins.

Variable float_repr : Py.float -> string.
Variable object_str : N -> string.

Local Abbreviation str := (Builtins.str float_repr object_str).

Lemma lookup_insert_option_ne (m : gmap string string) key o k :
  k <> key ->
  match o with Some v => <[key := v]> m | None => m end !! k = m !! k.
Proof. intros H. destruct o; [by rewrite lookup_insert_ne|done]. Qed.

Lemma lookup_insert_option_eq (m : gmap string string) key o :
  match o with Some v => <[key := v]> m | None => m end !! key
  = match o with Some v => Some v | None => m !! key end.
Proof. destruct o; [by rewrite lookup_insert_eq|done]. Qed.

Lemma to_dict_lookup (p : SkynetProperties) (k : string) :
  to_dict p !! k
  = if decide (k = "can_engage_harm") then can_engage_harm p
    else if decide (k = "can_engage_air_weapon") then can_engage_air_weapon p
    else if decide (k = "go_live_range_in_percent")
         then go_live_range_in_percent p
    else if decide (k = "engagement_zone") then engagement_zone p
    else if decide (k = "autonomous_behaviour") then autonomous_behaviour p
    else if decide (k = "harm_detection_chance") then harm_detection_chance p
    else None.
Proof.
  destruct p as [a b c d e f]. unfold to_dict, items.
  cbn [foldl can_engage_harm can_engage_air_weapon go_live_range_in_percent
       engagement_zone autonomous_behaviour harm_detection_chance].
  repeat case_decide; subst;
    repeat first [ rewrite lookup_insert_option_ne by done
                 | rewrite lookup_insert_option_eq ];
    rewrite ?lookup_empty;
    repeat match goal with |- context [match ?o with _ => _ end] =>
             destruct o end; done.
Qed.

Lemma from_data_fields (data : gmap string value) :
  from_data float_repr object_str data
  = mkSkynetProperties
      (lower ∘ str <$> data !! "can_engage_harm")
      (lower ∘ str <$> data !! "can_engage_air_weapon")
      (str <$> data !! "go_live_range_in_percent")
      (str <$> data !! "engagement_zone")
      (str <$> data !! "autonomous_behaviour")
      (str <$> data !! "harm_detection_chance").
Proof.
  unfold from_data.
  generalize (data !! "can_engage_harm"), (data !! "can_engage_air_weapon"),
    (data !! "go_live_range_in_percent"), (data !! "engagement_zone"),
    (data !! "autonomous_behaviour"), (data !! "harm_detection_chance").
  by intros [] [] [] [] [] [].
Qed.

(** X5: the dictionary that [to_dict] makes of the properties read by
    [from_data] has an entry for exactly those of the six property names that
    the data has: the printed value of the data, in lower case for
    [can_engage_harm] and [can_engage_air_weapon].  Other keys of the data are
    ignored, and no entry is [None]. *)
Theorem to_dict_from_data (data : gmap string value) (k : string) :
  to_dict (from_data float_repr object_str data) !! k
  = if decide (k ∈ ["can_engage_harm"; "can_engage_air_weapon"])
    then lower ∘ str <$> data !! k
    else if decide (k ∈ ["go_live_range_in_percent"; "engagement_zone";
                         "autonomous_behaviour"; "harm_detection_chance"])
         then str <$> data !! k
         else None.
Proof.
  rewrite to_dict_lookup, from_data_fields.
  cbn [can_engage_harm can_engage_air_weapon go_live_range_in_percent
       engagement_zone autonomous_behaviour harm_detection_chance].
  repeat (case_decide; [by subst|]).
  rewrite !decide_False; [done| |];
    rewrite ?elem_of_cons, elem_of_nil; tauto.
Qed.

End SkynetSpec.

(** ** Unit types from the data files *)

Section VariantFromDictSpec.

Import GroundUnitType Catalog Skynet Builtins.

Variable float_repr : Py.float -> string.
Variable object_str : N -> string.
Variable object_from_data : N -> result SkynetProperties.
Variable UnitClass : value -> result value.
Variable UnitClass_UNKNOWN : value.
Variable _load_all : class_state -> class_state * result unit.

Local Abbreviation variant_from_dict :=
  (_variant_from_dict float_repr object_str object_from_data UnitClass
     UnitClass_UNKNOWN).

Local Ltac lookup_field :=
  unfold instance;
  repeat (rewrite lookup_insert_ne by done);
  first [apply lookup_insert_eq | apply lookup_singleton_eq].

Lemma variant_from_dict_spec vehicle vehicle_id variant_id data skynet_data
    skynet_ref :
  variant_from_dict vehicle vehicle_id variant_id data skynet_data skynet_ref
  = (match class_of data with
     | None => [vehicle_id +:+ " has no class"]
     | Some _ => []
     end,
     let* unit_class :=
       match class_of data with
       | None => Ok UnitClass_UNKNOWN
       | Some c => UnitClass c
       end in
     let* description_default :=
       default_description (get data "display_name" (VStr variant_id)) in
     let* skynet_properties :=
       match data !! "skynet_properties" with
       | Some x => from_data_other object_from_data x
       | None => Ok (from_data float_repr object_str (default ∅ skynet_data))
       end in
     Ok ({[ "dcs_unit_type" := vehicle;
            "unit_class" := unit_class;
            "spawn_weight" := get data "spawn_weight" (VInt 0);
            "variant_id" := VStr variant_id;
            "display_name" := get data "display_name" (VStr variant_id);
            "description" := get data "description" description_default;
            "year_introduced" :=
              match data !! "introduced" with
              | Some VNone => VStr "N/A"
              | Some v => v
              | None => VStr "No data."
              end;
            "country_of_origin" := get data "origin" (VStr "No data.");
            "manufacturer" := get data "manufacturer" (VStr "No data.");
            "role" := get data "role" (VStr "No data.");
            "price" := get data "price" (VInt 1);
            "skynet_properties" := VObj skynet_ref;
            "reversed_heading" := get data "reversed_heading" (VBool false) ]},
         skynet_properties)).
Proof.
  unfold _variant_from_dict, class_of, get.
  destruct (data !! "class") as [[]|]; reflexivity.
Qed.

(** X6: [_variant_from_dict] raises in three cases only, which it meets in
    this order.  When the data names a class that [UnitClass] refuses, it
    raises what [UnitClass] raises.  Otherwise, when the data gives a display
    name that is not a string, it raises [AttributeError], also when the data
    has a description of its own, since the default description is built in
    any case.  Otherwise, when the entry for the Skynet properties is there
    and is no dictionary, [from_data] decides: it raises [TypeError] on
    [None], on a number and on a text in which one of the six property names
    occurs, and returns on any other text.  In every other case
    [_variant_from_dict] returns a unit type.  The warning is logged exactly
    when the data names no class. *)
Theorem variant_from_dict_errors
    (vehicle : value) (vehicle_id variant_id : string)
    (data : gmap string value) (skynet_data : option (gmap string value))
    (skynet_ref : N) :
  let '(log, r) :=
    variant_from_dict vehicle vehicle_id variant_id data skynet_data
      skynet_ref in
  (log = match class_of data with
         | None => [vehicle_id +:+ " has no class"]
         | Some _ => []
         end)
  /\ match match class_of data with
           | Some c => UnitClass c
           | None => Ok UnitClass_UNKNOWN
           end with
     | Raise e => r = Raise e
     | Ok _ =>
       match data !! "display_name" with
       | Some (VStr _) | None =>
         match data !! "skynet_properties" with
         | None => exists u, r = Ok u
         | Some (VStr s) =>
           if existsb (contains s)
                [ "can_engage_harm"; "can_engage_air_weapon";
                  "go_live_range_in_percent"; "engagement_zone";
                  "autonomous_behaviour"; "harm_detection_chance" ]
           then exists msg, r = Raise (TypeError msg)
           else exists u, r = Ok u
         | Some (VObj id) =>
           match object_from_data id with
           | Raise e => r = Raise e
           | Ok _ => exists u, r = Ok u
           end
         | Some _ => exists msg, r = Raise (TypeError msg)
         end
       | Some _ => r = Raise (AttributeError "replace")
       end
     end.
Proof.
  rewrite variant_from_dict_spec. split; [done|].
  unfold get.
  destruct (class_of data) as [c|]; [destruct (UnitClass c); [|done]|];
    cbn [Py.bind];
    (destruct (data !! "display_name") as [[| | | |dn|]|];
     cbn [default_description Py.bind]; try done;
     (destruct (data !! "skynet_properties") as [[| | | |txt|id]|];
      cbn [from_data_other Py.bind]; eauto;
      [destruct (existsb _ _); cbn [Py.bind]; eauto
      |destruct (object_from_data id); cbn [Py.bind]; eauto])).
Qed.

(** X7: a unit type built from a data file can be registered: on loaded unit
    types [register] does not raise for it, afterwards [named] returns it for
    the variant id it was built with, and [for_dcs_type] yields it last for
    its vehicle. *)
Theorem variant_from_dict_registers
    (cls : class_state) (vehicle : value) (vehicle_id variant_id : string)
    (data : gmap string value) (skynet_data : option (gmap string value))
    (skynet_ref : N) (log : list string) (unit_type : instance)
    (skynet_properties : SkynetProperties) :
  _loaded cls = true ->
  variant_from_dict vehicle vehicle_id variant_id data skynet_data skynet_ref
  = (log, Ok (unit_type, skynet_properties)) ->
  exists cls' before,
    register cls unit_type = (cls', Ok tt)
    /\ named _load_all cls' (VStr variant_id) = (cls', Ok unit_type)
    /\ (for_dcs_type _load_all cls vehicle).2 = Ok before
    /\ (for_dcs_type _load_all cls' vehicle).2 = Ok (before ++ [unit_type]).
Proof.
  intros Hl. rewrite variant_from_dict_spec. intros [= _ H].
  destruct (match class_of data with None => _ | Some c => _ end)
    as [unit_class|]; [|done].
  cbn [Py.bind] in H.
  destruct (default_description _) as [dflt|]; [|done].
  cbn [Py.bind] in H.
  destruct (match data !! "skynet_properties" with
            | Some x => _
            | None => _
            end) as [props|]; [|done].
  cbn [Py.bind] in H. injection H as Hu _. subst unit_type.
  set (u := <["dcs_unit_type" := vehicle]> _).
  assert (Hv : u !! "variant_id" = Some (VStr variant_id))
    by (subst u; lookup_field).
  assert (Hd : u !! "dcs_unit_type" = Some vehicle)
    by (subst u; lookup_field).
  rewrite (register_ok cls u variant_id vehicle Hv Hd).
  eexists _, (defaultdict_getitem vehicle (_by_unit_type cls)).1.
  split_and!; [reflexivity| | |].
  - unfold named. cbn [_loaded _by_name]. rewrite Hl. cbn [_by_name].
    by rewrite lookup_insert_eq.
  - unfold for_dcs_type. rewrite Hl.
    by destruct (defaultdict_getitem vehicle (_by_unit_type cls)).
  - unfold for_dcs_type. cbn [_loaded _by_unit_type]. rewrite Hl.
    cbn [_loaded _by_unit_type].
    pose proof (defaultdict_getitem_append vehicle vehicle u
                  (_by_unit_type cls)) as Happ.
    rewrite decide_True in Happ by done.
    destruct (defaultdict_getitem vehicle (defaultdict_append _ _ _)).
    cbn [snd]. by rewrite <- Happ.
Qed.

End VariantFromDictSpec.

(** ** The catalog at work *)

(** A unit type registered beside another one is found under its name, and
    the other one still is. *)
Lemma register_then_named_witness :
  let load_all := fun cls => (cls, Ok tt) in
  let other : gmap string value := {[ "variant_id" := VStr "T-90" ]} in
  let unit_type : gmap string value :=
    {[ "variant_id" := VStr "M1A2"; "dcs_unit_type" := VObj 7 ]} in
  let cls := GroundUnitType.mkClass true {[ "T-90" := other ]} [] in
  exists cls',
    GroundUnitType.register cls unit_type = (cls', Ok tt)
    /\ GroundUnitType.named load_all cls' (VStr "M1A2") = (cls', Ok unit_type)
    /\ (GroundUnitType.named load_all cls' (VStr "T-90")).2 = Ok other.
Proof.
  intros load_all other unit_type cls.
  destruct (register_then_named load_all cls unit_type "M1A2" (VObj 7))
    as (cls' & Hreg & Hnamed & Hother).
  - reflexivity.
  - reflexivity.
  - reflexivity.
  - exists cls'. split; [exact Hreg|]. split; [exact Hnamed|].
    rewrite (Hother "T-90"); [reflexivity|discriminate].
Defined.

(** The registry stays in order over a run of registrations of which the
    second raises, its instance having no [dcs_unit_type]. *)
Lemma register_all_keeps_names_consistent_witness :
  let cls := GroundUnitType.mkClass true ∅ [] in
  let unit_types : list (gmap string value) :=
    [ {[ "variant_id" := VStr "M1A2"; "dcs_unit_type" := VObj 7 ]};
      {[ "variant_id" := VStr "T-90" ]} ] in
  (Catalog.register_all cls unit_types).2 = Raise (AttributeError "dcs_unit_type")
  /\ Catalog.by_name_consistent (Catalog.register_all cls unit_types).1.
Proof.
  intros cls unit_types. split; [reflexivity|].
  apply (register_all_keeps_names_consistent cls _ unit_types
           (Catalog.register_all cls unit_types).2).
  - intros name u H. cbn in H. rewrite lookup_empty in H. discriminate H.
  - reflexivity.
Defined.

(** Three registrations, two of them of the simulator type 7. *)
Lemma for_dcs_type_after_registering_witness :
  let load_all := fun cls => (cls, Ok tt) in
  let a : gmap string value :=
    {[ "variant_id" := VStr "M1A2"; "dcs_unit_type" := VObj 7 ]} in
  let b : gmap string value :=
    {[ "variant_id" := VStr "T-90"; "dcs_unit_type" := VObj 8 ]} in
  let c : gmap string value :=
    {[ "variant_id" := VStr "M1A2 SEP"; "dcs_unit_type" := VObj 7 ]} in
  let cls := GroundUnitType.mkClass true ∅ [] in
  let cls' := (Catalog.register_all cls [a; b; c]).1 in
  (Catalog.for_dcs_type load_all cls' (VObj 7)).2 = Ok [a; c].
Proof.
  intros load_all a b c cls cls'.
  destruct (for_dcs_type_after_registering load_all cls cls' [a; b; c]
              (VObj 7)) as (before & Hbefore & Hafter).
  - reflexivity.
  - reflexivity.
  - rewrite Hafter. vm_compute in Hbefore. injection Hbefore as <-.
    reflexivity.
Defined.

(** A unit type saved with price 10, loaded over the registered price 12,
    and loaded again. *)
Lemma setstate_is_stable_witness :
  let load_all := fun cls => (cls, Ok tt) in
  let unit_type : gmap string value :=
    {[ "variant_id" := VStr "M1A2"; "dcs_unit_type" := VObj 7;
       "price" := VInt 12 ]} in
  let cls := (GroundUnitType.register
                (GroundUnitType.mkClass true ∅ []) unit_type).1 in
  let state : gmap string value :=
    {[ "variant_id" := VStr "M1A2"; "price" := VInt 10;
       "legacy" := VBool true ]} in
  let self' : gmap string value :=
    {[ "variant_id" := VStr "M1A2"; "dcs_unit_type" := VObj 7;
       "price" := VInt 12; "legacy" := VBool true ]} in
  GroundUnitType.__setstate__ load_all cls ∅ state = (cls, Ok (self', self'))
  /\ GroundUnitType.__setstate__ load_all cls ∅ self'
     = (cls, Ok (self', self')).
Proof.
  intros load_all unit_type cls state self'.
  destruct (setstate_is_stable load_all cls cls state self' self')
    as (_ & _ & Hagain).
  - reflexivity.
  - apply (register_consistent (GroundUnitType.mkClass true ∅ []) unit_type);
      [|reflexivity].
    intros name u H. cbn in H. rewrite lookup_empty in H. discriminate H.
  - reflexivity.
  - split; [reflexivity|exact Hagain].
Defined.

(** A data file that gives a display name only: the unit type gets the
    default price and is the only one of its vehicle. *)
Lemma variant_from_dict_registers_witness :
  let load_all := fun cls => (cls, Ok tt) in
  let variant_from_dict :=
    Catalog._variant_from_dict (fun _ => "0.0") (fun _ => "object")
      (fun _ => Raise (TypeError "not iterable")) (fun v => Ok v) (VObj 0) in
  let cls := GroundUnitType.mkClass true ∅ [] in
  let r := variant_from_dict (VObj 7) "M-1 Abrams" "M1A2"
             {[ "display_name" := VStr "M1A2 Abrams" ]} None 1%N in
  exists unit_type skynet_properties cls',
    r = (["M-1 Abrams has no class"], Ok (unit_type, skynet_properties))
    /\ unit_type !! "price" = Some (VInt 1)
    /\ GroundUnitType.register cls unit_type = (cls', Ok tt)
    /\ GroundUnitType.named load_all cls' (VStr "M1A2") = (cls', Ok unit_type)
    /\ (Catalog.for_dcs_type load_all cls' (VObj 7)).2 = Ok [unit_type].
Proof.
  intros load_all variant_from_dict cls r.
  edestruct (variant_from_dict_registers (fun _ => "0.0") (fun _ => "object")
               (fun _ => Raise (TypeError "not iterable"))
               (fun v => Ok v) (VObj 0) load_all cls (VObj 7) "M-1 Abrams"
               "M1A2" {[ "display_name" := VStr "M1A2 Abrams" ]} None 1%N)
    as (cls' & before & Hreg & Hnamed & Hbefore & Hafter).
  - reflexivity.
  - reflexivity.
  - eexists _, _, cls'. split; [reflexivity|]. split; [reflexivity|].
    split; [exact Hreg|]. split; [exact Hnamed|].
    rewrite Hafter. vm_compute in Hbefore. injection Hbefore as <-.
    reflexivity.
Defined.

(** A data file that leaves the entry for the Skynet properties empty: the
    entry is [None], the default dictionary is not used, and [from_data]
    raises. *)
Example skynet_entry_left_empty :
  Catalog._variant_from_dict (fun _ => "0.0") (fun _ => "object")
    (fun _ => Raise (TypeError "not iterable")) (fun v => Ok v) (VObj 0)
    (VObj 7) "M-1 Abrams" "M1A2"
    {[ "class" := VStr "Tank"; "skynet_properties" := VNone ]} None 1%N
  = ([], Raise (TypeError "argument of this type is not iterable")).
Proof. reflexivity. Qed.

(** ** What [boolean_option] does with further keyword arguments *)

Section BooleanOptionKwargs.

Import Settings.

Variable SETTING_DESCRIPTION_KEY : string.

(** The parameters of [dataclasses.field] that [boolean_option] leaves to
    its caller. *)
Local Abbreviation field_parameters :=
  ["default_factory"; "init"; "repr"; "hash"; "compare"; "kw_only"].

(** What a [default_factory] argument leaves in the field. *)
Local Abbreviation factory_of v :=
  (if decide (v = Dataclasses.MISSING) then None else Some v).

Lemma apply_kwargs_cases {M} (kwargs : list (string * value))
    (f : Dataclasses.Field M) :
  NoDup kwargs.*1 ->
  match Dataclasses.apply_kwargs kwargs f with
  | Ok f' =>
    Forall (fun kv => kv.1 ∈ field_parameters) kwargs
    /\ (forall v,
          ("default_factory", v) ∈ kwargs ->
          Dataclasses.default_factory f' = factory_of v)
    /\ ("default_factory" ∉ kwargs.*1 ->
        Dataclasses.default_factory f' = Dataclasses.default_factory f)
  | Raise e =>
    (exists msg, e = TypeError msg)
    /\ Exists (fun kv => kv.1 ∉ field_parameters) kwargs
  end.
Proof.
  revert f. induction kwargs as [|[k v] rest IH]; intros f Hnd;
    cbn [Dataclasses.apply_kwargs].
  - split_and!; [constructor| |done]. intros v Hv. by apply elem_of_nil in Hv.
  - cbn [fmap list_fmap fst] in Hnd. apply NoDup_cons in Hnd as [Hk Hnd].
    assert (Hother : forall g : Dataclasses.Field M,
              k ∈ field_parameters ->
              k <> "default_factory" ->
              Dataclasses.default_factory g = Dataclasses.default_factory f ->
              match Dataclasses.apply_kwargs rest g with
              | Ok f' =>
                Forall (fun kv => kv.1 ∈ field_parameters) ((k, v) :: rest)
                /\ (forall v0,
                      ("default_factory", v0) ∈ (k, v) :: rest ->
                      Dataclasses.default_factory f' = factory_of v0)
                /\ ("default_factory" ∉ ((k, v) :: rest).*1 ->
                    Dataclasses.default_factory f'
                    = Dataclasses.default_factory f)
              | Raise e =>
                (exists msg, e = TypeError msg)
                /\ Exists (fun kv => kv.1 ∉ field_parameters)
                     ((k, v) :: rest)
              end).
    { intros g Hin Hne Hg. specialize (IH g Hnd).
      destruct (Dataclasses.apply_kwargs rest g) as [f'|e].
      - destruct IH as (Hall & Hgiven & Hnot). split_and!.
        + by constructor.
        + intros v0 Hv0. apply elem_of_cons in Hv0 as [[= ? ?]|Hv0];
            [congruence|by apply Hgiven].
        + intros Hno. rewrite Hnot, Hg; [done|].
          intros Hrest. apply Hno. cbn [fmap list_fmap fst].
          apply elem_of_cons. by right.
      - destruct IH as [Hmsg Hex]. split; [done|by right]. }
    destruct (String.eqb_spec k "default_factory") as [->|H1].
    { specialize (IH (Dataclasses.mkField (Dataclasses.default f)
                        (factory_of v) (Dataclasses.init f)
                        (Dataclasses.repr f) (Dataclasses.hash f)
                        (Dataclasses.compare f) (Dataclasses.metadata f)
                        (Dataclasses.kw_only f)) Hnd).
      destruct (Dataclasses.apply_kwargs rest _) as [f'|e].
      - destruct IH as (Hall & _ & Hnot). split_and!.
        + constructor; [|done]. cbn [fst]. rewrite !elem_of_cons. auto 10.
        + intros v0 Hv0. rewrite (Hnot Hk).
          apply elem_of_cons in Hv0 as [[= ->]|Hv0]; [done|].
          exfalso. apply Hk. apply list_elem_of_fmap.
          by exists ("default_factory", v0).
        + intros Hno. exfalso. apply Hno. cbn [fmap list_fmap fst].
          apply elem_of_cons. by left.
      - destruct IH as [Hmsg Hex]. split; [done|by right]. }
    destruct (String.eqb_spec k "init") as [->|H2].
    { apply Hother; [rewrite !elem_of_cons; auto 10|done|done]. }
    destruct (String.eqb_spec k "repr") as [->|H3].
    { apply Hother; [rewrite !elem_of_cons; auto 10|done|done]. }
    destruct (String.eqb_spec k "hash") as [->|H4].
    { apply Hother; [rewrite !elem_of_cons; auto 10|done|done]. }
    destruct (String.eqb_spec k "compare") as [->|H5].
    { apply Hother; [rewrite !elem_of_cons; auto 10|done|done]. }
    destruct (String.eqb_spec k "kw_only") as [->|H6].
    { apply Hother; [rewrite !elem_of_cons; auto 10|done|done]. }
    assert (Hbad : k ∉ field_parameters).
    { rewrite !elem_of_cons, elem_of_nil. intros [?|[?|[?|[?|[?|[?|[]]]]]]];
        congruence. }
    destruct (_ || _); (split; [eauto|by left]).
Qed.

(** X8: the keyword arguments that [boolean_option] hands on to
    [dataclasses.field] decide whether it returns.  The keywords of a call
    are distinct.  It returns a field exactly when they are among
    [default_factory], [init], [repr], [hash], [compare] and [kw_only] and a
    [default_factory], if given, is the sentinel [MISSING]; with another
    [default_factory] among otherwise good keywords it raises [ValueError],
    as the default is given too; with any other keyword, [default] and
    [metadata] included, it raises [TypeError]; it raises nothing else. *)
Theorem boolean_option_kwargs_errors
    (text page section : string) (default invert : bool)
    (detail : option string) (kwargs : list (string * value)) :
  NoDup kwargs.*1 ->
  match boolean_option SETTING_DESCRIPTION_KEY text page section default
          invert detail kwargs with
  | Ok _ =>
    Forall (fun kv => kv.1 ∈ field_parameters) kwargs
    /\ forall v, ("default_factory", v) ∈ kwargs -> v = Dataclasses.MISSING
  | Raise (ValueError _) =>
    Forall (fun kv => kv.1 ∈ field_parameters) kwargs
    /\ exists v, ("default_factory", v) ∈ kwargs /\ v <> Dataclasses.MISSING
  | Raise (TypeError _) =>
    Exists (fun kv => kv.1 ∉ field_parameters) kwargs
  | Raise _ => False
  end.
Proof.
  intros Hnd. unfold boolean_option, Dataclasses.field.
  match goal with |- context [Dataclasses.apply_kwargs kwargs ?f] =>
    pose proof (apply_kwargs_cases kwargs f Hnd) as H;
    destruct (Dataclasses.apply_kwargs kwargs f) as [f'|e]
  end; cbn [Py.bind].
  - destruct H as (Hall & Hgiven & Hnot).
    cbn [Dataclasses.default_factory] in Hnot.
    destruct (Dataclasses.default_factory f') as [x|] eqn:Hf; cbn.
    + split; [done|].
      destruct (decide ("default_factory" ∈ kwargs.*1)) as [Hin|Hno];
        [|by specialize (Hnot Hno)].
      apply list_elem_of_fmap in Hin as ([k v] & Hk & Hin).
      cbn [fst] in Hk. subst k. exists v. split; [done|].
      specialize (Hgiven v Hin). by case_decide.
    + split; [done|]. intros v Hv. specialize (Hgiven v Hv).
      by case_decide.
  - by destruct H as [[msg ->] Hex].
Qed.

End BooleanOptionKwargs.

(** A call that spells out the default of [default_factory] returns a
    field. *)
Lemma boolean_option_kwargs_errors_witness :
  let kwargs :=
    [("default_factory", Dataclasses.MISSING); ("init", VBool false)] in
  (exists f,
     Settings.boolean_option "description" "Show X" "General" "Display" true
       false None kwargs = Ok f)
  /\ forall v, ("default_factory", v) ∈ kwargs -> v = Dataclasses.MISSING.
Proof.
  intros kwargs.
  pose proof (boolean_option_kwargs_errors "description" "Show X" "General"
                "Display" true false None kwargs) as H.
  split; [eexists; reflexivity|].
  apply H. apply (bool_decide_unpack _). vm_compute. exact I.
Defined.

(** ** A field that the instance lacks *)

Section MissingField.

Import Settings Qt QSettingsWindow.

Variable split_chunks : string -> list string.
Variable Settings_fields :
  string -> string -> result (list (string * OptionDescription)).

Lemma add_row_missing settings row name d l :
  settings !! name = None ->
  match as_instance d with
  | BoundedIntOption _ _ _ _ min max => fits_int min && fits_int max
  | PlainOption _ _ _ _ | Subclass _ _ => false
  | _ => true
  end = true ->
  add_row split_chunks settings row name d l = Raise (KeyError (VStr name)).
Proof.
  intros Hnone Hd. unfold add_row, add_label.
  destruct (label_text_ok split_chunks d) as [txt ->]. cbn [Py.bind].
  destruct (as_instance d) as [p sc t dt invert|p sc t dt choices
                              |p sc t dt mn mx dv|p sc t dt mn mx|p sc t dt
                              |cn base]; [| | | |done|done].
  - unfold add_checkbox_for, getitem. by rewrite Hnone.
  - unfold add_combobox_for, getitem. by rewrite Hnone.
  - unfold add_float_spin_slider_for, getitem. by rewrite Hnone.
  - apply andb_true_iff in Hd as [Hmn Hmx].
    unfold add_spinner_for, getitem.
    by rewrite (to_int_fits mn Hmn), (to_int_fits mx Hmx), Hnone.
Qed.

(** X9: a field that the instance dictionary lacks is fatal to the binder.
    When the rows before it can be bound, and the description is an instance
    of one of the four classes (for a bounded integer option: with bounds
    that fit a C [int], which are passed to the spinner first),
    [AutoSettingsLayout] raises [KeyError] with the name of the field,
    whatever rows follow. *)
Theorem missing_field_is_fatal
    (page section : string) (settings : gmap string value)
    (pre post : list (string * OptionDescription)) (name : string)
    (d : OptionDescription) :
  Settings_fields page section = Ok (pre ++ (name, d) :: post) ->
  Forall (bindable settings) pre ->
  settings !! name = None ->
  match as_instance d with
  | BoundedIntOption _ _ _ _ min max => fits_int min && fits_int max
  | PlainOption _ _ _ _ | Subclass _ _ => false
  | _ => true
  end = true ->
  AutoSettingsLayout split_chunks Settings_fields page section settings
  = Raise (KeyError (VStr name)).
Proof.
  intros Hfields Hpre Hnone Hd. unfold AutoSettingsLayout.
  rewrite Hfields. cbn [Py.bind]. clear Hfields.
  generalize (@nil cell) at 1. generalize 0%nat.
  induction pre as [|[n0 d0] pre IH]; intros row l; cbn [app add_rows].
  - by rewrite (add_row_missing settings row name d l Hnone Hd).
  - apply Forall_cons in Hpre as [Hb Hpre].
    destruct (add_row_ok split_chunks settings row n0 d0 l Hb) as [l1 ->].
    cbn [Py.bind]. by apply IH.
Qed.

End MissingField.

(** The demo page on an instance that lacks the field of its second row. *)
Lemma missing_field_is_fatal_witness :
  QSettingsWindow.AutoSettingsLayout demo_split demo_Settings_fields
    "General" "Display" (delete "start_type" demo_settings)
  = Raise (KeyError (VStr "start_type")).
Proof.
  apply (missing_field_is_fatal demo_split demo_Settings_fields "General"
           "Display" (delete "start_type" demo_settings)
           (take 1 demo_fields) (drop 2 demo_fields) "start_type"
           (Settings.ChoicesOption "General" "Display" "Start type"
              (Some "Start of AI flights")
              [("Cold", VStr "cold"); ("Warm", VStr "warm")])).
  - reflexivity.
  - repeat constructor. eexists. split; reflexivity.
  - reflexivity.
  - reflexivity.
Defined.

(** ** The start type box *)

Section StartTypeSpec.

Import Qt StartTypeComboBox.

Variable Settings_class : string -> option value.

Local Abbreviation texts := ["Cold"; "Warm"; "Runway"; "In Flight"].

(** The boxes that [__init__] and the selections lead to. *)
Local Abbreviation box i :=
  (mkQComboBox [("Cold", VNone); ("Warm", VNone); ("Runway", VNone);
                ("In Flight", VNone)] i).

Lemma box_currentText (i : Z) :
  0 <= i < 4 ->
  currentText (box i)
  = default "" (texts !! Z.to_nat i) /\ currentText (box i) ∈ texts.
Proof.
  intros Hi.
  assert (i = 0 \/ i = 1 \/ i = 2 \/ i = 3) as [-> | [-> | [-> | ->]]] by lia;
    (split; [reflexivity|]); cbn; rewrite !elem_of_cons; auto 10.
Qed.

Lemma setCurrentText_box (s : string) :
  Qt.setCurrentText s __init__
  = if decide (s = "Cold") then (box 0, None)
    else if decide (s = "Warm") then (box 1, Some 1)
    else if decide (s = "Runway") then (box 2, Some 2)
    else if decide (s = "In Flight") then (box 3, Some 3)
    else (box 0, None).
Proof.
  unfold Qt.setCurrentText, findText.
  change (items __init__) with (items (box 0)). cbn [items find_text_from].
  repeat case_decide; subst; try reflexivity.
  repeat match goal with
         | |- context [String.eqb ?a s] =>
           destruct (String.eqb_spec a s); [congruence|]
         end.
  reflexivity.
Qed.

Lemma select_box (index i : Z) (d : gmap string value) :
  0 <= i < 4 ->
  exists j,
    0 <= j < 4
    /\ select index (box i) d
       = (box j,
          if decide (j = i) then d
          else <["default_start_type" := VStr (currentText (box j))]> d).
Proof.
  intros Hi. unfold select. change (count (box i)) with 4.
  destruct ((0 <=? index) && (index <? 4)) eqn:Hin.
  - apply andb_true_iff in Hin as [H0 H4].
    apply Z.leb_le in H0. apply Z.ltb_lt in H4.
    exists index. split; [lia|].
    unfold setCurrentIndex. change (count (box i)) with 4.
    replace ((0 <=? index) && (index <? 4)) with true
      by (symmetry; apply andb_true_iff; split; [apply Z.leb_le|apply Z.ltb_lt];
          lia).
    cbn [currentIndex items emit_currentTextChanged].
    destruct (Z.eqb_spec index i) as [->|Hne].
    + by rewrite decide_True.
    + by rewrite decide_False.
  - exists i. split; [lia|]. by rewrite decide_True.
Qed.

Lemma select_all_box (indices : list Z) (i : Z) (d0 d : gmap string value)
    (w' : QComboBox) (d' : gmap string value) :
  0 <= i < 4 ->
  (forall k, k <> "default_start_type" -> d !! k = d0 !! k) ->
  select_all indices (box i) d = (w', d') ->
  exists j,
    0 <= j < 4 /\ w' = box j
    /\ (d' !! "default_start_type" = Some (VStr (currentText (box j)))
        \/ (j = i /\ d' = d))
    /\ forall k, k <> "default_start_type" -> d' !! k = d0 !! k.
Proof.
  revert i d. induction indices as [|index rest IH]; intros i d Hi Hd;
    cbn [select_all].
  - intros [= <- <-]. exists i. split_and!; [lia|lia|done|by right|done].
  - destruct (select_box index i d Hi) as (j & Hj & ->).
    intros Hrun. case_decide as Hji.
    + subst j. exact (IH i d Hi Hd Hrun).
    + apply IH in Hrun as (j' & Hj' & -> & Hcur & Hother); [|done|].
      * exists j'. split_and!; [lia|lia|done| |done].
        destruct Hcur as [Hcur|[-> ->]]; [by left|].
        left. apply lookup_insert_eq.
      * intros k Hk. rewrite lookup_insert_ne by done. by apply Hd.
Qed.

(** X10: the start type box and the stored start type.  On an instance that
    holds a string as its start type, the two lines of [initGeneratorLayout]
    build the box without changing the instance, although the slot is
    connected when the stored text is selected.  The box shows the stored
    start type when it is one of its four texts, and [Cold] otherwise.
    Whatever the user selects afterwards, the box shows one of the four
    texts, every other field is as it was, and the stored start type is the
    text shown, except that a stored start type that is none of the four is
    kept, behind a box showing [Cold], until the first change of the
    selection. *)
Theorem start_type_follows_the_box (d : gmap string value) (s : string) :
  d !! "default_start_type" = Some (VStr s) ->
  exists w,
    start_type Settings_class d = Ok (w, d)
    /\ currentText w = (if decide (s ∈ texts) then s else "Cold")
    /\ forall indices w' d',
         select_all indices w d = (w', d') ->
         currentText w' ∈ texts
         /\ (d' !! "default_start_type" = Some (VStr (currentText w'))
             \/ ((s ∉ texts) /\ currentText w' = "Cold" /\ d' = d))
         /\ forall k, k <> "default_start_type" -> d' !! k = d !! k.
Proof.
  intros Hd.
  assert (Hstart : exists i,
            0 <= i < 4
            /\ start_type Settings_class d = Ok (box i, d)
            /\ currentText (box i) = (if decide (s ∈ texts) then s else "Cold")
            /\ ((s ∈ texts) \/ i = 0)).
  { unfold start_type, Instance.getattr. rewrite Hd. cbn [Py.bind to_str].
    unfold setCurrentText. rewrite setCurrentText_box.
    assert (Hid : <["default_start_type" := VStr s]> d = d)
      by by apply insert_id.
    destruct (decide (s = "Cold")) as [->|H1].
    { exists 0. rewrite decide_True by (rewrite !elem_of_cons; auto 10).
      split; [lia|]. split_and!; [done|done|by right]. }
    destruct (decide (s = "Warm")) as [->|H2].
    { exists 1. rewrite decide_True by (rewrite !elem_of_cons; auto 10).
      split; [lia|]. cbn [emit_currentTextChanged].
      unfold on_change, Instance.setattr.
      change (currentText (box 1)) with "Warm". rewrite Hid.
      split_and!; [done|done|left; rewrite !elem_of_cons; auto 10]. }
    destruct (decide (s = "Runway")) as [->|H3].
    { exists 2. rewrite decide_True by (rewrite !elem_of_cons; auto 10).
      split; [lia|]. cbn [emit_currentTextChanged].
      unfold on_change, Instance.setattr.
      change (currentText (box 2)) with "Runway". rewrite Hid.
      split_and!; [done|done|left; rewrite !elem_of_cons; auto 10]. }
    destruct (decide (s = "In Flight")) as [->|H4].
    { exists 3. rewrite decide_True by (rewrite !elem_of_cons; auto 10).
      split; [lia|]. cbn [emit_currentTextChanged].
      unfold on_change, Instance.setattr.
      change (currentText (box 3)) with "In Flight". rewrite Hid.
      split_and!; [done|done|left; rewrite !elem_of_cons; auto 10]. }
    exists 0. rewrite (decide_False (P := s ∈ texts))
      by (rewrite !elem_of_cons, elem_of_nil; tauto).
    split; [lia|]. split_and!; [done|done|by right]. }
  destruct Hstart as (i & Hi & Hstart & Hshown & Hin).
  exists (box i). split_and!; [done|done|].
  intros indices w' d' Hrun.
  apply (select_all_box indices i d d) in Hrun
    as (j & Hj & -> & Hcur & Hother); [|done|done].
  destruct (box_currentText j Hj) as [_ Htexts].
  split_and!; [done| |done].
  destruct Hcur as [Hcur|[-> ->]]; [by left|].
  destruct Hin as [Hin| ->].
  - left. rewrite Hd, Hshown. by rewrite decide_True.
  - destruct (decide (s ∈ texts)) as [Hin|Hout].
    + left. by rewrite Hd, Hshown.
    + right. by split_and!.
Qed.

End StartTypeSpec.

(** A save with the start type [Runway]; the user then picks the second
    item, [Warm]. *)
Lemma start_type_follows_the_box_witness :
  let d : gmap string value :=
    {[ "default_start_type" := VStr "Runway"; "supercarrier" := VBool true ]} in
  exists w,
    StartTypeComboBox.start_type (fun _ => None) d = Ok (w, d)
    /\ Qt.currentText w = "Runway"
    /\ (StartTypeComboBox.select_all [1] w d).2
       = {[ "default_start_type" := VStr "Warm";
            "supercarrier" := VBool true ]}.
Proof.
  intros d.
  destruct (start_type_follows_the_box (fun _ => None) d "Runway")
    as (w & Hstart & Hshown & _).
  - reflexivity.
  - exists w. split; [exact Hstart|]. split; [exact Hshown|].
    injection Hstart as <-. reflexivity.
Defined.

(** ** The pilots and squadrons box *)

Section PilotSettingsBoxSpec.

Import Qt PilotSettingsBox.

Variable Settings_class : string -> option value.

Local Abbreviation getattr := (Instance.getattr Settings_class).

Local Abbreviation names :=
  ["ai_pilot_levelling"; "enable_squadron_pilot_limits";
   "squadron_pilot_limit"; "squadron_replenishment_rate"].

(** What holds of the box and the instance from [__init__] on; [d0] is the
    instance that the box was built on. *)
Local Abbreviation in_step d0 self d :=
  (pilot_limit_enabled self = isChecked (enable_squadron_pilot_limits self)
   /\ squadron_replenishment_rate_enabled self
      = isChecked (enable_squadron_pilot_limits self)
   /\ (let* v := getattr d "enable_squadron_pilot_limits" in to_bool v)
      = Ok (isChecked (enable_squadron_pilot_limits self))
   /\ (let* v := getattr d "ai_pilot_levelling" in to_bool v)
      = Ok (isChecked (ai_pilot_levelling self))
   /\ (minimum (pilot_limit self) = 12 /\ maximum (pilot_limit self) = 72)
   /\ 12 <= spin_value (pilot_limit self) <= 72
   /\ (minimum (squadron_replenishment_rate self) = 1
       /\ maximum (squadron_replenishment_rate self) = 20)
   /\ 1 <= spin_value (squadron_replenishment_rate self) <= 20
   /\ (d !! "squadron_pilot_limit" = d0 !! "squadron_pilot_limit"
       \/ d !! "squadron_pilot_limit"
          = Some (VInt (spin_value (pilot_limit self))))
   /\ (d !! "squadron_replenishment_rate"
       = d0 !! "squadron_replenishment_rate"
       \/ d !! "squadron_replenishment_rate"
          = Some (VInt (spin_value (squadron_replenishment_rate self))))
   /\ forall k, k ∉ names -> d !! k = d0 !! k).

Lemma not_in_names (k : string) :
  k ∉ names ->
  k <> "ai_pilot_levelling" /\ k <> "enable_squadron_pilot_limits"
  /\ k <> "squadron_pilot_limit" /\ k <> "squadron_replenishment_rate".
Proof. rewrite !elem_of_cons, elem_of_nil. tauto. Qed.

Lemma pilot_init_in_step (d0 : gmap string value) (self : PilotSettingsBox) :
  __init__ Settings_class d0 = Ok self -> in_step d0 self d0.
Proof.
  unfold __init__.
  destruct (getattr d0 "ai_pilot_levelling") as [v1|] eqn:E1; [|done].
  cbn [Py.bind]. destruct (to_bool v1) as [b1|] eqn:B1; [|done].
  cbn [Py.bind].
  destruct (getattr d0 "enable_squadron_pilot_limits") as [v2|] eqn:E2;
    [|done].
  cbn [Py.bind]. destruct (to_bool v2) as [b2|] eqn:B2; [|done].
  cbn [Py.bind].
  destruct (getattr d0 "squadron_pilot_limit") as [v3|] eqn:E3; [|done].
  cbn [Py.bind]. destruct (to_int v3) as [z3|] eqn:Z3; [|done].
  cbn [Py.bind].
  destruct (getattr d0 "squadron_replenishment_rate") as [v4|] eqn:E4;
    [|done].
  cbn [Py.bind]. destruct (to_int v4) as [z4|] eqn:Z4; [|done].
  cbn [Py.bind]. intros [= <-].
  cbn [pilot_limit_enabled squadron_replenishment_rate_enabled
       enable_squadron_pilot_limits ai_pilot_levelling pilot_limit
       squadron_replenishment_rate].
  pose proof (bound_in_range 12 72 z3 ltac:(lia)) as Hv3.
  pose proof (bound_in_range 1 20 z4 ltac:(lia)) as Hv4.
  cbn [Py.bind setChecked fst isChecked].
  split_and!; try done; cbn; try lia; auto.
Qed.

Lemma pilot_interact_in_step (d0 : gmap string value) (ev : interaction)
    (self self' : PilotSettingsBox) (d d' : gmap string value) :
  in_step d0 self d ->
  interact ev self d = (self', d') ->
  in_step d0 self' d'.
Proof.
  intros (He1 & He2 & Hlim & Hai & [Hmin3 Hmax3] & Hv3 & [Hmin4 Hmax4] & Hv4
          & Hs3 & Hs4 & Hother).
  destruct self as [[ai] [en] [mn3 mx3 v3] e3 [mn4 mx4 v4] e4].
  cbn [pilot_limit_enabled squadron_replenishment_rate_enabled
       enable_squadron_pilot_limits ai_pilot_levelling pilot_limit
       squadron_replenishment_rate isChecked minimum maximum spin_value]
    in *.
  subst mn3 mx3 mn4 mx4 e3 e4.
  destruct ev as [| |v|v]; unfold interact, click, setChecked, setValue;
    cbn [pilot_limit_enabled squadron_replenishment_rate_enabled
         enable_squadron_pilot_limits ai_pilot_levelling pilot_limit
         squadron_replenishment_rate isChecked minimum maximum spin_value].
  - replace (Bool.eqb (negb ai) ai) with false by by destruct ai.
    intros Heq; apply pair_equal_spec in Heq as [<- <-].
    cbn [pilot_limit_enabled squadron_replenishment_rate_enabled
         enable_squadron_pilot_limits ai_pilot_levelling pilot_limit
         squadron_replenishment_rate isChecked minimum maximum spin_value].
    unfold set_ai_pilot_leveling, Instance.setattr, Instance.getattr in *.
    rewrite lookup_insert_eq, !lookup_insert_ne by done.
    split_and!; try done; try lia.
    intros k Hk. destruct (not_in_names k Hk) as (? & ? & ? & ?).
    rewrite lookup_insert_ne by done. by apply Hother.
  - replace (Bool.eqb (negb en) en) with false by by destruct en.
    unfold set_enable_squadron_pilot_limits. intros Heq; apply pair_equal_spec in Heq as [<- <-].
    cbn [pilot_limit_enabled squadron_replenishment_rate_enabled
         enable_squadron_pilot_limits ai_pilot_levelling pilot_limit
         squadron_replenishment_rate isChecked minimum maximum spin_value].
    unfold Instance.setattr, Instance.getattr in *.
    rewrite lookup_insert_eq, !lookup_insert_ne by done.
    split_and!; try done; try lia.
    intros k Hk. destruct (not_in_names k Hk) as (? & ? & ? & ?).
    rewrite lookup_insert_ne by done. by apply Hother.
  - destruct en.
    + pose proof (bound_in_range 12 72 v ltac:(lia)) as Hb.
      destruct (Z.eqb_spec (bound 12 72 v) v3) as [Hsame|Hne];
        intros Heq; apply pair_equal_spec in Heq as [<- <-];
        cbn [pilot_limit_enabled squadron_replenishment_rate_enabled
             enable_squadron_pilot_limits ai_pilot_levelling pilot_limit
             squadron_replenishment_rate isChecked minimum maximum
             spin_value].
      * rewrite Hsame. split_and!; try done; lia.
      * unfold set_squadron_pilot_limit, Instance.setattr, Instance.getattr
          in *.
        rewrite lookup_insert_eq, !lookup_insert_ne by done.
        split_and!; try done; try lia; [by right|].
        intros k Hk. destruct (not_in_names k Hk) as (? & ? & ? & ?).
        rewrite lookup_insert_ne by done. by apply Hother.
    + intros Heq; apply pair_equal_spec in Heq as [<- <-].
      split_and!; try done; cbn; lia.
  - destruct en.
    + pose proof (bound_in_range 1 20 v ltac:(lia)) as Hb.
      destruct (Z.eqb_spec (bound 1 20 v) v4) as [Hsame|Hne];
        intros Heq; apply pair_equal_spec in Heq as [<- <-];
        cbn [pilot_limit_enabled squadron_replenishment_rate_enabled
             enable_squadron_pilot_limits ai_pilot_levelling pilot_limit
             squadron_replenishment_rate isChecked minimum maximum
             spin_value].
      * rewrite Hsame. split_and!; try done; lia.
      * unfold set_squadron_replenishment_rate, Instance.setattr,
          Instance.getattr in *.
        rewrite lookup_insert_eq, !lookup_insert_ne by done.
        split_and!; try done; try lia; [by right|].
        intros k Hk. destruct (not_in_names k Hk) as (? & ? & ? & ?).
        rewrite lookup_insert_ne by done. by apply Hother.
    + intros Heq; apply pair_equal_spec in Heq as [<- <-].
      split_and!; try done; cbn; lia.
Qed.

Lemma pilot_interact_all_in_step (d0 : gmap string value) (evs : list interaction)
    (self1 self : PilotSettingsBox) (d1 d : gmap string value) :
  in_step d0 self1 d1 ->
  interact_all evs self1 d1 = (self, d) ->
  in_step d0 self d.
Proof.
  revert self1 d1. induction evs as [|ev rest IH]; intros self1 d1 Hinv;
    cbn [interact_all].
  - intros Heq. by apply pair_equal_spec in Heq as [<- <-].
  - destruct (interact ev self1 d1) as [self2 d2] eqn:E.
    apply IH. by apply (pilot_interact_in_step d0 ev self1 self2 d1 d2).
Qed.

(** X11: the pilots box and the instance stay in step.  From [__init__] on
    and whatever the user does, both spinners are enabled exactly when the
    box for the squadron limits is checked, which is the truth of the stored
    [enable_squadron_pilot_limits]; the box for the levelling shows the
    stored [ai_pilot_levelling]; the pilot limit shown lies in [12, 72] and
    the replenishment rate in [1, 20]; the stored limit and rate are either
    the ones the box was built on, which may lie outside these ranges, or the
    ones shown; and no other field of the instance is touched. *)
Theorem pilot_box_stays_in_step
    (d0 : gmap string value) (self0 : PilotSettingsBox)
    (evs : list interaction) (self : PilotSettingsBox)
    (d : gmap string value) :
  __init__ Settings_class d0 = Ok self0 ->
  interact_all evs self0 d0 = (self, d) ->
  pilot_limit_enabled self = isChecked (enable_squadron_pilot_limits self)
  /\ squadron_replenishment_rate_enabled self
     = isChecked (enable_squadron_pilot_limits self)
  /\ (let* v := getattr d "enable_squadron_pilot_limits" in to_bool v)
     = Ok (isChecked (enable_squadron_pilot_limits self))
  /\ (let* v := getattr d "ai_pilot_levelling" in to_bool v)
     = Ok (isChecked (ai_pilot_levelling self))
  /\ 12 <= spin_value (pilot_limit self) <= 72
  /\ 1 <= spin_value (squadron_replenishment_rate self) <= 20
  /\ (d !! "squadron_pilot_limit" = d0 !! "squadron_pilot_limit"
      \/ d !! "squadron_pilot_limit"
         = Some (VInt (spin_value (pilot_limit self))))
  /\ (d !! "squadron_replenishment_rate" = d0 !! "squadron_replenishment_rate"
      \/ d !! "squadron_replenishment_rate"
         = Some (VInt (spin_value (squadron_replenishment_rate self))))
  /\ forall k, k ∉ names -> d !! k = d0 !! k.
Proof.
  intros Hinit Hrun.
  assert (Hinv : in_step d0 self d)
    by (eapply pilot_interact_all_in_step; [by apply pilot_init_in_step|done]).
  destruct Hinv as (? & ? & ? & ? & _ & ? & _ & ? & ? & ? & ?).
  split_and!; try done; lia.
Qed.

End PilotSettingsBoxSpec.

(** A save with a pilot limit of 100 and the limits switched off: the box
    shows 72 and a disabled spinner, which takes no input; once the limits
    are switched on, a limit of 5 is stored as 12. *)
Lemma pilot_box_stays_in_step_witness :
  let d0 : gmap string value :=
    {[ "ai_pilot_levelling" := VBool true;
       "enable_squadron_pilot_limits" := VBool false;
       "squadron_pilot_limit" := VInt 100;
       "squadron_replenishment_rate" := VInt 4 ]} in
  let evs := [ PilotSettingsBox.SpinPilotLimit 20;
               PilotSettingsBox.ClickLimits;
               PilotSettingsBox.SpinPilotLimit 5 ] in
  exists self0 self d,
    PilotSettingsBox.__init__ (fun _ => None) d0 = Ok self0
    /\ Qt.spin_value (PilotSettingsBox.pilot_limit self0) = 72
    /\ PilotSettingsBox.interact_all evs self0 d0 = (self, d)
    /\ 12 <= Qt.spin_value (PilotSettingsBox.pilot_limit self) <= 72
    /\ d !! "squadron_pilot_limit" = Some (VInt 12)
    /\ d !! "ai_pilot_levelling" = Some (VBool true).
Proof.
  intros d0 evs.
  pose (self0 :=
          PilotSettingsBox.mkPilotSettingsBox
            (Qt.mkQCheckBox true) (Qt.mkQCheckBox false)
            (Qt.mkQSpinBox 12 72 72) false (Qt.mkQSpinBox 1 20 4) false).
  pose (run := PilotSettingsBox.interact_all evs self0 d0).
  exists self0, run.1, run.2.
  destruct (pilot_box_stays_in_step (fun _ => None) d0 self0 evs run.1 run.2)
    as (_ & _ & _ & _ & Hlimit & _).
  - reflexivity.
  - reflexivity.
  - split; [reflexivity|]. split; [reflexivity|]. split; [reflexivity|].
    split; [exact Hlimit|]. split; reflexivity.
Defined.

(** ** The settings window *)

(** The lists of attributes, and the dictionary of the pages. *)

Lemma generator_in_ui (k : string) :
  k ∈ Window.generator_attributes -> k ∈ Window.ui_attributes.
Proof. unfold Window.ui_attributes. rewrite !elem_of_app. tauto. Qed.

Lemma cheat_in_ui (k : string) :
  k ∈ Window.cheat_attributes -> k ∈ Window.ui_attributes.
Proof. unfold Window.ui_attributes. rewrite !elem_of_app. tauto. Qed.

Lemma elem_of_or_nil {A} (x : A) (P : Prop) : P <-> P \/ x ∈ @nil A.
Proof. rewrite elem_of_nil. tauto. Qed.

Lemma elem_of_or_cons {A} (x y : A) (l : list A) (P Q R : Prop) :
  (P <-> Q \/ x ∈ l) -> (Q <-> x = y \/ R) -> (P <-> R \/ x ∈ y :: l).
Proof. rewrite elem_of_cons. tauto. Qed.

Lemma dict_set_fst {V} (key : string) (v : V) (d : list (string * V)) k :
  k ∈ (Window.dict_set key v d).*1 <-> k = key \/ k ∈ d.*1.
Proof.
  induction d as [|[k0 x] rest IH]; cbn [Window.dict_set].
  - cbn. rewrite elem_of_cons, elem_of_nil. tauto.
  - destruct (String.eqb_spec k0 key) as [->|Hne]; cbn;
      rewrite !elem_of_cons; [tauto|]. rewrite IH. tauto.
Qed.

Lemma dict_set_NoDup {V} (key : string) (v : V) (d : list (string * V)) :
  NoDup d.*1 -> NoDup (Window.dict_set key v d).*1.
Proof.
  induction d as [|[k0 x] rest IH]; cbn [Window.dict_set].
  - intros _. cbn. apply NoDup_singleton.
  - cbn. rewrite NoDup_cons. intros [Hk0 Hrest].
    destruct (String.eqb_spec k0 key) as [->|Hne]; cbn;
      rewrite NoDup_cons; [done|]. split; [|by apply IH].
    rewrite dict_set_fst. intros [->|?]; done.
Qed.

Lemma dict_set_elem {V} (key : string) (v : V) (d : list (string * V)) k x :
  (k, x) ∈ Window.dict_set key v d -> (k = key /\ x = v) \/ (k, x) ∈ d.
Proof.
  induction d as [|[k0 x0] rest IH]; cbn [Window.dict_set].
  - rewrite elem_of_cons, elem_of_nil. intros [[= -> ->]|[]]. by left.
  - destruct (String.eqb_spec k0 key) as [->|Hne]; rewrite !elem_of_cons.
    + intros [[= -> ->]|?]; [by left|by right; right].
    + intros [?|H]; [by right; left|].
      destruct (IH H) as [?|?]; [by left|by right; right].
Qed.


Section WindowSpec.

Import Settings Qt QSettingsWindow Window.

Local Set Default Proof Using "Type".

Variable split_chunks : string -> list string.
Variable Settings_class : string -> option value.
Variable Settings_pages : result (list string).
Variable Settings_sections : string -> result (list string).
Variable Settings_fields :
  string -> string -> result (list (string * OptionDescription)).
Variable ICONS : gmap string N.
Variable CONST_options : string -> option (value -> result value).
Variable TimeInputs : string -> value -> result N.
Variable QLabeledWidget : string -> QCheckBox -> result N.
Variable QHorizontalSeparationLine : result N.
Variable PluginsPage : result N.
Variable PluginOptionsPage : result N.
Variable QDialog_getattr : string -> option object.
Variable indexAt : list QStandardItem -> Z.
Variable row_of_half : Z -> result Z.
Variable other_call : object -> string -> result value.
Variable other_getattr : object -> string -> result value.
Variable int_other : value -> result value.
Variable add : value -> value -> result value.
Variable compute_conflicts_position : Game -> Game * result unit.
Variable updateGame : Game -> Game * result unit.

Local Abbreviation getattr := (Window.getattr QDialog_getattr).
Local Abbreviation setting := (Window.setting Settings_class).
Local Abbreviation add_pages :=
  (Window.add_pages split_chunks Settings_sections Settings_fields).
Local Abbreviation add_checkbox := (Window.add_checkbox Settings_class).
Local Abbreviation add_spinbox := (Window.add_spinbox Settings_class).
Local Abbreviation initGeneratorLayout :=
  (Window.initGeneratorLayout Settings_class TimeInputs
     QHorizontalSeparationLine).
Local Abbreviation add_cheat_buttons := (Window.add_cheat_buttons row_of_half).
Local Abbreviation initCheatLayout :=
  (Window.initCheatLayout Settings_class QLabeledWidget row_of_half).
Local Abbreviation add_page_items := (Window.add_page_items ICONS).
Local Abbreviation add_category := (Window.add_category ICONS).
Local Abbreviation initUi :=
  (Window.initUi Settings_class ICONS TimeInputs QLabeledWidget
     QHorizontalSeparationLine PluginsPage PluginOptionsPage QDialog_getattr
     indexAt row_of_half).
Local Abbreviation __init__ :=
  (Window.__init__ split_chunks Settings_class Settings_pages
     Settings_sections Settings_fields ICONS TimeInputs QLabeledWidget
     QHorizontalSeparationLine PluginsPage PluginOptionsPage QDialog_getattr
     indexAt row_of_half).
Local Abbreviation QSettingsWindow :=
  (Window.QSettingsWindow split_chunks Settings_class Settings_pages
     Settings_sections Settings_fields ICONS TimeInputs QLabeledWidget
     QHorizontalSeparationLine PluginsPage PluginOptionsPage QDialog_getattr
     indexAt row_of_half).
Local Abbreviation apply_option :=
  (Window.apply_option CONST_options QDialog_getattr other_call).
Local Abbreviation applySettings :=
  (Window.applySettings CONST_options QDialog_getattr other_call
     other_getattr int_other compute_conflicts_position updateGame).
Local Abbreviation click_checkbox :=
  (Window.click_checkbox CONST_options QDialog_getattr other_call
     other_getattr int_other compute_conflicts_position updateGame).
Local Abbreviation onSelectionChanged :=
  (Window.onSelectionChanged QDialog_getattr other_call).
Local Abbreviation select_row :=
  (Window.select_row QDialog_getattr other_call).
Local Abbreviation same_game := (Window.same_game Settings_class).
Local Abbreviation reads_only := (Window.reads_only Settings_class).

(** *** Running a method *)

Lemma and_then_Ok {A B} (m : M A) (k : A -> M B) st st' b :
  and_then m k st = (st', Ok b) ->
  exists st1 a, m st = (st1, Ok a) /\ k a st1 = (st', Ok b).
Proof.
  unfold and_then. destruct (m st) as [st1 [a|e]]; [eauto|done].
Qed.

Lemma and_then_Raise {A B} (m : M A) (k : A -> M B) st st' e :
  m st = (st', Raise e) -> and_then m k st = (st', Raise e).
Proof. unfold and_then. by intros ->. Qed.

Lemma and_then_step {A B} (m : M A) (k : A -> M B) st st1 a :
  m st = (st1, Ok a) -> and_then m k st = k a st1.
Proof. unfold and_then. by intros ->. Qed.

(** *** The attributes that the methods assign *)

Lemma assigns_and_then {A B} names (m : M A) (k : A -> M B) :
  assigns names m -> (forall a, assigns names (k a)) ->
  assigns names (and_then m k).
Proof.
  intros Hm Hk st st' r. unfold and_then.
  destruct (m st) as [st1 [a|e]] eqn:E.
  - intros Hrun key Hkey. rewrite (Hk a st1 st' r Hrun key Hkey).
    exact (Hm st st1 _ E key Hkey).
  - intros [= <- <-] key Hkey. exact (Hm st st1 _ E key Hkey).
Qed.

Lemma assigns_keeps {A} names (m : M A) :
  (forall st, self (m st).1 = self st) -> assigns names m.
Proof. intros H st st' r Hrun key _. by rewrite <- (H st), Hrun. Qed.

Lemma assigns_setattr names (a : string) (o : object) :
  a ∈ names -> assigns names (setattr a o).
Proof.
  intros Ha st st' r [= <- _] key Hkey. cbn [self].
  apply lookup_insert_ne. by intros ->.
Qed.

Lemma assigns_weaken {A} names names' (m : M A) :
  (forall k, k ∈ names -> k ∈ names') -> assigns names m -> assigns names' m.
Proof. intros Hsub Hm st st' r Hrun key Hkey. eapply Hm; eauto. Qed.

Local Ltac in_names :=
  apply (bool_decide_unpack _); vm_compute; exact I.

Local Ltac assigns_step :=
  first
    [ apply assigns_and_then; [|intros ?]
    | apply assigns_setattr; first [assumption|in_names]
    | apply assigns_keeps; intros ?; reflexivity ].

Lemma assigns_add_checkbox names attr name :
  attr ∈ names -> assigns names (add_checkbox attr name).
Proof. intros Ha. unfold Window.add_checkbox. repeat assigns_step. Qed.

Lemma assigns_add_spinbox names attr min max name :
  attr ∈ names -> assigns names (add_spinbox attr min max name).
Proof. intros Ha. unfold Window.add_spinbox. repeat assigns_step. Qed.

Lemma assigns_start_type names :
  assigns names
    (fun st =>
       match StartTypeComboBox.start_type Settings_class
               (settings (game st)) with
       | Ok (w, d) =>
         (mkState (self st) (mkGame d (budget (game st))) (log st), Ok w)
       | Raise e => (st, Raise e)
       end).
Proof.
  apply assigns_keeps. intros st.
  by destruct (StartTypeComboBox.start_type _ _) as [[w d]|e].
Qed.

Lemma assigns_initGeneratorLayout :
  assigns generator_attributes initGeneratorLayout.
Proof.
  unfold Window.initGeneratorLayout.
  repeat first
    [ apply assigns_start_type
    | apply assigns_add_checkbox; in_names
    | apply assigns_add_spinbox; in_names
    | assigns_step ].
Qed.

Lemma assigns_add_cheat_buttons names i amounts buttons :
  "moneyCheatBoxLayout" ∈ names ->
  assigns names (add_cheat_buttons i amounts buttons).
Proof.
  intros Ha. revert i buttons.
  induction amounts as [|amount rest IH]; intros i buttons;
    cbn [Window.add_cheat_buttons].
  - by apply assigns_keeps.
  - repeat first [apply IH | assigns_step].
Qed.

Lemma assigns_initCheatLayout : assigns cheat_attributes initCheatLayout.
Proof.
  unfold Window.initCheatLayout.
  repeat first [apply assigns_add_cheat_buttons; in_names | assigns_step].
Qed.

Lemma assigns_page_item names name :
  assigns names (Window.page_item ICONS name).
Proof.
  unfold Window.page_item. apply assigns_and_then.
  - destruct (ICONS !! name); by apply assigns_keeps.
  - intros icon. by apply assigns_keeps.
Qed.

Lemma assigns_add_page_items names pages rows stack :
  "categoryModel" ∈ names -> "right_layout" ∈ names ->
  assigns names (add_page_items pages rows stack).
Proof.
  intros H1 H2. revert rows stack.
  induction pages as [|[name page] rest IH]; intros rows stack;
    cbn [Window.add_page_items].
  - by apply assigns_keeps.
  - repeat first [apply IH | apply assigns_page_item | assigns_step].
Qed.

Lemma assigns_add_category names text icon_name attr rows stack :
  "categoryModel" ∈ names -> "right_layout" ∈ names ->
  assigns names (add_category text icon_name attr rows stack).
Proof. intros H1 H2. unfold Window.add_category. repeat assigns_step. Qed.

Lemma assigns_initUi : assigns ui_attributes initUi.
Proof.
  unfold Window.initUi.
  repeat first
    [ apply assigns_add_category; in_names
    | apply (assigns_weaken generator_attributes);
        [apply generator_in_ui|apply assigns_initGeneratorLayout]
    | apply (assigns_weaken cheat_attributes);
        [apply cheat_in_ui|apply assigns_initCheatLayout]
    | match goal with
      | |- assigns _ (match ?o with _ => _ end) =>
        destruct o;
          first [apply assigns_add_page_items; in_names
                |by apply assigns_keeps]
      | |- assigns _ (let '(_, _) := ?p in _) => destruct p
      end
    | assigns_step ].
Qed.

Lemma assigns_add_pages names pages built :
  "pages" ∈ names -> assigns names (add_pages pages built).
Proof.
  intros Ha. revert built.
  induction pages as [|page rest IH]; intros built; cbn [Window.add_pages].
  - by apply assigns_keeps.
  - repeat first [apply IH | assigns_step].
Qed.

Lemma assigns_init : assigns attributes __init__.
Proof.
  unfold Window.__init__.
  repeat first
    [ apply assigns_add_pages; in_names
    | apply (assigns_weaken ui_attributes);
        [intros k Hk; unfold attributes; rewrite elem_of_cons; by right
        |apply assigns_initUi]
    | assigns_step ].
Qed.

(** A window that [__init__] has built, or has given up building, has no
    attribute but those of the list. *)
Lemma window_attributes (g : Game) st r (k : string) :
  QSettingsWindow g = (st, r) -> k ∉ attributes -> self st !! k = None.
Proof.
  intros Hrun Hk. unfold Window.QSettingsWindow in Hrun.
  rewrite (assigns_init _ _ _ Hrun k Hk). apply lookup_empty.
Qed.

(** *** [applySettings] *)

Lemma applySettings_raises st :
  self st !! "playerCoalitionSkill" = None ->
  QDialog_getattr "playerCoalitionSkill" = None ->
  applySettings st
  = (st,
     Raise (AttributeError
              (match CONST_options "SKILL_OPTIONS" with
               | Some _ => "playerCoalitionSkill"
               | None => "SKILL_OPTIONS"
               end))).
Proof.
  intros Hself Hclass. unfold Window.applySettings.
  apply and_then_Raise. unfold Window.apply_option.
  destruct (CONST_options "SKILL_OPTIONS") as [options|].
  - rewrite (and_then_step _ _ st st options) by reflexivity.
    apply and_then_Raise. unfold Window.getattr. by rewrite Hself, Hclass.
  - by apply and_then_Raise.
Qed.

(** X12: [applySettings] cannot run on a window that [__init__] has built.
    Its first statement reads [self.playerCoalitionSkill], which no method of
    the window assigns, so that, [QDialog] having no attribute of that name,
    it raises [AttributeError] before it has written any setting: the game
    and the window are as before.  (The error is for [SKILL_OPTIONS] when the
    constants lack it, as that is looked up first.)  The check boxes of the
    generator page are connected to [applySettings]: a click on one of them
    flips the box, and leaves the game as it was. *)
Theorem applySettings_needs_unassigned_widgets (g : Game) (st : state) :
  QSettingsWindow g = (st, Ok tt) ->
  QDialog_getattr "playerCoalitionSkill" = None ->
  let e :=
    AttributeError
      (match CONST_options "SKILL_OPTIONS" with
       | Some _ => "playerCoalitionSkill"
       | None => "SKILL_OPTIONS"
       end) in
  applySettings st = (st, Raise e)
  /\ forall attr w,
       self st !! attr = Some (OCheckBox w) ->
       click_checkbox attr st
       = (mkState
            (<[attr := OCheckBox (mkQCheckBox (negb (isChecked w)))]>
               (self st))
            (game st) (log st),
          Raise e).
Proof.
  intros Hrun Hclass e.
  assert (Hself : self st !! "playerCoalitionSkill" = None)
    by (apply (window_attributes g st (Ok tt)); [done|];
        apply (bool_decide_unpack _); vm_compute; exact I).
  split; [by apply applySettings_raises|].
  intros attr w Hattr. unfold Window.click_checkbox.
  rewrite (and_then_step _ _ st st (OCheckBox w))
    by (unfold Window.getattr; by rewrite Hattr).
  unfold click, setChecked.
  replace (Bool.eqb (negb (isChecked w)) (isChecked w)) with false
    by by destruct (isChecked w).
  erewrite and_then_step by reflexivity.
  apply applySettings_raises; [|done]. cbn [self].
  rewrite lookup_insert_ne; [done|]. intros ->. congruence.
Qed.

(** *** What building the window does to the game *)

Lemma same_game_refl g : same_game g g.
Proof. by split_and!. Qed.

Lemma same_game_trans g1 g2 g3 :
  same_game g1 g2 -> same_game g2 g3 -> same_game g1 g3.
Proof.
  intros (Hb1 & Hr1 & Hk1 & He1) (Hb2 & Hr2 & Hk2 & He2). split_and!.
  - by rewrite Hb2.
  - intros name. by rewrite Hr2.
  - intros k Hk. by rewrite Hk2, Hk1.
  - intros Hsome. rewrite <- (He1 Hsome). apply He2.
    by rewrite (He1 Hsome).
Qed.

Lemma reads_only_and_then {A B} (m : M A) (k : A -> M B) :
  reads_only m -> (forall a, reads_only (k a)) -> reads_only (and_then m k).
Proof.
  intros Hm Hk st st' r. unfold and_then.
  destruct (m st) as [st1 [a|e]] eqn:E.
  - intros Hrun. destruct (Hm st st1 _ E) as [Hg1 Hl1].
    destruct (Hk a st1 st' r Hrun) as [Hg2 Hl2].
    split; [by apply (same_game_trans _ (game st1))|congruence].
  - intros [= <- <-]. exact (Hm st st1 _ E).
Qed.

Lemma reads_only_keeps {A} (m : M A) :
  (forall st, game (m st).1 = game st /\ log (m st).1 = log st) ->
  reads_only m.
Proof.
  intros H st st' r Hrun. destruct (H st) as [Hg Hl].
  rewrite Hrun in Hg, Hl. cbn [fst] in Hg, Hl. rewrite Hg, Hl.
  split; [apply same_game_refl|done].
Qed.

(** The slot of the start type box writes what the attribute read gave. *)
Lemma start_type_same (d : gmap string value) w d' :
  StartTypeComboBox.start_type Settings_class d = Ok (w, d') ->
  (forall name,
     Instance.getattr Settings_class d' name
     = Instance.getattr Settings_class d name)
  /\ (forall k, k <> "default_start_type" -> d' !! k = d !! k)
  /\ (is_Some (d !! "default_start_type") -> d' = d).
Proof.
  unfold StartTypeComboBox.start_type.
  destruct (Instance.getattr Settings_class d "default_start_type")
    as [v|] eqn:E; [|done].
  cbn [Py.bind]. destruct v as [| | | |s|]; try done.
  cbn [Py.bind StartTypeComboBox.to_str].
  unfold StartTypeComboBox.setCurrentText. rewrite setCurrentText_box.
  assert (Hins : forall t : string,
            t = s ->
            (forall name,
               Instance.getattr Settings_class
                 (<["default_start_type" := VStr t]> d) name
               = Instance.getattr Settings_class d name)
            /\ (forall k,
                  k <> "default_start_type" ->
                  <["default_start_type" := VStr t]> d !! k = d !! k)
            /\ (is_Some (d !! "default_start_type") ->
                <["default_start_type" := VStr t]> d = d)).
  { intros t ->. split_and!.
    - intros name. unfold Instance.getattr in *.
      destruct (decide (name = "default_start_type")) as [->|Hne].
      + rewrite lookup_insert_eq. symmetry. exact E.
      + by rewrite lookup_insert_ne.
    - intros k Hk. by rewrite lookup_insert_ne.
    - intros [v Hv]. apply insert_id. unfold Instance.getattr in E.
      rewrite Hv in E. congruence. }
  repeat case_decide; cbn [StartTypeComboBox.emit_currentTextChanged];
    intros [= <- <-]; try (by split_and!);
    unfold StartTypeComboBox.on_change, Instance.setattr;
    by apply Hins.
Qed.

Lemma reads_only_start_type :
  reads_only
    (fun st =>
       match StartTypeComboBox.start_type Settings_class
               (settings (game st)) with
       | Ok (w, d) =>
         (mkState (self st) (mkGame d (budget (game st))) (log st), Ok w)
       | Raise e => (st, Raise e)
       end).
Proof.
  intros st st' r.
  destruct (StartTypeComboBox.start_type _ _) as [[w d]|e] eqn:E.
  - intros [= <- <-]. cbn [game log]. split; [|done].
    destruct (start_type_same _ _ _ E) as (Hr & Hk & He).
    split_and!; try done.
    intros Hsome. destruct (game st) as [d0 b]. cbn in *. by rewrite He.
  - intros [= <- <-]. split; [apply same_game_refl|done].
Qed.

Local Ltac reads_step :=
  first
    [ apply reads_only_and_then; [|intros ?]
    | apply reads_only_keeps; intros ?; split; reflexivity ].

Lemma reads_only_initGeneratorLayout : reads_only initGeneratorLayout.
Proof.
  unfold Window.initGeneratorLayout, Window.add_checkbox, Window.add_spinbox.
  repeat first [apply reads_only_start_type | reads_step].
Qed.

Lemma reads_only_add_cheat_buttons i amounts buttons :
  reads_only (add_cheat_buttons i amounts buttons).
Proof.
  revert i buttons.
  induction amounts as [|amount rest IH]; intros i buttons;
    cbn [Window.add_cheat_buttons].
  - by apply reads_only_keeps.
  - repeat first [apply IH | reads_step].
Qed.

Lemma reads_only_initCheatLayout : reads_only initCheatLayout.
Proof.
  unfold Window.initCheatLayout.
  repeat first [apply reads_only_add_cheat_buttons | reads_step].
Qed.

Lemma reads_only_add_page_items pages rows stack :
  reads_only (add_page_items pages rows stack).
Proof.
  revert rows stack.
  induction pages as [|[name page] rest IH]; intros rows stack;
    cbn [Window.add_page_items].
  - by apply reads_only_keeps.
  - unfold Window.page_item.
    repeat first
      [ apply IH
      | match goal with
        | |- Window.reads_only _ (match ?o with _ => _ end) => destruct o
        end
      | reads_step ].
Qed.

Lemma reads_only_initUi : reads_only initUi.
Proof.
  unfold Window.initUi, Window.add_category.
  repeat first
    [ apply reads_only_initGeneratorLayout
    | apply reads_only_initCheatLayout
    | match goal with
      | |- Window.reads_only _ (match ?o with _ => _ end) =>
        destruct o;
          first [apply reads_only_add_page_items
                |apply reads_only_keeps; intros ?; split; reflexivity]
      | |- Window.reads_only _ (let '(_, _) := ?p in _) => destruct p
      end
    | reads_step ].
Qed.

Lemma reads_only_add_pages pages built : reads_only (add_pages pages built).
Proof.
  revert built.
  induction pages as [|page rest IH]; intros built; cbn [Window.add_pages].
  - by apply reads_only_keeps.
  - repeat first [apply IH | reads_step].
Qed.

Lemma reads_only_init : reads_only __init__.
Proof.
  unfold Window.__init__.
  repeat first
    [apply reads_only_add_pages | apply reads_only_initUi | reads_step].
Qed.

(** X13: building the window changes nothing that the game can tell.
    Whether [__init__] returns or raises, the budget is as before, nothing is
    logged, every attribute of the Settings Instance reads as before, and
    the instance dictionary is the same except, at most, for the start type:
    the slot of the start type box, which is connected when the stored start
    type is selected in it, writes back the value just read, which only adds
    an entry when the instance left the start type to its class. *)
Theorem building_the_window_reads_only
    (g : Game) (st : state) (r : result unit) :
  QSettingsWindow g = (st, r) ->
  budget (game st) = budget g
  /\ log st = []
  /\ (forall name,
        Instance.getattr Settings_class (settings (game st)) name
        = Instance.getattr Settings_class (settings g) name)
  /\ (forall k,
        k <> "default_start_type" ->
        settings (game st) !! k = settings g !! k)
  /\ (is_Some (settings g !! "default_start_type") -> game st = g).
Proof.
  intros Hrun. unfold Window.QSettingsWindow in Hrun.
  destruct (reads_only_init _ _ _ Hrun) as [(Hb & Hr & Hk & He) Hlog].
  by split_and!.
Qed.

(** *** The category list and the stacked pages *)

(** The current widget of a stacked layout is the first one added. *)
Local Abbreviation first_shown s :=
  (stack_index s = match widgets s with [] => -1 | _ => 0 end).

Lemma stack_addWidget_first_shown w s :
  first_shown s -> first_shown (stack_addWidget w s).
Proof.
  unfold stack_addWidget. cbn [widgets stack_index]. intros ->.
  by destruct (widgets s).
Qed.

Lemma add_category_Ok text icon_name attr rows stack st st' rows' stack' :
  add_category text icon_name attr rows stack st = (st', Ok (rows', stack')) ->
  item_text <$> rows' = (item_text <$> rows) ++ [text]
  /\ stack' = stack_addWidget (Attribute attr) stack
  /\ st' = mkState
             (<["right_layout" := OStackedLayout stack']>
                (<["categoryModel" := OItemModel rows']> (self st)))
             (game st) (log st).
Proof.
  unfold Window.add_category, ICON, lift, and_then, setattr, ret.
  destruct (getitem ICONS icon_name) as [icon|e]; [|done].
  cbn [self game log]. intros [= <- <- <-].
  by rewrite fmap_app.
Qed.

Lemma add_page_items_Ok pages rows stack st st' rows' stack' :
  add_page_items pages rows stack st = (st', Ok (rows', stack')) ->
  self st !! "categoryModel" = Some (OItemModel rows) ->
  self st !! "right_layout" = Some (OStackedLayout stack) ->
  first_shown stack ->
  item_text <$> rows' = (item_text <$> rows) ++ pages.*1
  /\ widgets stack' = widgets stack ++ (PageOf <$> pages.*1)
  /\ first_shown stack'
  /\ self st' !! "categoryModel" = Some (OItemModel rows')
  /\ self st' !! "right_layout" = Some (OStackedLayout stack')
  /\ game st' = game st /\ log st' = log st
  /\ forall k, k <> "categoryModel" -> k <> "right_layout" ->
       self st' !! k = self st !! k.
Proof.
  revert rows stack st.
  induction pages as [|[name page] rest IH]; intros rows stack st;
    cbn [Window.add_page_items].
  - intros [= <- <- <-] Hm Hs Hf. rewrite !app_nil_r. by split_and!.
  - intros Hrun Hm Hs Hf.
    apply and_then_Ok in Hrun as (st1 & item & Hitem & Hrun).
    assert (st1 = st /\ item_text item = name) as [-> Hname].
    { revert Hitem. unfold Window.page_item, ICON, lift, and_then, ret.
      destruct (ICONS !! name) as [icon|].
      - by intros [= <- <-].
      - destruct (getitem ICONS "Generator"); [|done]. by intros [= <- <-]. }
    rewrite (and_then_step _ _ _ _ tt eq_refl) in Hrun.
    rewrite (and_then_step _ _ _ _ tt eq_refl) in Hrun.
    apply IH in Hrun as (Hrows & Hstack & Hf' & Hm' & Hs' & Hg & Hl & Hk).
    + cbn [self game log] in *. split_and!; try done.
      * rewrite Hrows, fmap_app, <- app_assoc. cbn. by rewrite Hname.
      * rewrite Hstack. cbn [stack_addWidget widgets].
        by rewrite <- app_assoc.
      * intros k Hk1 Hk2. rewrite (Hk k Hk1 Hk2).
        by rewrite !lookup_insert_ne.
    + cbn [self]. by rewrite lookup_insert_ne, lookup_insert_eq.
    + cbn [self]. by rewrite lookup_insert_eq.
    + by apply stack_addWidget_first_shown.
Qed.

(** The first statement of [initGeneratorLayout] and of [initCheatLayout]
    assigns the page, and no later one does. *)
Lemma initGeneratorLayout_page st st' :
  initGeneratorLayout st = (st', Ok tt) ->
  self st' !! "generatorPage" = Some (OWidget "QWidget").
Proof.
  unfold Window.initGeneratorLayout. intros Hrun.
  rewrite (and_then_step _ _ _ _ tt eq_refl) in Hrun.
  match type of Hrun with
  | ?m _ = _ => assert (Hm : assigns (drop 1 generator_attributes) m)
  end.
  { repeat first
      [ apply assigns_start_type
      | apply assigns_add_checkbox; in_names
      | apply assigns_add_spinbox; in_names
      | assigns_step ]. }
  rewrite (Hm _ _ _ Hrun "generatorPage") by in_names.
  cbn [self]. apply lookup_insert_eq.
Qed.

Lemma initCheatLayout_page st st' :
  initCheatLayout st = (st', Ok tt) ->
  self st' !! "cheatPage" = Some (OWidget "QWidget").
Proof.
  unfold Window.initCheatLayout. intros Hrun.
  rewrite (and_then_step _ _ _ _ tt eq_refl) in Hrun.
  match type of Hrun with
  | ?m _ = _ => assert (Hm : assigns (drop 1 cheat_attributes) m)
  end.
  { repeat first [apply assigns_add_cheat_buttons; in_names | assigns_step]. }
  rewrite (Hm _ _ _ Hrun "cheatPage") by in_names.
  cbn [self]. apply lookup_insert_eq.
Qed.

Local Ltac look :=
  cbn [self game log];
  repeat first
    [ rewrite lookup_insert_eq
    | rewrite lookup_insert_ne by done ].

Lemma initUi_Ok pages st st' :
  initUi st = (st', Ok tt) ->
  self st !! "pages" = Some (OPages pages) ->
  exists rows stack,
    self st' !! "pages" = Some (OPages pages)
    /\ self st' !! "categoryModel" = Some (OItemModel rows)
    /\ self st' !! "right_layout" = Some (OStackedLayout stack)
    /\ self st' !! "categoryList" = Some (OListView (indexAt rows))
    /\ item_text <$> rows
       = pages.*1 ++ ["Mission Generator"; "Cheat Menu"; "LUA Plugins";
                      "LUA Plugins Options"]
    /\ widgets stack
       = (PageOf <$> pages.*1)
         ++ [Attribute "generatorPage"; Attribute "cheatPage";
             Attribute "pluginsPage"; Attribute "pluginsOptionsPage"]
    /\ stack_index stack = 0
    /\ self st' !! "generatorPage" = Some (OWidget "QWidget")
    /\ self st' !! "cheatPage" = Some (OWidget "QWidget")
    /\ (exists ref,
          self st' !! "pluginsPage" = Some (OExternal "PluginsPage" ref))
    /\ (exists ref,
          self st' !! "pluginsOptionsPage"
          = Some (OExternal "PluginOptionsPage" ref)).
Proof.
  unfold Window.initUi. intros Hrun Hpages.
  do 4 rewrite (and_then_step _ _ _ _ tt eq_refl) in Hrun.
  rewrite (and_then_step _ _ _ _ (OPages pages)) in Hrun
    by (unfold Window.getattr; look; by rewrite Hpages).
  apply and_then_Ok in Hrun as (st1 & [rows1 stack1] & Hitems & Hrun).
  apply add_page_items_Ok in Hitems
    as (Hrows1 & Hstack1 & Hf1 & Hm1 & Hs1 & _ & _ & Hk1);
    [|by look|by look|done].
  assert (Hp1 : self st1 !! "pages" = Some (OPages pages))
    by (rewrite Hk1 by done; by look).
  apply and_then_Ok in Hrun as (st2 & [] & Hgen & Hrun).
  pose proof (initGeneratorLayout_page _ _ Hgen) as Hgp.
  pose proof (assigns_initGeneratorLayout _ _ _ Hgen) as Hk2.
  apply and_then_Ok in Hrun as (st3 & [rows2 stack2] & Hcat2 & Hrun).
  apply add_category_Ok in Hcat2 as (Hrows2 & -> & ->).
  apply and_then_Ok in Hrun as (st4 & [] & Hcheat & Hrun).
  pose proof (initCheatLayout_page _ _ Hcheat) as Hcp.
  pose proof (assigns_initCheatLayout _ _ _ Hcheat) as Hk4.
  cbn [self] in Hk4.
  apply and_then_Ok in Hrun as (st5 & [rows3 stack3] & Hcat3 & Hrun).
  apply add_category_Ok in Hcat3 as (Hrows3 & -> & ->).
  apply and_then_Ok in Hrun as (st6 & ref1 & Href1 & Hrun).
  apply pair_equal_spec in Href1 as [<- _].
  rewrite (and_then_step _ _ _ _ tt eq_refl) in Hrun.
  apply and_then_Ok in Hrun as (st7 & [rows4 stack4] & Hcat4 & Hrun).
  apply add_category_Ok in Hcat4 as (Hrows4 & -> & ->).
  apply and_then_Ok in Hrun as (st8 & ref2 & Href2 & Hrun).
  apply pair_equal_spec in Href2 as [<- _].
  rewrite (and_then_step _ _ _ _ tt eq_refl) in Hrun.
  apply and_then_Ok in Hrun as (st9 & [rows5 stack5] & Hcat5 & Hrun).
  apply add_category_Ok in Hcat5 as (Hrows5 & -> & ->).
  apply pair_equal_spec in Hrun as [<- _].
  assert (Hin : forall k : string,
            bool_decide (k ∉ generator_attributes) = true ->
            bool_decide (k ∉ cheat_attributes) = true ->
            self st4 !! k
            = (<["right_layout" := OStackedLayout
                   (stack_addWidget (Attribute "generatorPage") stack1)]>
                 (<["categoryModel" := OItemModel rows2]> (self st1))) !! k).
  { intros k Hg Hc. apply bool_decide_eq_true in Hg, Hc.
    rewrite (Hk4 k Hc). cbn [self]. rewrite !lookup_insert.
    repeat case_decide; try done. by apply Hk2. }
  exists rows5,
    (stack_addWidget (Attribute "pluginsOptionsPage")
       (stack_addWidget (Attribute "pluginsPage")
          (stack_addWidget (Attribute "cheatPage")
             (stack_addWidget (Attribute "generatorPage") stack1)))).
  split_and!.
  - look. rewrite Hin by done. by look.
  - by look.
  - by look.
  - by look.
  - rewrite Hrows5, Hrows4, Hrows3, Hrows2, Hrows1.
    by rewrite <- !app_assoc.
  - cbn [stack_addWidget widgets]. rewrite Hstack1.
    by rewrite <- !app_assoc.
  - cbn [stack_addWidget widgets stack_index]. rewrite Hf1.
    destruct (widgets stack1) as [|w ws] eqn:Hw; [done|done].
  - look. rewrite Hk4 by in_names. look.
    exact Hgp.
  - look. exact Hcp.
  - exists ref1. by look.
  - exists ref2. by look.
Qed.

(** *** The pages of the window *)

Local Abbreviation AutoSettingsPage :=
  (Pages.AutoSettingsPage split_chunks Settings_fields Settings_sections).

Lemma add_pages_Ok names built st st' :
  add_pages names built st = (st', Ok tt) ->
  self st !! "pages" = Some (OPages built) ->
  NoDup built.*1 ->
  (forall page groups,
     (page, groups) ∈ built ->
     AutoSettingsPage page (settings (game st)) = Ok groups) ->
  game st' = game st
  /\ exists pages,
       self st' !! "pages" = Some (OPages pages)
       /\ NoDup pages.*1
       /\ (forall page, page ∈ pages.*1 <-> page ∈ built.*1 \/ page ∈ names)
       /\ forall page groups,
            (page, groups) ∈ pages ->
            AutoSettingsPage page (settings (game st)) = Ok groups.
Proof.
  revert built st.
  induction names as [|name rest IH]; intros built st; cbn [Window.add_pages].
  - intros [= <-] Hp Hnd Hall. split; [done|]. exists built.
    split_and!; try done. intros page. apply elem_of_or_nil.
  - intros Hrun Hp Hnd Hall.
    apply and_then_Ok in Hrun as (st1 & groups & Hpage & Hrun).
    apply pair_equal_spec in Hpage as [<- Hpage].
    rewrite (and_then_step _ _ _ _ tt eq_refl) in Hrun.
    apply IH in Hrun as (Hg & pages & Hp' & Hnd' & Hkeys & Hall').
    + cbn [game] in *. split; [done|]. exists pages.
      split_and!; try done.
      intros page. eapply elem_of_or_cons; [apply Hkeys|apply dict_set_fst].
    + cbn [self]. apply lookup_insert_eq.
    + by apply dict_set_NoDup.
    + cbn [game]. intros page gs Hin.
      apply dict_set_elem in Hin as [[-> ->]|Hin]; [done|by apply Hall].
Qed.

(** What [__init__] has done when it returns: the pages are built on the
    settings of the game, and [initUi] has run on a window that holds
    them. *)
Lemma window_built (g : Game) (st : state) :
  QSettingsWindow g = (st, Ok tt) ->
  exists names pages st0,
    Settings_pages = Ok names
    /\ NoDup pages.*1
    /\ (forall page, page ∈ pages.*1 <-> page ∈ names)
    /\ (forall page groups,
          (page, groups) ∈ pages ->
          AutoSettingsPage page (settings g) = Ok groups)
    /\ self st0 !! "pages" = Some (OPages pages)
    /\ initUi st0 = (st, Ok tt).
Proof.
  unfold Window.QSettingsWindow, Window.__init__. intros Hrun.
  do 3 rewrite (and_then_step _ _ _ _ tt eq_refl) in Hrun.
  apply and_then_Ok in Hrun as (st1 & names & Hnames & Hrun).
  apply pair_equal_spec in Hnames as [<- Hnames].
  apply and_then_Ok in Hrun as (st2 & [] & Hpages & Hrun).
  apply add_pages_Ok in Hpages as (Hg & pages & Hp & Hnd & Hkeys & Hall).
  - apply and_then_Ok in Hrun as (st3 & icon & Hicon & Hrun).
    apply pair_equal_spec in Hicon as [<- _].
    exists names, pages, st2. split_and!; try done.
    intros page. rewrite Hkeys. cbn. rewrite elem_of_nil.
    split; [by intros [[]|?]|by right].
  - cbn [self]. apply lookup_insert_eq.
  - cbn. apply NoDup_nil_2.
  - intros page groups. cbn. by rewrite elem_of_nil.
Qed.

(** X14: the rows of the category list and the widgets of the stacked
    layout go together.  In a window that [__init__] has built, the list has
    a row for each page of [self.pages], in the order of the dictionary, then
    the rows of the four hand-written pages; the stacked layout holds, at the
    index of each row, the page of that row, each of which is by then an
    attribute of the window; it shows the first page.  When the user picks a
    row, [onSelectionChanged] makes the stacked layout show the widget at
    that index, and changes nothing else. *)
Theorem category_list_matches_pages (g : Game) (st : state) :
  QSettingsWindow g = (st, Ok tt) ->
  exists pages rows stack,
    self st !! "pages" = Some (OPages pages)
    /\ self st !! "categoryModel" = Some (OItemModel rows)
    /\ self st !! "right_layout" = Some (OStackedLayout stack)
    /\ item_text <$> rows
       = pages.*1 ++ ["Mission Generator"; "Cheat Menu"; "LUA Plugins";
                      "LUA Plugins Options"]
    /\ widgets stack
       = (PageOf <$> pages.*1)
         ++ [Attribute "generatorPage"; Attribute "cheatPage";
             Attribute "pluginsPage"; Attribute "pluginsOptionsPage"]
    /\ stack_index stack = 0
    /\ (forall attr,
          Attribute attr ∈ widgets stack ->
          exists o, self st !! attr = Some o /\ o <> ONone)
    /\ forall row : Z,
         0 <= row < Z.of_nat (length rows) ->
         select_row row st
         = (mkState
              (<["right_layout" :=
                   OStackedLayout (mkQStackedLayout (widgets stack) row)]>
                 (<["categoryList" := OListView row]> (self st)))
              (game st) (log st),
            Ok tt).
Proof.
  intros Hrun.
  apply window_built in Hrun as (names & pages & st0 & _ & _ & _ & _ & Hp & Hui).
  apply (initUi_Ok pages) in Hui
    as (rows & stack & Hp' & Hm & Hs & _ & Hrows & Hstack & Hidx & Hgen
        & Hcheat & [ref1 Hpl] & [ref2 Hpo]); [|done].
  exists pages, rows, stack. split_and!; try done.
  - intros attr. rewrite Hstack, elem_of_app, list_elem_of_fmap.
    intros [(page & [=] & _)|Hin].
    revert Hin. rewrite !elem_of_cons, elem_of_nil.
    intros [[= ->]|[[= ->]|[[= ->]|[[= ->]|[]]]]]; eauto.
  - intros row Hrow.
    assert (Hlen : length (widgets stack) = length rows).
    { rewrite Hstack. rewrite <- (length_fmap item_text rows), Hrows.
      by rewrite !length_app, !length_fmap. }
    unfold Window.select_row.
    rewrite (and_then_step _ _ _ _ (OItemModel rows))
      by (unfold Window.getattr; by rewrite Hm).
    replace ((0 <=? row) && (row <? Z.of_nat (length rows))) with true
      by (symmetry; apply andb_true_iff; split;
          [apply Z.leb_le|apply Z.ltb_lt]; lia).
    rewrite (and_then_step _ _ _ _ tt eq_refl).
    unfold Window.onSelectionChanged.
    rewrite (and_then_step _ _ _ _ (OListView row))
      by (unfold Window.getattr; cbn [self]; by rewrite lookup_insert_eq).
    rewrite (and_then_step _ _ _ _ row eq_refl).
    rewrite (and_then_step _ _ _ _ (OStackedLayout stack))
      by (unfold Window.getattr; cbn [self];
          by rewrite lookup_insert_ne, Hs).
    unfold setattr, stack_setCurrentIndex. cbn [self game log].
    rewrite Hlen.
    replace ((0 <=? row) && (row <? Z.of_nat (length rows))) with true
      by (symmetry; apply andb_true_iff; split;
          [apply Z.leb_le|apply Z.ltb_lt]; lia).
    reflexivity.
Qed.

Lemma add_groups_Ok page d sections widgets groups :
  Pages.add_groups split_chunks Settings_fields page d sections widgets
  = Ok groups ->
  exists new,
    groups = widgets ++ new
    /\ Forall2
         (fun section g =>
            Pages.AutoSettingsGroup split_chunks Settings_fields page
              section d = Ok g)
         sections new.
Proof.
  revert widgets. induction sections as [|section rest IH]; intros widgets;
    cbn [Pages.add_groups].
  - intros [= <-]. exists []. by rewrite app_nil_r.
  - destruct (Pages.AutoSettingsGroup _ _ page section d) as [g|e] eqn:E;
      [|done].
    cbn [Py.bind]. intros Hrest.
    apply IH in Hrest as (new & -> & Hall).
    exists (g :: new). rewrite <- app_assoc. split; [done|].
    by constructor.
Qed.

(** X15: every declared option has its control in the window.  In a window
    that [__init__] has built, [self.pages] has exactly one page for each
    name that [Settings.pages()] gives; the page has one group box for each
    section of [Settings.sections(page)], in that order and with the section
    as its title; and the layout of the group box holds, for the [j]-th
    field of [Settings.fields(page, section)], in row [j], the control of
    the class of its description, wired to that field. *)
Theorem every_option_has_its_control
    (g : Game) (st : state) (names : list string) :
  QSettingsWindow g = (st, Ok tt) ->
  Settings_pages = Ok names ->
  exists pages,
    self st !! "pages" = Some (OPages pages)
    /\ NoDup pages.*1
    /\ (forall page, page ∈ pages.*1 <-> page ∈ names)
    /\ forall page groups,
         (page, groups) ∈ pages ->
         exists sections,
           Settings_sections page = Ok sections
           /\ Forall2
                (fun section grp =>
                   Pages.title grp = section
                   /\ exists fields,
                        Settings_fields page section = Ok fields
                        /\ forall (j : nat) name d,
                             fields !! j = Some (name, d) ->
                             exists it,
                               Pages.group_layout grp !! (2 * j + 1)%nat
                               = Some (mkCell j 1 it (Some AlignRight))
                               /\ control_of_item it
                                  = control_for_description d
                               /\ field_of_item it = Some name)
                sections groups.
Proof.
  intros Hrun Hnames.
  apply window_built in Hrun
    as (names' & pages & st0 & Hnames' & Hnd & Hkeys & Hall & Hp & Hui).
  assert (names' = names) as -> by congruence.
  apply (initUi_Ok pages) in Hui as (rows & stack & Hp' & _); [|done].
  exists pages. split_and!; try done.
  intros page groups Hin. specialize (Hall page groups Hin).
  unfold Pages.AutoSettingsPage, Pages.AutoSettingsPageLayout in Hall.
  destruct (Settings_sections page) as [sections|e]; [|done].
  cbn [Py.bind] in Hall. exists sections. split; [done|].
  apply add_groups_Ok in Hall as (new & -> & Hall). cbn [app].
  eapply Forall2_impl; [exact Hall|].
  intros section grp. cbn beta. unfold Pages.AutoSettingsGroup.
  destruct (AutoSettingsLayout split_chunks Settings_fields page section
              (settings g)) as [l|e] eqn:El; [|done].
  cbn [Py.bind]. intros [= <-]. cbn [Pages.title Pages.group_layout].
  split; [done|].
  unfold AutoSettingsLayout in El.
  destruct (Settings_fields page section) as [fields|e]; [|done].
  cbn [Py.bind] in El. exists fields. split; [done|].
  apply add_rows_inv in El as (cells & -> & _ & Hrows).
  intros j name d Hj.
  destruct (Hrows j name d Hj) as (txt & it & _ & Hit & _ & Hkind & _ & Hfield).
  exists it. by split_and!.
Qed.

(** *** What the hand-written pages show *)

Local Abbreviation stored := (Instance.getattr Settings_class).

(** The check boxes and the spinners of the generator page: the attribute
    of the window, for a spinner its range, and the setting it is made
    from. *)
Local Abbreviation generator_checkboxes :=
  [ ("supercarrier", "supercarrier"); ("generate_marks", "generate_marks");
    ("generate_dark_kneeboard", "generate_dark_kneeboard");
    ("never_delay_players", "never_delay_player_flights");
    ("smoke", "perf_smoke_gen"); ("red_alert", "perf_red_alert_state");
    ("arti", "perf_artillery"); ("moving_units", "perf_moving_units");
    ("infantry", "perf_infantry");
    ("destroyed_units", "perf_destroyed_units"); ("culling", "perf_culling");
    ("culling_do_not_cull_carrier", "perf_do_not_cull_carrier") ].

Local Abbreviation generator_spinboxes :=
  [ ("smoke_spacing", 800, 24000, "perf_smoke_spacing");
    ("culling_distance", 10, 10000, "perf_culling_distance") ].

Local Abbreviation shows_checkbox d window :=
  (fun '(attr, name) =>
     exists v b,
       stored d name = Ok v /\ to_bool v = Ok b
       /\ window !! attr = Some (OCheckBox (mkQCheckBox b))).

Local Abbreviation shows_spinbox d window :=
  (fun '(attr, lo, hi, name) =>
     exists v z,
       stored d name = Ok v /\ to_int v = Ok z
       /\ window !! attr = Some (OSpinBox (mkQSpinBox lo hi (bound lo hi z)))).

Lemma setattr_step {B} a o (k : unit -> M B) w g l :
  and_then (setattr a o) k (mkState w g l) = k tt (mkState (<[a := o]> w) g l).
Proof. reflexivity. Qed.

Lemma add_checkbox_Ok attr name w g l st' :
  add_checkbox attr name (mkState w g l) = (st', Ok tt) ->
  exists v b,
    stored (settings g) name = Ok v /\ to_bool v = Ok b
    /\ st' = mkState (<[attr := OCheckBox (mkQCheckBox b)]>
                        (<[attr := OCheckBox QCheckBox_new]> w)) g l.
Proof.
  unfold Window.add_checkbox. intros Hrun.
  rewrite setattr_step in Hrun.
  apply and_then_Ok in Hrun as (st1 & v & Hv & Hrun).
  apply pair_equal_spec in Hv as [<- Hv].
  apply and_then_Ok in Hrun as (st2 & b & Hb & Hrun).
  apply pair_equal_spec in Hb as [<- Hb].
  apply pair_equal_spec in Hrun as [<- _].
  exists v, b. by split_and!.
Qed.

Lemma add_spinbox_Ok attr lo hi name w g l st' :
  add_spinbox attr lo hi name (mkState w g l) = (st', Ok tt) ->
  exists v z w',
    stored (settings g) name = Ok v /\ to_int v = Ok z
    /\ st' = mkState w' g l
    /\ w' !! attr
       = Some (OSpinBox
                 (setValue z
                    (setMaximum hi (setMinimum lo QSpinBox_new).1).1).1)
    /\ forall k, k <> attr -> w' !! k = w !! k.
Proof.
  unfold Window.add_spinbox. intros Hrun.
  rewrite !setattr_step in Hrun.
  apply and_then_Ok in Hrun as (st1 & v & Hv & Hrun).
  apply pair_equal_spec in Hv as [<- Hv].
  apply and_then_Ok in Hrun as (st2 & z & Hz & Hrun).
  apply pair_equal_spec in Hz as [<- Hz].
  apply pair_equal_spec in Hrun as [<- _].
  exists v, z. eexists. split_and!; [done|done|reflexivity| |].
  - cbn [self]. apply lookup_insert_eq.
  - intros k Hk. cbn [self]. by rewrite !lookup_insert_ne.
Qed.

Local Ltac checkbox_step Hrun :=
  let s := fresh "s" in let H := fresh "H" in
  let v := fresh "v" in let b := fresh "b" in
  let Hv := fresh "Hv" in let Hb := fresh "Hb" in
  apply and_then_Ok in Hrun as (s & [] & H & Hrun);
  apply add_checkbox_Ok in H as (v & b & Hv & Hb & ->).

Local Ltac spinbox_step Hrun :=
  let s := fresh "s" in let H := fresh "H" in
  let v := fresh "v" in let z := fresh "z" in let w := fresh "w" in
  let Hv := fresh "Hv" in let Hz := fresh "Hz" in
  let Hw := fresh "Hw" in let Hk := fresh "Hk" in
  apply and_then_Ok in Hrun as (s & [] & H & Hrun);
  apply add_spinbox_Ok in H as (v & z & w & Hv & Hz & -> & Hw & Hk).

Local Ltac look_back :=
  repeat first
    [ rewrite lookup_insert_eq
    | rewrite lookup_insert_ne by done
    | match goal with
      | H : ?w !! _ = Some _ |- context [?w !! _] => rewrite H
      | H : forall k, k <> _ -> ?w !! k = _ |- context [?w !! _] =>
        rewrite H by done
      end ].

(** What [initGeneratorLayout] leaves in the window. *)
Lemma initGeneratorLayout_Ok st st' :
  initGeneratorLayout st = (st', Ok tt) ->
  Forall (shows_checkbox (settings (game st)) (self st')) generator_checkboxes
  /\ Forall (shows_spinbox (settings (game st)) (self st'))
       generator_spinboxes.
Proof.
  unfold Window.initGeneratorLayout. destruct st as [w0 g0 l0].
  cbn [game]. intros Hrun.
  rewrite !setattr_step in Hrun.
  do 4 checkbox_step Hrun.
  apply and_then_Ok in Hrun as (s3 & v3 & Hd & Hrun).
  apply pair_equal_spec in Hd as [<- _].
  apply and_then_Ok in Hrun as (s4 & ref & Href & Hrun).
  apply pair_equal_spec in Href as [<- _].
  rewrite setattr_step in Hrun.
  apply and_then_Ok in Hrun as (s5 & w & Hstart & Hrun).
  cbn [game self log] in Hstart.
  destruct (StartTypeComboBox.start_type Settings_class (settings g0))
    as [[w1 d]|e] eqn:E; [|done].
  apply pair_equal_spec in Hstart as [<- _].
  apply start_type_same in E as (Hsame & _ & _).
  rewrite !setattr_step in Hrun.
  checkbox_step Hrun. spinbox_step Hrun.
  do 6 checkbox_step Hrun. spinbox_step Hrun.
  checkbox_step Hrun.
  apply and_then_Ok in Hrun as (s8 & ref2 & Href2 & Hrun).
  apply pair_equal_spec in Href2 as [<- _].
  apply pair_equal_spec in Hrun as [<- _].
  cbn [settings] in *. rewrite Hsame in *. cbn [self].
  split.
  - repeat constructor;
      (eexists _, _; split; [eassumption|]; split; [eassumption|]);
      look_back; reflexivity.
  - repeat constructor;
      (eexists _, _; split; [eassumption|]; split; [eassumption|]);
      look_back; reflexivity.
Qed.

Lemma cheat_box_shows d box :
  CheatSettingsBox.__init__ Settings_class QLabeledWidget d = Ok box ->
  Forall (fun '(shown, name) =>
            exists v, stored d name = Ok v /\ to_bool v = Ok shown)
    [ (CheatSettingsBox.show_red_ato box, "show_red_ato");
      (CheatSettingsBox.show_frontline_cheat box, "enable_frontline_cheats");
      (CheatSettingsBox.show_base_capture_cheat box,
       "enable_base_capture_cheat") ].
Proof.
  unfold CheatSettingsBox.__init__.
  destruct (stored d "show_red_ato") as [v1|] eqn:E1; [|done].
  cbn [Py.bind]. destruct (to_bool v1) as [b1|] eqn:B1; [|done].
  cbn [Py.bind].
  destruct (stored d "enable_frontline_cheats") as [v2|] eqn:E2; [|done].
  cbn [Py.bind]. destruct (to_bool v2) as [b2|] eqn:B2; [|done].
  cbn [Py.bind].
  destruct (stored d "enable_base_capture_cheat") as [v3|] eqn:E3; [|done].
  cbn [Py.bind]. destruct (to_bool v3) as [b3|] eqn:B3; [|done].
  cbn [Py.bind].
  destruct (QLabeledWidget _ _) as [r1|]; [|done]. cbn [Py.bind].
  destruct (QLabeledWidget _ _) as [r2|]; [|done]. cbn [Py.bind].
  destruct (QLabeledWidget _ _) as [r3|]; [|done]. cbn [Py.bind].
  intros [= <-]. repeat constructor; eauto.
Qed.

Lemma cheat_button_amount i a btn :
  Window.cheat_button row_of_half i a = Ok btn -> amount btn = a.
Proof.
  unfold Window.cheat_button.
  destruct (0 <? a); destruct (row_of_half i); cbn [Py.bind]; [|done| |done];
    by intros [= <-].
Qed.

Lemma add_cheat_buttons_Ok amounts i buttons w g l st' :
  add_cheat_buttons i amounts buttons (mkState w g l) = (st', Ok tt) ->
  w !! "moneyCheatBoxLayout" = Some (OMoneyLayout buttons) ->
  exists more,
    self st' !! "moneyCheatBoxLayout" = Some (OMoneyLayout (buttons ++ more))
    /\ amount <$> more = amounts
    /\ forall (n : nat) btn,
         more !! n = Some btn ->
         Window.cheat_button row_of_half (i + Z.of_nat n) (amount btn)
         = Ok btn.
Proof.
  revert i buttons w.
  induction amounts as [|a rest IH]; intros i buttons w;
    cbn [Window.add_cheat_buttons].
  - intros [= <-] Hw. exists []. rewrite app_nil_r. by split_and!.
  - intros Hrun Hw.
    apply and_then_Ok in Hrun as (s & btn & Hbtn & Hrun).
    apply pair_equal_spec in Hbtn as [<- Hbtn].
    rewrite setattr_step in Hrun.
    apply IH in Hrun as (more & Hlayout & Hamounts & Hmore);
      [|apply lookup_insert_eq].
    exists (btn :: more). split_and!.
    + by rewrite Hlayout, <- app_assoc.
    + cbn [fmap list_fmap]. f_equal; [|done].
      by apply (cheat_button_amount i).
    + intros [|n] b.
      * intros [= <-]. rewrite Z.add_0_r.
        by rewrite (cheat_button_amount _ _ _ Hbtn).
      * intros Hb. apply Hmore in Hb.
        by replace (i + Z.of_nat (S n)) with (i + 1 + Z.of_nat n) by lia.
Qed.

(** What [initCheatLayout] leaves in the window. *)
Lemma initCheatLayout_Ok st st' :
  initCheatLayout st = (st', Ok tt) ->
  (exists box,
     CheatSettingsBox.__init__ Settings_class QLabeledWidget
       (settings (game st)) = Ok box
     /\ self st' !! "cheat_options" = Some (OCheatSettingsBox box))
  /\ exists buttons,
       self st' !! "moneyCheatBoxLayout" = Some (OMoneyLayout buttons)
       /\ amount <$> buttons = cheats_amounts
       /\ forall (n : nat) btn,
            buttons !! n = Some btn ->
            Window.cheat_button row_of_half (Z.of_nat n) (amount btn)
            = Ok btn.
Proof.
  unfold Window.initCheatLayout. destruct st as [w g l]. cbn [game].
  intros Hrun. rewrite !setattr_step in Hrun.
  apply and_then_Ok in Hrun as (s & box & Hbox & Hrun).
  apply pair_equal_spec in Hbox as [<- Hbox]. cbn [game] in Hbox.
  rewrite !setattr_step in Hrun. split.
  - exists box. split; [done|].
    rewrite (assigns_add_cheat_buttons ["moneyCheatBoxLayout"] _ _ _
               (ltac:(in_names)) _ _ _ Hrun "cheat_options") by in_names.
    cbn [self]. rewrite !lookup_insert_ne by done. apply lookup_insert_eq.
  - apply add_cheat_buttons_Ok in Hrun as (more & Hlayout & Hamounts & Hmore);
      [|apply lookup_insert_eq].
    exists more. by split_and!.
Qed.

Lemma add_category_step text icon_name attr rows stack w g l st' r :
  add_category text icon_name attr rows stack (mkState w g l) = (st', Ok r) ->
  exists rows' stack',
    st' = mkState
            (<["right_layout" := OStackedLayout stack']>
               (<["categoryModel" := OItemModel rows']> w)) g l.
Proof.
  destruct r as [rows' stack']. intros H.
  apply add_category_Ok in H as (_ & _ & ->). by exists rows', stack'.
Qed.

(** The controls of the two pages are not assigned again once their page
    is made. *)
Lemma initUi_hand_written st st' :
  initUi st = (st', Ok tt) ->
  exists st1 st2 st3 st4,
    same_game (game st) (game st1)
    /\ initGeneratorLayout st1 = (st2, Ok tt)
    /\ game st3 = game st2
    /\ initCheatLayout st3 = (st4, Ok tt)
    /\ (forall k, k ∈ generator_attributes -> self st' !! k = self st2 !! k)
    /\ (forall k, k ∈ cheat_attributes -> self st' !! k = self st4 !! k).
Proof.
  unfold Window.initUi. destruct st as [w g l]. cbn [game]. intros Hrun.
  rewrite !setattr_step in Hrun.
  apply and_then_Ok in Hrun as (s & o & Ho & Hrun).
  apply pair_equal_spec in Ho as [<- _].
  apply and_then_Ok in Hrun as (st1 & [rows1 stack1] & Hitems & Hrun).
  assert (Hsame : same_game g (game st1)).
  { destruct o; try (by apply pair_equal_spec in Hitems as [_ ?]).
    by destruct (reads_only_add_page_items _ _ _ _ _ _ Hitems). }
  clear Hitems.
  apply and_then_Ok in Hrun as (st2 & [] & Hgen & Hrun).
  destruct st2 as [w2 g2 l2].
  apply and_then_Ok in Hrun as (st3 & r3 & Hcat & Hrun).
  pose proof (add_category_step _ _ _ _ _ _ _ _ _ _ Hcat)
    as (rows3 & stack3 & Hst3).
  clear Hcat. destruct r3 as [rows3' stack3'].
  apply and_then_Ok in Hrun as (st4 & [] & Hcheat & Hrun).
  pose proof (assigns_initCheatLayout _ _ _ Hcheat) as Hk4.
  destruct st4 as [w4 g4 l4]. cbn [self] in Hk4.
  apply and_then_Ok in Hrun as (st5 & [rows5 stack5] & Hcat & Hrun).
  apply add_category_step in Hcat as (rows5' & stack5' & ->).
  apply and_then_Ok in Hrun as (st6 & ref1 & Href1 & Hrun).
  apply pair_equal_spec in Href1 as [<- _].
  rewrite setattr_step in Hrun.
  apply and_then_Ok in Hrun as (st7 & [rows7 stack7] & Hcat & Hrun).
  apply add_category_step in Hcat as (rows7' & stack7' & ->).
  apply and_then_Ok in Hrun as (st8 & ref2 & Href2 & Hrun).
  apply pair_equal_spec in Href2 as [<- _].
  rewrite setattr_step in Hrun.
  apply and_then_Ok in Hrun as (st9 & [rows9 stack9] & Hcat & Hrun).
  apply add_category_step in Hcat as (rows9' & stack9' & ->).
  apply pair_equal_spec in Hrun as [<- _].
  exists st1, (mkState w2 g2 l2), st3, (mkState w4 g4 l4).
  split_and!; [done|done|by rewrite Hst3|done| |].
  - intros k Hk.
    assert (Hapart : Forall (fun k : string =>
                               (k ∉ cheat_attributes)
                               /\ (k ∉ ["categoryList"; "right_layout";
                                        "categoryModel"; "pluginsPage";
                                        "pluginsOptionsPage"]))
                       generator_attributes)
      by (apply (bool_decide_unpack _); vm_compute; exact I).
    rewrite Forall_forall in Hapart. destruct (Hapart k Hk) as [Hc Hui].
    rewrite !elem_of_cons, elem_of_nil in Hui.
    cbn [self]. rewrite !lookup_insert_ne by (intros <-; apply Hui; auto 10).
    rewrite (Hk4 k Hc), Hst3. cbn [self].
    rewrite !lookup_insert_ne by (intros <-; apply Hui; auto 10).
    reflexivity.
  - intros k Hk.
    assert (Hapart : Forall (fun k : string =>
                               k ∉ ["categoryList"; "right_layout";
                                    "categoryModel"; "pluginsPage";
                                    "pluginsOptionsPage"])
                       cheat_attributes)
      by (apply (bool_decide_unpack _); vm_compute; exact I).
    rewrite Forall_forall in Hapart. pose proof (Hapart k Hk) as Hui.
    rewrite !elem_of_cons, elem_of_nil in Hui.
    cbn [self]. rewrite !lookup_insert_ne by (intros <-; apply Hui; auto 10).
    reflexivity.
Qed.

(** [__init__] runs [initUi] on the game it was given. *)
Lemma window_opened (g : Game) (st : state) :
  QSettingsWindow g = (st, Ok tt) ->
  exists st0, same_game g (game st0) /\ initUi st0 = (st, Ok tt).
Proof.
  unfold Window.QSettingsWindow, Window.__init__. intros Hrun.
  rewrite !setattr_step in Hrun.
  apply and_then_Ok in Hrun as (s1 & names & Hn & Hrun).
  apply pair_equal_spec in Hn as [<- _].
  apply and_then_Ok in Hrun as (s2 & [] & Hpages & Hrun).
  apply and_then_Ok in Hrun as (s3 & icon & Hicon & Hrun).
  apply pair_equal_spec in Hicon as [<- _].
  exists s2. split; [|done].
  by destruct (reads_only_add_pages _ _ _ _ _ Hpages).
Qed.

(** X16: the controls of the two hand-written pages show the settings the
    window was opened on.  In a window that [__init__] has built, each of the
    twelve check boxes of the generator page holds the truth value of its
    setting, each of its two spinners has its range and holds the value of
    its setting brought into that range, and the three check boxes of the
    cheat box hold the truth values of theirs.  So the window is built only
    on settings that have all of these, of a type that the control takes. *)
Theorem hand_written_pages_show_the_settings (g : Game) (st : state) :
  QSettingsWindow g = (st, Ok tt) ->
  Forall (shows_checkbox (settings g) (self st)) generator_checkboxes
  /\ Forall (shows_spinbox (settings g) (self st)) generator_spinboxes
  /\ exists box,
       self st !! "cheat_options" = Some (OCheatSettingsBox box)
       /\ Forall (fun '(shown, name) =>
                    exists v,
                      stored (settings g) name = Ok v /\ to_bool v = Ok shown)
            [ (CheatSettingsBox.show_red_ato box, "show_red_ato");
              (CheatSettingsBox.show_frontline_cheat box,
               "enable_frontline_cheats");
              (CheatSettingsBox.show_base_capture_cheat box,
               "enable_base_capture_cheat") ].
Proof.
  intros Hrun.
  apply window_opened in Hrun as (st0 & Hg0 & Hui).
  apply initUi_hand_written in Hui
    as (st1 & st2 & st3 & st4 & Hg1 & Hgen & Hg3 & Hcheat & Hk & Hc).
  pose proof (reads_only_initGeneratorLayout _ _ _ Hgen) as [Hg2 _].
  destruct (same_game_trans _ _ _ Hg0 Hg1) as (_ & Hread1 & _).
  destruct (same_game_trans _ _ _ (same_game_trans _ _ _ Hg0 Hg1) Hg2)
    as (_ & Hread2 & _).
  apply initGeneratorLayout_Ok in Hgen as [Hboxes Hspins].
  apply initCheatLayout_Ok in Hcheat as [(box & Hbox & Hshown) _].
  rewrite Hg3 in Hbox. apply cheat_box_shows in Hbox.
  split_and!.
  - assert (Hattrs : Forall (fun p : string * string =>
                               p.1 ∈ generator_attributes)
                       generator_checkboxes)
      by (apply (bool_decide_unpack _); vm_compute; exact I).
    eapply Forall_impl; [apply Forall_and; split; [exact Hattrs|exact Hboxes]|].
    intros [attr name] [Hattr (v & b & Hv & Hb & Hw)]. exists v, b.
    rewrite <- Hread1. rewrite (Hk attr Hattr). done.
  - assert (Hattrs : Forall (fun p : string * Z * Z * string =>
                               p.1.1.1 ∈ generator_attributes)
                       generator_spinboxes)
      by (apply (bool_decide_unpack _); vm_compute; exact I).
    eapply Forall_impl; [apply Forall_and; split; [exact Hattrs|exact Hspins]|].
    intros [[[attr lo] hi] name] [Hattr (v & z & Hv & Hz & Hw)]. exists v, z.
    rewrite <- Hread1. rewrite (Hk attr Hattr). done.
  - exists box. split; [by rewrite Hc by in_names|].
    eapply Forall_impl; [exact Hbox|].
    intros [shown name] (v & Hv & Hb). exists v. by rewrite <- Hread2.
Qed.

(** X17: the buttons of the money cheat box.  In a window that [__init__]
    has built, the box holds one button for each of the ten amounts, in the
    order of the list; each is the button that the body of the loop makes of
    its index and its amount.  A click on a button logs its amount, then
    adds it to the budget and sends the game to [updateGame]; when the
    addition raises, the line is in the log and the budget is as it was.
    The click does not write the window, and [updateGame] gets the game
    with the settings as they were. *)
Theorem cheat_buttons_add_their_amounts (g : Game) (st : state) :
  QSettingsWindow g = (st, Ok tt) ->
  exists buttons,
    self st !! "moneyCheatBoxLayout" = Some (OMoneyLayout buttons)
    /\ amount <$> buttons = cheats_amounts
    /\ forall (n : nat) btn,
         buttons !! n = Some btn ->
         Window.cheat_button row_of_half (Z.of_nat n) (amount btn) = Ok btn
         /\ Window.click_cheat QDialog_getattr add updateGame n st
            = let line :=
                "CHEATING FOR AMOUNT : " +:+ str_int (amount btn) +:+ "M" in
              match add (budget (game st)) (VInt (amount btn)) with
              | Ok b =>
                let '(g', r) :=
                  updateGame (mkGame (settings (game st)) b) in
                (mkState (self st) g' (log st ++ [line]), r)
              | Raise e =>
                (mkState (self st) (game st) (log st ++ [line]), Raise e)
              end.
Proof.
  intros Hrun.
  apply window_opened in Hrun as (st0 & _ & Hui).
  apply initUi_hand_written in Hui
    as (st1 & st2 & st3 & st4 & _ & _ & _ & Hcheat & _ & Hc).
  apply initCheatLayout_Ok in Hcheat
    as [_ (buttons & Hlayout & Hamounts & Hbuttons)].
  rewrite <- Hc in Hlayout by in_names.
  exists buttons. split_and!; [done|done|].
  intros n btn Hbtn. split; [by apply Hbuttons|].
  unfold Window.click_cheat.
  rewrite (and_then_step _ _ st st (OMoneyLayout buttons))
    by (unfold Window.getattr; by rewrite Hlayout).
  rewrite Hbtn.
  unfold Window.cheatLambda, Window.cheatMoney, and_then, logging_info,
    get_budget, lift, set_budget, on_game.
  cbn [game self log budget settings].
  by destruct (add (budget (game st)) (VInt (amount btn))).
Qed.

End WindowSpec.

(** *** The window on the demo game *)

Lemma demo_window_built :
  demo_QSettingsWindow demo_game = (demo_window, Ok tt).
Proof. vm_compute. reflexivity. Qed.

(** On the demo window [applySettings] raises at once, and a click on the
    supercarrier box only flips the box. *)
Lemma applySettings_needs_unassigned_widgets_witness :
  demo_applySettings demo_window
  = (demo_window, Raise (AttributeError "playerCoalitionSkill"))
  /\ Window.self demo_window !! "supercarrier"
     = Some (Window.OCheckBox (Qt.mkQCheckBox false)).
Proof.
  split; [|vm_compute; reflexivity].
  destruct (applySettings_needs_unassigned_widgets demo_split demo_Settings_class
               (Ok ["General"]) demo_Settings_sections demo_Settings_fields
               demo_ICONS (fun _ => Some (fun _ => Ok VNone)) (fun _ _ => Ok 6%N) (fun _ _ => Ok 7%N)
               (Ok 8%N) (Ok 9%N) (Ok 10%N) (fun _ => None) (fun _ => 0)
               (fun i => Ok (i / 2))
               (fun _ method => Raise (AttributeError method))
               (fun _ name => Raise (AttributeError name))
               (fun _ => Raise (TypeError "int"))
               (fun g => (g, Ok tt)) (fun g => (g, Ok tt))
               demo_game demo_window) as [H _].
  - exact demo_window_built.
  - reflexivity.
  - exact H.
Defined.

(** Building the demo window leaves the demo game as it is. *)
Lemma building_the_window_reads_only_witness :
  Window.game demo_window = demo_game /\ Window.log demo_window = [].
Proof.
  destruct (building_the_window_reads_only demo_split demo_Settings_class
               (Ok ["General"]) demo_Settings_sections demo_Settings_fields
               demo_ICONS (fun _ _ => Ok 6%N) (fun _ _ => Ok 7%N)
               (Ok 8%N) (Ok 9%N) (Ok 10%N) (fun _ => None) (fun _ => 0)
               (fun i => Ok (i / 2))
               demo_game demo_window (Ok tt)) as (_ & Hlog & _ & _ & Hgame).
  - exact demo_window_built.
  - split; [apply Hgame; eexists; vm_compute; reflexivity|exact Hlog].
Defined.

(** The demo window has the page [General] and the four hand-written
    pages; picking the third row shows the cheat page. *)
Lemma category_list_matches_pages_witness :
  exists rows stack,
    Window.self demo_window !! "categoryModel" = Some (Window.OItemModel rows)
    /\ Window.item_text <$> rows
       = ["General"; "Mission Generator"; "Cheat Menu"; "LUA Plugins";
          "LUA Plugins Options"]
    /\ Window.widgets stack !! 2%nat = Some (Window.Attribute "cheatPage")
    /\ Window.self
         (Window.select_row (fun _ => None)
            (fun _ method => Raise (AttributeError method)) 2 demo_window).1
       !! "right_layout"
       = Some (Window.OStackedLayout
                 (Window.mkQStackedLayout (Window.widgets stack) 2)).
Proof.
  destruct (category_list_matches_pages demo_split demo_Settings_class
               (Ok ["General"]) demo_Settings_sections demo_Settings_fields
               demo_ICONS (fun _ _ => Ok 6%N) (fun _ _ => Ok 7%N)
               (Ok 8%N) (Ok 9%N) (Ok 10%N) (fun _ => None) (fun _ => 0)
               (fun i => Ok (i / 2))
               (fun _ method => Raise (AttributeError method))
               demo_game demo_window)
    as (pages & rows & stack & Hp & Hm & Hs & Hrows & Hstack & _ & _ & Hsel).
  - exact demo_window_built.
  - exists rows, stack.
    vm_compute in Hm. injection Hm as <-.
    vm_compute in Hs. injection Hs as <-.
    split; [vm_compute; reflexivity|].
    split; [vm_compute; reflexivity|]. split; [vm_compute; reflexivity|].
    rewrite Hsel; [apply lookup_insert_eq|simpl length; lia].
Defined.

(** The page [General] of the demo window has the group [Display], whose
    third row holds the spinner of the pilot limit. *)
Lemma every_option_has_its_control_witness :
  exists groups grp it,
    Window.self demo_window !! "pages"
    = Some (Window.OPages [("General", groups)])
    /\ groups = [grp] /\ Pages.title grp = "Display"
    /\ Pages.group_layout grp !! 5%nat
       = Some (QSettingsWindow.mkCell 2 1 it (Some QSettingsWindow.AlignRight))
    /\ QSettingsWindow.control_of_item it
       = Some QSettingsWindow.integer_spinner
    /\ QSettingsWindow.field_of_item it = Some "pilot_limit".
Proof.
  destruct (every_option_has_its_control demo_split demo_Settings_class
               (Ok ["General"]) demo_Settings_sections demo_Settings_fields
               demo_ICONS (fun _ _ => Ok 6%N) (fun _ _ => Ok 7%N)
               (Ok 8%N) (Ok 9%N) (Ok 10%N) (fun _ => None) (fun _ => 0)
               (fun i => Ok (i / 2))
               demo_game demo_window ["General"])
    as (pages & Hp & _ & _ & Hall).
  - exact demo_window_built.
  - reflexivity.
  - vm_compute in Hp. injection Hp as <-.
    edestruct (Hall "General") as (sections & Hsec & Hgroups);
      [apply elem_of_cons; by left|].
    vm_compute in Hsec. injection Hsec as <-.
    apply Forall2_cons_1 in Hgroups
      as [[Htitle (fields & Hfields & Hcontrols)] _].
    vm_compute in Hfields. injection Hfields as <-.
    edestruct (Hcontrols 2%nat) as (it & Hit & Hkind & Hfield);
      [reflexivity|].
    eexists _, _, it. split; [reflexivity|]. split; [reflexivity|].
    split; [exact Htitle|]. split; [exact Hit|]. split; [exact Hkind|].
    exact Hfield.
Defined.

(** In the demo window the box for the smoke is checked and the spinner
    beside it holds the spacing of 1600, as the class has them; the cheat box
    shows no red ATO. *)
Lemma hand_written_pages_show_the_settings_witness :
  Window.self demo_window !! "smoke"
  = Some (Window.OCheckBox (Qt.mkQCheckBox true))
  /\ Window.self demo_window !! "smoke_spacing"
     = Some (Window.OSpinBox (Qt.mkQSpinBox 800 24000 1600))
  /\ exists box,
       Window.self demo_window !! "cheat_options"
       = Some (Window.OCheatSettingsBox box)
       /\ CheatSettingsBox.show_red_ato box = false.
Proof.
  destruct (hand_written_pages_show_the_settings demo_split
               demo_Settings_class (Ok ["General"]) demo_Settings_sections
               demo_Settings_fields demo_ICONS (fun _ _ => Ok 6%N)
               (fun _ _ => Ok 7%N) (Ok 8%N) (Ok 9%N) (Ok 10%N)
               (fun _ => None) (fun _ => 0) (fun i => Ok (i / 2))
               demo_game demo_window)
    as (Hboxes & Hspins & box & Hbox & Hshown).
  - exact demo_window_built.
  - split_and!.
    + do 4 apply Forall_cons in Hboxes as [_ Hboxes].
      apply Forall_cons in Hboxes as [(v & b & Hv & Hb & Hw) _].
      vm_compute in Hv. injection Hv as <-. injection Hb as <-. exact Hw.
    + apply Forall_cons in Hspins as [(v & z & Hv & Hz & Hw) _].
      vm_compute in Hv. injection Hv as <-. injection Hz as <-. exact Hw.
    + exists box. split; [exact Hbox|].
      apply Forall_cons in Hshown as [(v & Hv & Hb) _].
      vm_compute in Hv. injection Hv as <-. by injection Hb as <-.
Defined.

(** The seventh button of the demo window takes 25 from the budget of
    2000. *)
Lemma cheat_buttons_add_their_amounts_witness :
  let add (x y : value) :=
    match x, y with
    | VInt a, VInt b => Ok (VInt (a + b))
    | _, _ => Raise (TypeError "unsupported operand type(s) for +")
    end in
  let clicked :=
    (Window.click_cheat (fun _ => None) add (fun g => (g, Ok tt)) 6
       demo_window).1 in
  Window.budget (Window.game clicked) = VInt 1975
  /\ Window.log clicked = ["CHEATING FOR AMOUNT : -25M"]
  /\ Window.self clicked = Window.self demo_window.
Proof.
  intros add clicked.
  destruct (cheat_buttons_add_their_amounts demo_split
               demo_Settings_class (Ok ["General"]) demo_Settings_sections
               demo_Settings_fields demo_ICONS (fun _ _ => Ok 6%N)
               (fun _ _ => Ok 7%N) (Ok 8%N) (Ok 9%N) (Ok 10%N)
               (fun _ => None) (fun _ => 0) (fun i => Ok (i / 2))
               add (fun g => (g, Ok tt)) demo_game demo_window)
    as (buttons & Hlayout & _ & Hbuttons).
  - exact demo_window_built.
  - vm_compute in Hlayout. injection Hlayout as <-.
    destruct (Hbuttons 6%nat _ eq_refl) as [_ Hclick].
    unfold clicked. rewrite Hclick.
    split_and!; [vm_compute; reflexivity..|reflexivity].
Defined.
